(** * Uni-Fold data pipeline ([unifold/dataset.py]): a shallow embedding

    The Python module orchestrates loading, assembling and sampling of
    training examples.  This development embeds the orchestration layer:

    - Python dictionaries are insertion-ordered association lists
      ([PyDict]), because the code iterates over them and turns their keys
      into indexable lists;
    - exceptions are values of type [exn]; fallible pure code lives in the
      error monad [result], code that also reads the disk or the global
      random generator lives in the state-and-error monad [M];
    - a floating point number is the rational it denotes ([Q]).  Where
      rounding decides a discrete outcome (the bin of a cross-link, a
      division by zero) the float operations are parameters ([TorchFloat],
      [PyFloat]) and the properties hold for every arithmetic; in the rigid
      transform of the label coordinates the arithmetic is exact and the
      rounding of a computed result enters the statements as an explicit
      error bound;
    - numpy arrays and torch tensors are a shape with a flat row-major
      buffer ([ndarray]); atom coordinates keep their residue/atom nesting;
    - external collaborators (the numeric feature processor, the MSA pairing
      code, numpy's random generator, the batch collation of unicore) are
      fields of the records [NumpyRandom] and [Externals].

    Part I holds the embedding, Part II the properties. *)

From Stdlib Require Import ZArith QArith Qround Ascii String List Lia.
From Stdlib Require Import Permutation Sorted Lqa Qabs.
From stdpp Require Import base tactics option list.
Import ListNotations.

Local Open Scope string_scope.
Local Open Scope list_scope.

(** * Part I: the embedding *)

(** ** Python dictionaries: insertion-ordered, unique keys *)

Module PyDict.

Definition dict (V : Type) : Type := list (string * V).

Definition empty {V} : dict V := [].

(** [d.get(k)] *)
Fixpoint get {V} (d : dict V) (k : string) : option V :=
  match d with
  | [] => None
  | (k', v) :: d' => if String.eqb k' k then Some v else get d' k
  end.

(** [k in d] *)
Definition mem {V} (d : dict V) (k : string) : bool :=
  match get d k with Some _ => true | None => false end.

(** [d[k] = v]: an existing key keeps its position, a new one goes last *)
Fixpoint set {V} (d : dict V) (k : string) (v : V) : dict V :=
  match d with
  | [] => [(k, v)]
  | (k', v') :: d' =>
      if String.eqb k' k then (k, v) :: d' else (k', v') :: set d' k v
  end.

(** [del d[k]] / [d.pop(k)] for a present key *)
Fixpoint remove {V} (d : dict V) (k : string) : dict V :=
  match d with
  | [] => []
  | (k', v') :: d' =>
      if String.eqb k' k then d' else (k', v') :: remove d' k
  end.

(** [list(d.keys())], [list(d.values())], [len(d)] *)
Definition keys {V} (d : dict V) : list string := map fst d.
Definition values {V} (d : dict V) : list V := map snd d.
Definition len {V} (d : dict V) : nat := length d.

(** [d.update(e)] *)
Definition update {V} (d e : dict V) : dict V :=
  fold_left (fun acc kv => set acc (fst kv) (snd kv)) e d.

(** [{k: v for k, v in d.items() if p(k)}] *)
Definition filter_keys {V} (p : string -> bool) (d : dict V) : dict V :=
  List.filter (fun kv => p (fst kv)) d.

(** A JSON object or a dict literal never repeats a key. *)
Definition wf {V} (d : dict V) : Prop := NoDup (keys d).

End PyDict.

Abbreviation dict := PyDict.dict.

(** ** Arrays, coordinates and dictionary values *)

(** A numpy array or torch tensor: its shape and its row-major buffer. *)
Record ndarray (A : Type) : Type := mk_ndarray {
  shape : list nat;
  data : list A
}.
Arguments mk_ndarray {A} _ _.
Arguments shape {A} _.
Arguments data {A} _.

Definition numel (sh : list nat) : nat := fold_right Nat.mul 1 sh.

(** [np.zeros(shape)] *)
Definition np_zeros (sh : list nat) : ndarray Q :=
  mk_ndarray sh (repeat 0%Q (numel sh)).

(** [torch.unsqueeze(t, 0)]: a new leading axis of size one, same buffer *)
Definition unsqueeze0 {A} (t : ndarray A) : ndarray A :=
  mk_ndarray (1 :: shape t) (data t).

(** [a.reshape(-1)] *)
Definition reshape_flat {A} (t : ndarray A) : ndarray A :=
  mk_ndarray [length (data t)] (data t).

Definition vec3 : Type := (Q * Q * Q)%type.
Definition mat3 : Type := (vec3 * vec3 * vec3)%type.

(** [all_atom_positions]: residues x atoms x 3 *)
Definition coords : Type := list (list vec3).

(** What a feature or label record holds: Python numbers and strings
    ([VInt], [VFloat], [VStr]) and arrays or tensors ([VCoords], [VFloats],
    [VInts]; a numpy scalar is an array of shape []). *)
Inductive value : Type :=
| VInt (n : Z)
| VFloat (q : Q)
| VStr (s : string)
| VCoords (c : coords)
| VFloats (a : ndarray Q)
| VInts (a : ndarray Z).

Definition NumpyDict : Type := dict value.
Definition TorchDict : Type := dict value.

(** ** Exceptions and the two monads *)

Inductive exn : Type :=
| AssertionError (msg : string)
| KeyError (key : string)
| IndexError (msg : string)
| TypeError (msg : string)
| ValueError (msg : string) (args : list TorchDict)
| NameError (name : string)
| ZeroDivisionError
| FileNotFoundError (path : string)
| AttributeError (name : string)
| ExternalError (msg : string).

Definition result (A : Type) : Type := (exn + A)%type.

Definition ret {A} (a : A) : result A := inr a.
Definition raise {A} (e : exn) : result A := inl e.
Definition bind {A B} (c : result A) (k : A -> result B) : result B :=
  match c with
  | inl e => inl e
  | inr a => k a
  end.

Declare Scope result_scope.
Delimit Scope result_scope with result.
Notation "'let*' x := c 'in' k" := (bind c (fun x => k))
  (at level 10, x name, c at level 100, k at level 200) : result_scope.
Notation "'let*' ' p := c 'in' k" :=
  (bind c (fun x => match x with p => k end))
  (at level 10, p pattern, c at level 100, k at level 200) : result_scope.
Notation "c ;; k" := (bind c (fun _ => k))
  (at level 100, k at level 200, right associativity) : result_scope.
Local Open Scope result_scope.

(** [assert cond, msg]; for an assertion without a message, [msg] names the
    condition that failed (what the traceback shows). *)
Definition py_assert (cond : bool) (msg : string) : result unit :=
  if cond then ret tt else raise (AssertionError msg).

Definition is_assertion_error {A} (r : result A) : Prop :=
  exists msg, r = inl (AssertionError msg).

(** [d[k]], a [KeyError] when the key is missing *)
Definition getitem {V} (d : dict V) (k : string) : result V :=
  match PyDict.get d k with
  | Some v => ret v
  | None => raise (KeyError k)
  end.

(** [l[i]] on a list with Python's negative indices *)
Definition list_getitem {A} (l : list A) (i : Z) : result A :=
  let n := Z.of_nat (length l) in
  let j := if (i <? 0)%Z then (i + n)%Z else i in
  if ((0 <=? j) && (j <? n))%bool%Z then
    match nth_error l (Z.to_nat j) with
    | Some a => ret a
    | None => raise (IndexError "list index out of range")
    end
  else raise (IndexError "list index out of range").

Fixpoint mapM {A B} (f : A -> result B) (l : list A) : result (list B) :=
  match l with
  | [] => ret []
  | a :: l' => let* b := f a in let* bs := mapM f l' in ret (b :: bs)
  end.

(** Code that touches mutable global state [S] (the random generator, the
    feature cache, the disk log): the state survives an exception. *)
Definition M (S A : Type) : Type := S -> result A * S.

Definition st_ret {S A} (a : A) : M S A := fun s => (inr a, s).
Definition st_raise {S A} (e : exn) : M S A := fun s => (inl e, s).
Definition st_lift {S A} (r : result A) : M S A := fun s => (r, s).
Definition st_bind {S A B} (c : M S A) (k : A -> M S B) : M S B :=
  fun s => match c s with
           | (inl e, s') => (inl e, s')
           | (inr a, s') => k a s'
           end.

Notation "'let!' x := c 'in' k" := (st_bind c (fun x => k))
  (at level 10, x name, c at level 100, k at level 200) : result_scope.
Notation "'let!' ' p := c 'in' k" :=
  (st_bind c (fun x => match x with p => k end))
  (at level 10, p pattern, c at level 100, k at level 200) : result_scope.

Fixpoint st_mapM {S A B} (f : A -> M S B) (l : list A) : M S (list B) :=
  match l with
  | [] => st_ret []
  | a :: l' =>
      let! b := f a in let! bs := st_mapM f l' in st_ret (b :: bs)
  end.

(** ** [process_label]: the symmetry operation on label coordinates *)

(** [Operation = Union[str, Tuple[Rotation, Translation]]]; rotation and
    translation arrive flat and are reshaped by the code. *)
Inductive Operation : Type :=
| OpStr (s : string)
| OpRT (rot : list Q) (trans : list Q).

(** [np.array(rot).reshape(3, 3)] *)
Definition reshape_3_3 (l : list Q) : result mat3 :=
  match l with
  | [a; b; c; d; e; f; g; h; i] => ret ((a, b, c), (d, e, f), (g, h, i))
  | _ => raise (ValueError "cannot reshape array into shape (3,3)" [])
  end.

(** [np.array(trans).reshape(3)] *)
Definition reshape_3 (l : list Q) : result vec3 :=
  match l with
  | [a; b; c] => ret (a, b, c)
  | _ => raise (ValueError "cannot reshape array into shape (3,)" [])
  end.

(** [m.T] *)
Definition transpose (m : mat3) : mat3 :=
  let '((a, b, c), (d, e, f), (g, h, i)) := m in
  ((a, d, g), (b, e, h), (c, f, i)).

(** [v @ m] for one row of three coordinates *)
Definition vec_mat (v : vec3) (m : mat3) : vec3 :=
  let '(x, y, z) := v in
  let '((a, b, c), (d, e, f), (g, h, i)) := m in
  (x * a + y * d + z * g, x * b + y * e + z * h, x * c + y * f + z * i)%Q.

Definition vec_add (v w : vec3) : vec3 :=
  let '(x, y, z) := v in
  let '(a, b, c) := w in
  (x + a, y + b, z + c)%Q.

(** [positions @ m + t], broadcast over residues and atoms *)
Definition matmul_add (positions : coords) (m : mat3) (t : vec3) : coords :=
  map (map (fun p => vec_add (vec_mat p m) t)) positions.

Definition process_label (all_atom_positions : coords)
    (operation : Operation) : result coords :=
  match operation with
  | OpStr s =>
      if String.eqb s "I" then ret all_atom_positions
      else raise (ValueError "cannot unpack operation" [])
  | OpRT rot trans =>
      let* rot := reshape_3_3 rot in
      let* trans := reshape_3 trans in
      ret (matmul_add all_atom_positions (transpose rot) trans)
  end.

(** The specification's reading of a rigid transform, atom by atom:
    [x . R^T + t]. *)
Definition rigid_transform (R : mat3) (t : vec3) (x : vec3) : vec3 :=
  let '((r11, r12, r13), (r21, r22, r23), (r31, r32, r33)) := R in
  let '(x1, x2, x3) := x in
  let '(t1, t2, t3) := t in
  (x1 * r11 + x2 * r12 + x3 * r13 + t1,
   x1 * r21 + x2 * r22 + x3 * r23 + t2,
   x1 * r31 + x2 * r32 + x3 * r33 + t3)%Q.

Definition flat_mat (R : mat3) : list Q :=
  let '((a, b, c), (d, e, f), (g, h, i)) := R in [a; b; c; d; e; f; g; h; i].
Definition flat_vec (t : vec3) : list Q :=
  let '(a, b, c) := t in [a; b; c].

Definition operation_of (R : mat3) (t : vec3) : Operation :=
  OpRT (flat_mat R) (flat_vec t).

Definition vec_opp (v : vec3) : vec3 :=
  let '(x, y, z) := v in (- x, - y, - z)%Q.

(** The inverse rigid transform of [(R, t)] is [(R^T, - t . R)]. *)
Definition inverse_operation (R : mat3) (t : vec3) : Operation :=
  operation_of (transpose R) (vec_opp (vec_mat t R)).

Definition vec3_eq (v w : vec3) : Prop :=
  let '(x, y, z) := v in
  let '(a, b, c) := w in
  (x == a /\ y == b /\ z == c)%Q.

Definition coords_eq (c d : coords) : Prop := Forall2 (Forall2 vec3_eq) c d.

(** A quarter turn about the z axis, and the unit shift along x. *)
Definition rot90 : mat3 := ((0, -1, 0), (1, 0, 0), (0, 0, 1))%Q.
Definition shift_x : vec3 := (1, 0, 0)%Q.

(** The turn by 30 degrees about the z axis with its entries rounded to three
    decimals: a rotation only up to rounding. *)
Definition rot30 : mat3 :=
  ((866 # 1000, - (1 # 2), 0), (1 # 2, 866 # 1000, 0), (0, 0, 1))%Q.

(** ** The cross-link feature builder *)

(** [np.unique]: the sorted distinct values *)
Fixpoint insert_unique (x : Z) (l : list Z) : list Z :=
  match l with
  | [] => [x]
  | y :: l' =>
      if (x <? y)%Z then x :: l
      else if (x =? y)%Z then l
      else y :: insert_unique x l'
  end.

Definition np_unique (l : list Z) : list Z := fold_right insert_unique [] l.

(** [np.sum(asym_ids == u)] *)
Definition count_eq (l : list Z) (u : Z) : Z :=
  Z.of_nat (length (List.filter (Z.eqb u) l)).

(** [np.cumsum] *)
Fixpoint cumsum_from (acc : Z) (l : list Z) : list Z :=
  match l with
  | [] => []
  | x :: l' => (acc + x)%Z :: cumsum_from (acc + x)%Z l'
  end.

Definition np_cumsum (l : list Z) : list Z := cumsum_from 0 l.

Definition calculate_offsets (asym_ids : ndarray Z) : list Z :=
  let asym_ids := data asym_ids in
  let unique_asym_ids := np_unique asym_ids in
  let seq_lens := map (count_eq asym_ids) unique_asym_ids in
  np_cumsum (0%Z :: seq_lens).

(** The words of the specification: the offset of a chain is the number of
    residues of the chains before it. *)
Definition residues_before (asym_ids : list Z) (u : Z) : Z :=
  Z.of_nat (length (List.filter (fun a => (a <? u)%Z) asym_ids)).

(** One cross-link: (residue, residue, false discovery rate). *)
Definition xl_row : Type := (Q * Q * Q)%type.
Definition xl_table : Type := dict (dict (list (Z * Z * Q))).

(** The links of one ordered pair of chains, shifted by the chain offsets. *)
Definition shift_links (offsets : list Z) (i j : nat)
    (links : list (Z * Z * Q)) : result (list xl_row) :=
  mapM (fun '(start, end_, fdr) =>
          let* oi := list_getitem offsets (Z.of_nat i) in
          let* oj := list_getitem offsets (Z.of_nat j) in
          ret (inject_Z (start + oi), inject_Z (end_ + oj), fdr))
       links.

Fixpoint xl_inner (xl_pickle : xl_table) (offsets : list Z) (i : nat)
    (chain1 : string) (j : nat) (descriptions : list string)
    : result (list xl_row) :=
  match descriptions with
  | [] => ret []
  | chain2 :: rest =>
      let* here :=
        match PyDict.get xl_pickle chain1 with
        | Some row =>
            match PyDict.get row chain2 with
            | Some links => shift_links offsets i j links
            | None => ret []
            end
        | None => ret []
        end in
      let* more := xl_inner xl_pickle offsets i chain1 (S j) rest in
      ret (here ++ more)
  end.

Fixpoint xl_outer (xl_pickle : xl_table) (offsets : list Z) (i : nat)
    (chains : list string) (descriptions : list string)
    : result (list xl_row) :=
  match chains with
  | [] => ret []
  | chain1 :: rest =>
      let* here := xl_inner xl_pickle offsets i chain1 0 descriptions in
      let* more := xl_outer xl_pickle offsets (S i) rest descriptions in
      ret (here ++ more)
  end.

(** [create_xl_features]: [chain_id_map] maps each chain id to the
    description of its chain object. An empty result stands for the Python
    [[]], a non-empty one for the concatenated n x 3 tensor. *)
Definition create_xl_features (xl_pickle : xl_table) (offsets : list Z)
    (chain_id_map : dict string) : result (list xl_row) :=
  let descriptions := PyDict.values chain_id_map in
  xl_outer xl_pickle offsets 0 descriptions descriptions.

(** torch's floating-point arithmetic as far as [bin_xl] uses it.  A float
    is the rational it denotes; to which float a result is rounded (the
    tensors are float32) is torch's business and is left open:
    [torch_arange start end step] is [torch.arange(start, end, step)], and
    [torch_rsub a x] is [a - x] for a number [a] and a tensor element [x]. *)
Record TorchFloat : Type := mk_torch {
  torch_arange : Q -> Q -> Q -> list Q;
  torch_rsub : Q -> Q -> Q
}.

(** [torch.arange(0, 1.05, 0.05)] *)
Definition bins (T : TorchFloat) : list Q :=
  torch_arange T 0 (105 # 100) (5 # 100).

(** [torch.bucketize(v, bins)]: the first index whose threshold is not
    below [v] *)
Fixpoint bucketize (v : Q) (boundaries : list Q) : nat :=
  match boundaries with
  | [] => 0
  | b :: rest => if Qle_bool v b then 0 else S (bucketize v rest)
  end.

(** [int(x)] on a float: truncation towards zero *)
Definition py_int (q : Q) : Z := Z.quot (Qnum q) (Zpos (Qden q)).

(** An index into an axis of size [n], negative indices counting from the
    end *)
Definition norm_index (n : nat) (i : Z) : result nat :=
  let j := if (i <? 0)%Z then (i + Z.of_nat n)%Z else i in
  if ((0 <=? j) && (j <? Z.of_nat n))%bool%Z then ret (Z.to_nat j)
  else raise (IndexError "index is out of bounds for axis").

(** [a[i, j, k]] and [a[i, j, k] = v] on a three-axis array *)
Definition getitem3 (a : ndarray Q) (i j k : nat) : option Q :=
  match shape a with
  | [d0; d1; d2] =>
      if ((i <? d0) && (j <? d1) && (k <? d2))%bool%nat
      then data a !! ((i * d1 + j) * d2 + k)
      else None
  | _ => None
  end.

Definition setitem3 (a : ndarray Q) (i j k : Z) (v : Q)
    : result (ndarray Q) :=
  match shape a with
  | [d0; d1; d2] =>
      let* i' := norm_index d0 i in
      let* j' := norm_index d1 j in
      let* k' := norm_index d2 k in
      ret (mk_ndarray (shape a) (<[(i' * d1 + j') * d2 + k' := v]> (data a)))
  | _ => raise (IndexError "too many indices for array")
  end.

(** The loop [for i, (r1, r2, fdr) in enumerate(xl)] with its chained
    assignment, left target first. *)
Fixpoint bin_xl_loop (T : TorchFloat) (xl : list xl_row)
    (output : ndarray Q) : result (ndarray Q) :=
  match xl with
  | [] => ret output
  | (r1, r2, fdr) :: xl' =>
      let r1 := py_int r1 in
      let r2 := py_int r2 in
      let v :=
        inject_Z (Z.of_nat (bucketize (torch_rsub T 1 fdr) (bins T))) in
      let* output := setitem3 output r1 r2 0 v in
      let* output := setitem3 output r2 r1 0 v in
      bin_xl_loop T xl' output
  end.

(** [xl[perm]]: the rows of [xl] in the order given by [perm] *)
Definition take_rows (xl : list xl_row) (perm : list nat)
    : result (list xl_row) :=
  mapM (fun i => match nth_error xl i with
                 | Some row => ret row
                 | None => raise (IndexError "index out of range")
                 end) perm.

(** [bin_xl]; [perm] is the outcome of [torch.randperm(len(xl))]. *)
Definition bin_xl (T : TorchFloat) (perm : list nat) (xl : list xl_row)
    (num_res : Z) : result (ndarray Q) :=
  let* xl := take_rows xl perm in
  if (num_res <? 0)%Z then
    raise (ValueError "negative dimensions are not allowed" [])
  else
    let n := Z.to_nat num_res in
    bin_xl_loop T xl (np_zeros [n; n; 1]).

(** ** Configuration *)

Record CommonConfig : Type := mk_common {
  unsupervised_features : list string;
  recycling_features : list string;
  template_features : list string;
  multimer_features : list string;
  use_templates : bool;
  is_multimer : bool;
  max_recycling_iters : Z;
  use_template : option bool
}.

Record ModeConfig : Type := mk_mode {
  crop_size : option Z;
  supervised : bool;
  use_clamped_fape_prob : Q
}.

Record Config : Type := mk_config {
  common : CommonConfig;
  modes : dict ModeConfig;
  supervised_features : list string
}.

(** [cfg.common.use_template = True] *)
Definition set_use_template (cfg : Config) : Config :=
  let c := common cfg in
  mk_config
    (mk_common (unsupervised_features c) (recycling_features c)
       (template_features c) (multimer_features c) (use_templates c)
       (is_multimer c) (max_recycling_iters c) (Some true))
    (modes cfg) (supervised_features cfg).

(** A section of the configuration.  The configuration is one namespace:
    [cfg[key]] finds the sections [common] and [supervised] beside the
    modes. *)
Inductive ConfigSection : Type :=
| CommonSection (c : CommonConfig)
| SupervisedSection (features : list string)
| ModeSection (m : ModeConfig).

(** [cfg[key]] *)
Definition config_getitem (cfg : Config) (key : string)
    : result ConfigSection :=
  if String.eqb key "common" then ret (CommonSection (common cfg))
  else if String.eqb key "supervised"
  then ret (SupervisedSection (supervised_features cfg))
  else let* m := getitem (modes cfg) key in ret (ModeSection m).

(** [section.name] for an attribute that only the mode sections have *)
Definition mode_attr {A} (name : string) (f : ModeConfig -> A)
    (section : ConfigSection) : result A :=
  match section with
  | ModeSection m => ret (f m)
  | _ => raise (AttributeError name)
  end.

Definition make_data_config (config : Config) (mode : string) (num_res : Z)
    : result (Config * list string) :=
  let cfg := config in
  let* mode_cfg := config_getitem cfg mode in
  let* crop := mode_attr "crop_size" crop_size mode_cfg in
  let cfg :=
    match crop, mode_cfg with
    | None, ModeSection m =>
        mk_config (common cfg)
          (PyDict.set (modes cfg) mode
             (mk_mode (Some num_res) (supervised m)
                (use_clamped_fape_prob m)))
          (supervised_features cfg)
    | _, _ => cfg
    end in
  let feature_names :=
    unsupervised_features (common cfg) ++ recycling_features (common cfg) in
  let feature_names :=
    if use_templates (common cfg)
    then feature_names ++ template_features (common cfg) else feature_names in
  let feature_names :=
    if is_multimer (common cfg)
    then feature_names ++ multimer_features (common cfg) else feature_names in
  let* mode_cfg' := config_getitem cfg mode in
  let* is_supervised := mode_attr "supervised" supervised mode_cfg' in
  let feature_names :=
    if is_supervised
    then feature_names ++ supervised_features cfg else feature_names in
  ret (cfg, feature_names).

(** ** The random generator of numpy and the scoped seed *)

(** numpy's global generator: the state a seed produces, and the draws, each
    of which advances the state. [seed_hash] is how the scoped seed mixes
    the seed, the extra seeds and the key string into one seed. *)
Record NumpyRandom : Type := mk_random {
  rng_state : Type;
  np_random_seed : Z -> rng_state;
  np_random_randint : Z -> Z -> M rng_state Z;
  np_random_rand : M rng_state Q;
  np_random_choice : Z -> list Q -> M rng_state Z;
  np_random_choice_list : list string -> M rng_state string;
  seed_hash : Z -> list (option Z) -> option string -> Z
}.

(** Modelled from the spec: [data_utils.numpy_seed] of unicore is not under
    src/.  It is the scoped-seed mechanism that saves the global random
    generator state on entry, seeds the generator from the (seed, extra
    seeds, key) tuple, and restores the saved state on exit regardless of
    exceptions. *)
Definition numpy_seed (N : NumpyRandom) {A} (seed : Z)
    (addl_seeds : list (option Z)) (key : option string)
    (body : M (rng_state N) A) : M (rng_state N) A :=
  fun g =>
    let state := g in
    let '(r, _) := body (np_random_seed N (seed_hash N seed addl_seeds key)) in
    (r, state).

Definition Qlt_bool (x y : Q) : bool := negb (Qle_bool y x).

(** ** External collaborators *)

Definition TorchExample : Type := (TorchDict * option (list TorchDict))%type.

Record Externals (N : NumpyRandom) : Type := mk_externals {
  convert_monomer_features : NumpyDict -> result NumpyDict;
  merge_msas : value -> value -> value -> value -> result (value * value);
  convert_all_seq_feature : NumpyDict -> result NumpyDict;
  add_assembly_features : list NumpyDict -> result (list NumpyDict);
  pair_and_merge : list NumpyDict -> result NumpyDict;
  process_features :
    TorchDict -> CommonConfig -> ModeConfig -> M (rng_state N) TorchDict;
  process_labels : list TorchDict -> result (list TorchDict);
  collate_dict : list TorchDict -> nat -> result TorchDict
}.
Arguments convert_monomer_features {N} _ _.
Arguments merge_msas {N} _ _ _ _ _.
Arguments convert_all_seq_feature {N} _ _.
Arguments add_assembly_features {N} _ _.
Arguments pair_and_merge {N} _ _.
Arguments process_features {N} _ _ _ _.
Arguments process_labels {N} _ _.
Arguments collate_dict {N} _ _ _.

(** Modelled from the spec: [utils.filter] of [unifold.data.utils] is not
    under src/.  It filters the feature record down to the recognized name
    set. *)
Definition utils_filter (features : NumpyDict) (desired_keys : list string)
    : NumpyDict :=
  PyDict.filter_keys
    (fun k => existsb (String.eqb k) desired_keys) features.

(** [x is not None] *)
Definition is_not_None {A} (x : option A) : bool :=
  match x with Some _ => true | None => false end.

(** [int(x)] on a dictionary value *)
Definition as_int (v : value) : result Z :=
  match v with
  | VInt n => ret n
  | VFloat q => ret (py_int q)
  | VInts (mk_ndarray _ [n]) => ret n
  | VFloats (mk_ndarray _ [q]) => ret (py_int q)
  | _ => raise (TypeError "only size-1 arrays can be converted to int")
  end.

(** ** [process] and [process_ap] *)

(** Lines shared by both entry points: the recycling count and the clamped
    FAPE flag, drawn under the scoped seed in train mode. *)
Definition recycling_draw (N : NumpyRandom) (config : Config) (mode : string)
    (seed : Z) (batch_idx : option Z) : M (rng_state N) (Z * bool) :=
  if String.eqb mode "train" then
    let! _ := st_lift (py_assert (is_not_None batch_idx) "") in
    numpy_seed N seed [batch_idx] (Some "recycling")
      (let! num_iters :=
         np_random_randint N 0 (max_recycling_iters (common config) + 1) in
       let! r := np_random_rand N in
       let! mode_cfg := st_lift (getitem (modes config) mode) in
       st_ret (num_iters, Qlt_bool r (use_clamped_fape_prob mode_cfg)))
  else st_ret (max_recycling_iters (common config), true).

(** The three bookkeeping features and the removal of [msa_chains]. *)
Definition annotate (features : NumpyDict) (num_iters : Z)
    (use_clamped_fape is_distillation : bool) : NumpyDict :=
  let features := PyDict.set features "num_recycling_iters" (VInt num_iters) in
  let features :=
    PyDict.set features "use_clamped_fape" (VInt (Z.b2z use_clamped_fape)) in
  let features :=
    PyDict.set features "is_distillation" (VInt (Z.b2z is_distillation)) in
  if (is_distillation && PyDict.mem features "msa_chains")%bool
  then PyDict.remove features "msa_chains" else features.

(** Lines 182-196 of [process] (and 283-296 of [process_ap]). *)
Definition process_annotate (N : NumpyRandom) (config : Config)
    (mode : string) (features : NumpyDict) (seed : Z) (batch_idx : option Z)
    (is_distillation : bool) : M (rng_state N) NumpyDict :=
  let! '(num_iters, use_clamped_fape) :=
    recycling_draw N config mode seed batch_idx in
  st_ret (annotate features num_iters use_clamped_fape is_distillation).

(** The buffer of a coordinate array, row-major. *)
Definition coords_flat (c : coords) : list Q :=
  concat (map (fun atoms =>
                 concat (map (fun p : vec3 =>
                                let '(x, y, z) := p in [x; y; z]) atoms)) c).

(** [x.reshape(-1)] on the resolution of a label: arrays have the method,
    Python numbers and strings do not. *)
Definition reshape_resolution (v : value) : result value :=
  match v with
  | VFloats a => ret (VFloats (reshape_flat a))
  | VInts a => ret (VInts (reshape_flat a))
  | VCoords c =>
      let buffer := coords_flat c in
      ret (VFloats (mk_ndarray [length buffer] buffer))
  | VInt _ | VFloat _ | VStr _ => raise (AttributeError "reshape")
  end.

(** [features["resolution"] = labels[0]["resolution"].reshape(-1)] *)
Definition attach_resolution (features : NumpyDict)
    (labels : option (list NumpyDict)) : result NumpyDict :=
  match labels with
  | Some ls =>
      let* l0 := list_getitem ls 0 in
      let* r := getitem l0 "resolution" in
      let* r := reshape_resolution r in
      ret (PyDict.set features "resolution" r)
  | None => ret features
  end.

(** The label half, common to both entry points. *)
Definition convert_labels {N} (E : Externals N)
    (labels : option (list NumpyDict)) : result (option (list TorchDict)) :=
  match labels with
  | Some ls => let* ls' := process_labels E ls in ret (Some ls')
  | None => ret None
  end.

Definition process {N} (E : Externals N) (config : Config) (mode : string)
    (features : NumpyDict) (labels : option (list NumpyDict)) (seed : Z)
    (batch_idx data_idx : option Z) (is_distillation : bool)
    : M (rng_state N) TorchExample :=
  let! features :=
    process_annotate N config mode features seed batch_idx is_distillation in
  let! seq_length := st_lift (getitem features "seq_length") in
  let! num_res := st_lift (as_int seq_length) in
  let! '(cfg, feature_names) :=
    st_lift (make_data_config config mode num_res) in
  let! features := st_lift (attach_resolution features labels) in
  let! features :=
    numpy_seed N seed [data_idx] (Some "protein_feature")
      (let! s := np_random_randint N 0 63355 in
       let features := PyDict.set features "crop_and_fix_size_seed" (VInt s) in
       let features := utils_filter features feature_names in
       let! mode_cfg := st_lift (getitem (modes cfg) mode) in
       process_features E features (common cfg) mode_cfg) in
  let! labels := st_lift (convert_labels E labels) in
  st_ret (features, labels).

(** [pickle.load(gzip.open(path))] for the cross-link table *)
Definition load_xl_pickle (xl_disk : string -> option xl_table)
    (path : string) : result xl_table :=
  match xl_disk path with
  | Some t => ret t
  | None => raise (FileNotFoundError path)
  end.

(** [calculate_offsets] on a tensor of floats: the same counts, with the
    distinct values found among the floats. *)
Fixpoint insert_unique_float (x : Q) (l : list Q) : list Q :=
  match l with
  | [] => [x]
  | y :: l' =>
      if Qlt_bool x y then x :: l
      else if Qeq_bool x y then l
      else y :: insert_unique_float x l'
  end.

Definition calculate_offsets_float (asym_ids : list Q) : list Z :=
  let unique_asym_ids := fold_right insert_unique_float [] asym_ids in
  let seq_lens :=
    map (fun u => Z.of_nat (length (List.filter (Qeq_bool u) asym_ids)))
      unique_asym_ids in
  np_cumsum (0%Z :: seq_lens).

(** [calculate_offsets(features['asym_id'])]: any tensor will do, whatever
    its dtype; a value that is no tensor has no [detach]. *)
Definition tensor_offsets (v : value) : result (list Z) :=
  match v with
  | VInts a => ret (calculate_offsets a)
  | VFloats a => ret (calculate_offsets_float (data a))
  | VCoords c => ret (calculate_offsets_float (coords_flat c))
  | VInt _ | VFloat _ | VStr _ => raise (AttributeError "detach")
  end.

Definition process_xl_input (xl_disk : string -> option xl_table)
    (features : TorchDict) (crosslinks : string)
    (chain_id_map : dict string) : result (list xl_row) :=
  let* xl_pickle := load_xl_pickle xl_disk crosslinks in
  let* asym_id := getitem features "asym_id" in
  let* offsets := tensor_offsets asym_id in
  create_xl_features xl_pickle offsets chain_id_map.

(** [np.zeros((num_res, num_res, 1))] *)
Definition zeros_pair (num_res : Z) : result (ndarray Q) :=
  if (num_res <? 0)%Z then
    raise (ValueError "negative dimensions are not allowed" [])
  else ret (np_zeros [Z.to_nat num_res; Z.to_nat num_res; 1]).

(** Lines 320-331 of [process_ap]: the [xl] feature.  [perm] is the outcome
    of the random permutation inside [bin_xl]; [chain_id_map] is
    [kwargs['chain_id_map']]. *)
Definition process_ap_xl (T : TorchFloat)
    (xl_disk : string -> option xl_table) (perm : list nat) (features : TorchDict) (num_res : Z)
    (crosslinks : option string) (chain_id_map : option (dict string))
    : result TorchDict :=
  match crosslinks with
  | Some path =>
      let* chain_id_map :=
        match chain_id_map with
        | Some m => ret m
        | None => raise (KeyError "chain_id_map")
        end in
      let* xl := process_xl_input xl_disk features path chain_id_map in
      let* xl :=
        if (length xl =? 0)%nat then zeros_pair num_res
        else bin_xl T perm xl num_res in
      ret (PyDict.set features "xl" (VFloats (unsqueeze0 xl)))
  | None =>
      let* z := zeros_pair num_res in
      ret (PyDict.set features "xl" (VFloats z))
  end.

Definition ap_feature_names : list string :=
  ["asym_id"; "entity_id"; "sym_id"; "template_all_atom_mask";
   "template_aatype"; "template_all_atom_positions"].

(** [x.shape[-1]] *)
Definition last_dim (v : value) : result nat :=
  let sh := match v with
            | VFloats a => shape a
            | VInts a => shape a
            | _ => []
            end in
  match last sh with
  | Some n => ret n
  | None => raise (IndexError "tuple index out of range")
  end.

(** [torch.ones(n, dtype=torch.float32).reshape(1, -1)] *)
Definition template_mask_of (n : nat) : value :=
  VFloats (mk_ndarray [1; n] (repeat 1%Q n)).

Definition process_ap {N} (E : Externals N) (T : TorchFloat)
    (xl_disk : string -> option xl_table) (perm : list nat)
    (config : Config) (mode : string)
    (features : NumpyDict) (labels : option (list NumpyDict)) (seed : Z)
    (batch_idx : option Z) (is_distillation : bool)
    (crosslinks : option string) (chain_id_map : option (dict string))
    : M (rng_state N) TorchExample :=
  let! features :=
    process_annotate N config mode features seed batch_idx is_distillation in
  let! seq_length := st_lift (getitem features "seq_length") in
  let! num_res := st_lift (as_int seq_length) in
  let! '(cfg, feature_names) :=
    st_lift (make_data_config config mode num_res) in
  let feature_names := feature_names ++ ap_feature_names in
  let! features := st_lift (attach_resolution features labels) in
  let! features :=
    numpy_seed N seed [] (Some "protein_feature")
      (let! s := np_random_randint N 0 63355 in
       let features := PyDict.set features "crop_and_fix_size_seed" (VInt s) in
       let features := utils_filter features feature_names in
       let! template_aatype := st_lift (getitem features "template_aatype") in
       let! n := st_lift (last_dim template_aatype) in
       let features := PyDict.set features "template_mask" (template_mask_of n) in
       let cfg := set_use_template cfg in
       let! mode_cfg := st_lift (getitem (modes cfg) mode) in
       process_features E features (common cfg) mode_cfg) in
  let! labels := st_lift (convert_labels E labels) in
  let! features :=
    st_lift (process_ap_xl T xl_disk perm features num_res crosslinks
               chain_id_map) in
  st_ret (features, labels).

(** ** The single-entity loader and the assembly builder *)

Inductive file_kind : Type := FeatureFile | UniprotFile | LabelFile.

Definition cache_key : Type := (string * string * option string * bool)%type.

(** What loading touches: the bounded feature cache and the log of files
    read from disk, oldest first. *)
Record io_state : Type := mk_io {
  cache : list (cache_key * NumpyDict);
  reads : list (file_kind * string)
}.

Definition is_label_read (ev : file_kind * string) : bool :=
  match fst ev with LabelFile => true | _ => false end.

(** [os.path.join(a, b)] *)
Definition path_join (a b : string) : string :=
  match b with
  | String "/" _ => b
  | _ =>
      if String.eqb a "" then b
      else match get (String.length a - 1) a with
           | Some "/"%char => a ++ b
           | _ => a ++ "/" ++ b
           end
  end.

(** [utils.load_pickle(path)]: the read is logged, a missing file raises. *)
Definition load_pickle (disk : string -> option NumpyDict)
    (kind : file_kind) (path : string) : M io_state NumpyDict :=
  fun s =>
    (match disk path with
     | Some d => inr d
     | None => inl (FileNotFoundError path)
     end,
     mk_io (cache s) (reads s ++ [(kind, path)])).

Definition cache_key_eqb (k1 k2 : cache_key) : bool :=
  let '(s1, d1, u1, m1) := k1 in
  let '(s2, d2, u2, m2) := k2 in
  (String.eqb s1 s2 && String.eqb d1 d2 &&
   match u1, u2 with
   | Some a, Some b => String.eqb a b
   | None, None => true
   | _, _ => false
   end && Bool.eqb m1 m2)%bool.

(** Modelled from the spec: [utils.lru_cache(maxsize, copy=True)] of
    [unifold.data.utils] is not under src/.  It holds at most [maxsize]
    entries, one per distinct argument tuple, evicts the least recently used
    entry beyond its capacity, and returns an independent copy on every
    call. The head of the list is the most recently used entry. *)
Definition lru_cache (maxsize : nat)
    (f : cache_key -> M io_state NumpyDict) (k : cache_key)
    : M io_state NumpyDict :=
  fun s =>
    match List.find (fun e => cache_key_eqb (fst e) k) (cache s) with
    | Some (_, v) =>
        (inr v,
         mk_io ((k, v) ::
                List.filter (fun e => negb (cache_key_eqb (fst e) k)) (cache s))
               (reads s))
    | None =>
        match f k s with
        | (inr v, s') =>
            (inr v, mk_io (firstn maxsize ((k, v) :: cache s')) (reads s'))
        | (inl e, s') => (inl e, s')
        end
    end.

(** The body of [load_single_feature], before caching. *)
Definition load_single_feature_body {N} (E : Externals N)
    (disk : string -> option NumpyDict) (k : cache_key)
    : M io_state NumpyDict :=
  let '(sequence_id, monomer_feature_dir, uniprot_msa_dir, is_monomer) := k in
  let! monomer_feature :=
    load_pickle disk FeatureFile
      (path_join monomer_feature_dir (sequence_id ++ ".feature.pkl.gz")) in
  let! monomer_feature := st_lift (convert_monomer_features E monomer_feature) in
  let chain_feature := monomer_feature in
  match uniprot_msa_dir with
  | Some dir =>
      let! all_seq_feature :=
        load_pickle disk UniprotFile
          (path_join dir (sequence_id ++ ".uniprot.pkl.gz")) in
      if is_monomer then
        st_lift
          (let* msa := getitem chain_feature "msa" in
           let* del := getitem chain_feature "deletion_matrix" in
           let* msa_all := getitem all_seq_feature "msa" in
           let* del_all := getitem all_seq_feature "deletion_matrix" in
           let* '(msa', del') := merge_msas E msa del msa_all del_all in
           ret (PyDict.set (PyDict.set chain_feature "msa" msa')
                  "deletion_matrix" del'))
      else
        st_lift
          (let* all_seq_feature := convert_all_seq_feature E all_seq_feature in
           let* a := getitem all_seq_feature "msa_all_seq" in
           let chain_feature := PyDict.set chain_feature "msa_all_seq" a in
           let* b := getitem all_seq_feature "msa_species_identifiers_all_seq" in
           let chain_feature :=
             PyDict.set chain_feature "msa_species_identifiers_all_seq" b in
           let* c := getitem all_seq_feature "deletion_matrix_all_seq" in
           ret (PyDict.set chain_feature "deletion_matrix_all_seq" c))
  | None => st_ret chain_feature
  end.

Definition load_single_feature {N} (E : Externals N)
    (disk : string -> option NumpyDict) (sequence_id monomer_feature_dir : string)
    (uniprot_msa_dir : option string) (is_monomer : bool)
    : M io_state NumpyDict :=
  lru_cache 8 (load_single_feature_body E disk)
    (sequence_id, monomer_feature_dir, uniprot_msa_dir, is_monomer).

Definition label_keys : list string :=
  ["aatype"; "all_atom_positions"; "all_atom_mask"; "resolution"].

Definition as_coords (v : value) : result coords :=
  match v with
  | VCoords c => ret c
  | _ => raise (TypeError "expected atom positions")
  end.

Definition load_single_label (disk : string -> option NumpyDict)
    (label_id label_dir : string) (symmetry_operation : option Operation)
    : M io_state NumpyDict :=
  let! label :=
    load_pickle disk LabelFile
      (path_join label_dir (label_id ++ ".label.pkl.gz")) in
  let! label :=
    st_lift
      match symmetry_operation with
      | Some op =>
          let* pos := getitem label "all_atom_positions" in
          let* pos := as_coords pos in
          let* pos := process_label pos op in
          ret (PyDict.set label "all_atom_positions" (VCoords pos))
      | None => ret label
      end in
  st_ret
    (PyDict.filter_keys (fun k => existsb (String.eqb k) label_keys) label).

(** [[f.update(l) for f, l in zip(features, labels)]]: in place, as far as
    the shorter list reaches. *)
Fixpoint update_all (features labels : list NumpyDict) : list NumpyDict :=
  match features, labels with
  | f :: fs, l :: ls => PyDict.update f l :: update_all fs ls
  | fs, _ => fs
  end.

(** [{k: f[k] for k in label_keys}] *)
Definition extract_label (f : NumpyDict) : result NumpyDict :=
  let* kvs := mapM (fun k => let* v := getitem f k in ret (k, v)) label_keys in
  ret (fold_left (fun d kv => PyDict.set d (fst kv) (snd kv)) kvs PyDict.empty).

(** Lines 133-144 of [load]: the label branch. *)
Definition load_labels (disk : string -> option NumpyDict)
    (all_chain_features : list NumpyDict) (sequence_ids : list string)
    (label_ids : option (list string)) (label_dir : option string)
    (symmetry_operations : option (list Operation))
    : M io_state (list NumpyDict) :=
  match label_ids with
  | Some label_ids =>
      let! _ :=
        st_lift (py_assert (length label_ids =? length sequence_ids)%nat
                   "len(label_ids) == len(sequence_ids)") in
      let! label_dir :=
        st_lift match label_dir with
                | Some d => ret d
                | None => raise (AssertionError "label_dir is not None")
                end in
      let symmetry_operations :=
        match symmetry_operations with
        | Some ops => ops
        | None => map (fun _ => OpStr "I") label_ids
        end in
      let! all_chain_labels :=
        st_mapM (fun '(l, o) =>
                   load_single_label disk l label_dir (Some o))
                (combine label_ids symmetry_operations) in
      st_ret (update_all all_chain_features all_chain_labels)
  | None => st_ret all_chain_features
  end.

Definition load {N} (E : Externals N) (disk : string -> option NumpyDict)
    (sequence_ids : list string) (monomer_feature_dir : string)
    (uniprot_msa_dir : option string) (label_ids : option (list string))
    (label_dir : option string)
    (symmetry_operations : option (list Operation)) (is_monomer : bool)
    : M io_state (NumpyDict * option (list NumpyDict)) :=
  let! all_chain_features :=
    st_mapM (fun s => load_single_feature E disk s monomer_feature_dir
                        uniprot_msa_dir is_monomer) sequence_ids in
  let! all_chain_features :=
    load_labels disk all_chain_features sequence_ids label_ids label_dir
      symmetry_operations in
  let! all_chain_features :=
    st_lift (add_assembly_features E all_chain_features) in
  let! all_chain_labels :=
    st_lift
      match label_ids with
      | Some _ => let* ls := mapM extract_label all_chain_features in
                  ret (Some ls)
      | None => ret None
      end in
  let! asym_len :=
    st_lift (mapM (fun c => let* n := getitem c "seq_length" in as_int n)
               all_chain_features) in
  let! all_chain_features :=
    st_lift
      (if is_monomer then list_getitem all_chain_features 0
       else
         let* merged := pair_and_merge E all_chain_features in
         (* [post_process] is neither defined nor imported in the module *)
         raise (NameError "post_process")) in
  let all_chain_features :=
    PyDict.set all_chain_features "asym_len"
      (VInts (mk_ndarray [length asym_len] asym_len)) in
  st_ret (all_chain_features, all_chain_labels).

(** ** The sampling dataset *)

(** Python's float arithmetic as far as the sampling weights use it: the
    addition behind [sum] and the true division.  A float is the rational it
    denotes; to which float a result is rounded is left open. *)
Record PyFloat : Type := mk_pyfloat {
  float_add : Q -> Q -> Q;
  float_div : Q -> Q -> Q
}.

(** One entry of [pdb_assembly.json]. *)
Record Assembly : Type := mk_assembly {
  chains : list string;
  opers : list Operation
}.

(** The JSON side files and the file-existence test, by path. *)
Record Files : Type := mk_files {
  weight_json : string -> option (dict Q);
  label_json : string -> option (dict (list string));
  assembly_json : string -> option (dict Assembly);
  isfile : string -> bool
}.

Record Args : Type := mk_args {
  batch_size : Z;
  update_freq : list Z;
  sd_prob : Q;
  max_chains : Z
}.

(** [json.load(open(filename, "r"))] *)
Definition load_json {A} (file : string -> option A) (filename : string)
    : result A :=
  match file filename with
  | Some a => ret a
  | None => raise (FileNotFoundError filename)
  end.

(** An attribute that only some branch of the constructor sets *)
Definition attr {A} (name : string) (a : option A) : result A :=
  match a with
  | Some x => ret x
  | None => raise (AttributeError name)
  end.

Module UnifoldDataset.

Definition inverse_map_msg (ent_2 ent ref : string) : string :=
  "multiple entities (" ++ ent_2 ++ ", " ++ ent ++ ") exist for reference "
    ++ ref ++ ".".

(** The inner loop [for ref in refs]. *)
Fixpoint inverse_map_refs (ent : string) (refs : list string)
    (inverse_mapping : dict string) : result (dict string) :=
  match refs with
  | [] => ret inverse_mapping
  | ref :: refs' =>
      (if PyDict.mem inverse_mapping ref then
         let* ent_2 := getitem inverse_mapping ref in
         py_assert (String.eqb ent ent_2) (inverse_map_msg ent_2 ent ref)
       else ret tt) ;;
      inverse_map_refs ent refs' (PyDict.set inverse_mapping ref ent)
  end.

(** The outer loop [for ent, refs in mapping.items()]. *)
Fixpoint inverse_map_items (items : list (string * list string))
    (inverse_mapping : dict string) : result (dict string) :=
  match items with
  | [] => ret inverse_mapping
  | (ent, refs) :: items' =>
      let* inverse_mapping' := inverse_map_refs ent refs inverse_mapping in
      inverse_map_items items' inverse_mapping'
  end.

Definition _inverse_map (mapping : dict (list string)) : result (dict string) :=
  inverse_map_items mapping PyDict.empty.

(** [sum(values)]: from 0, left to right, in float arithmetic *)
Definition py_sum (F : PyFloat) (l : list Q) : Q :=
  fold_left (float_add F) l 0%Q.

Definition cal_sample_weight (F : PyFloat) (sample_weight : dict Q)
    : result (nat * list string * list Q) :=
  let prot_keys := PyDict.keys sample_weight in
  let sum_weight := py_sum F (PyDict.values sample_weight) in
  let* sample_prob :=
    mapM (fun k =>
            let* w := getitem sample_weight k in
            if Qeq_bool sum_weight 0 then raise ZeroDivisionError
            else ret (float_div F w sum_weight)) prot_keys in
  let num_prot := length prot_keys in
  ret (num_prot, prot_keys, sample_prob).

(** The attributes of a constructed dataset. *)
Record t : Type := mk {
  path : string;
  multi_label : dict (list string);
  inverse_multi_label : dict string;
  sample_weight : dict Q;
  seq_sample_weight : dict Q;
  feature_path : string;
  label_path : string;
  sd_sample_weight : option (dict Q);
  sd_feature_path : option string;
  sd_label_path : option string;
  ds_batch_size : Z;
  data_len : Z;
  mode : string;
  num_seq : nat;
  seq_keys : list string;
  seq_sample_prob : list Q;
  num_chain : nat;
  chain_keys : list string;
  sample_prob : list Q;
  sd_num_chain : option nat;
  sd_chain_keys : option (list string);
  sd_sample_prob : option (list Q);
  config : Config;
  seed : Z;
  ds_sd_prob : Q
}.

(** The loop [for chain in self.inverse_multi_label]. *)
Fixpoint chain_weights (chains : list string) (inverse_multi_label : dict string)
    (sample_weight : dict Q) (acc : dict Q) : result (dict Q) :=
  match chains with
  | [] => ret acc
  | chain :: rest =>
      let* entity := getitem inverse_multi_label chain in
      let* w := getitem sample_weight entity in
      chain_weights rest inverse_multi_label sample_weight
        (PyDict.set acc chain w)
  end.

(** [__init__]; [config_data] is [config.data], [world_size] the data
    parallel world size of the distributed harness. *)
Definition __init__ (F : PyFloat) (fs : Files) (world_size : Z)
    (args : Args) (seed : Z) (config_data : Config) (data_path : string)
    (mode : string) (max_step : option Z) (disable_sd : bool)
    (json_prefix : string) : result t :=
  let path := data_path in
  let disable_sd := true in
  let* sample_weight :=
    load_json (weight_json fs)
      (path_join path (json_prefix ++ mode ++ "_sample_weight.json")) in
  let* multi_label :=
    load_json (label_json fs)
      (path_join path (json_prefix ++ mode ++ "_multi_label.json")) in
  let* inverse_multi_label := _inverse_map multi_label in
  let* chain_sample_weight :=
    chain_weights (PyDict.keys inverse_multi_label) inverse_multi_label
      sample_weight PyDict.empty in
  let seq_sample_weight := sample_weight in
  let feature_path := path_join path "pdb_features" in
  let label_path := path_join path "pdb_labels" in
  let sd_sample_weight_path :=
    path_join path (json_prefix ++ "sd_train_sample_weight.json") in
  let* '(sd_sample_weight, sd_feature_path, sd_label_path) :=
    if (String.eqb mode "train" && isfile fs sd_sample_weight_path
        && negb disable_sd)%bool
    then
      let* w := load_json (weight_json fs) sd_sample_weight_path in
      ret (Some w, Some (path_join path "sd_features"),
           Some (path_join path "sd_labels"))
    else ret (None, None, None) in
  let* update_freq0 := list_getitem (update_freq args) 0 in
  let batch_size := (batch_size args * world_size * update_freq0)%Z in
  let data_len :=
    match max_step with
    | Some m => (m * batch_size)%Z
    | None => Z.of_nat (PyDict.len chain_sample_weight)
    end in
  let* '(num_seq, seq_keys, seq_sample_prob) :=
    cal_sample_weight F seq_sample_weight in
  let* '(num_chain, chain_keys, sample_prob) :=
    cal_sample_weight F chain_sample_weight in
  let* '(sd_num_chain, sd_chain_keys, sd_sample_prob) :=
    match sd_sample_weight with
    | Some w =>
        let* '(n, ks, ps) := cal_sample_weight F w in
        ret (Some n, Some ks, Some ps)
    | None => ret (None, None, None)
    end in
  ret (mk path multi_label inverse_multi_label chain_sample_weight
         seq_sample_weight feature_path label_path sd_sample_weight
         sd_feature_path sd_label_path batch_size data_len mode num_seq
         seq_keys seq_sample_prob num_chain chain_keys sample_prob
         sd_num_chain sd_chain_keys sd_sample_prob config_data seed
         (sd_prob args)).

Definition sample_chain (N : NumpyRandom) (self : t) (idx : Z)
    (sample_by_seq : bool) : M (rng_state N) (string * string * bool) :=
  if String.eqb (mode self) "train" then
    numpy_seed N (seed self) [Some idx] (Some "data_sample")
      (let! is_distillation :=
         match sd_sample_weight self with
         | Some _ =>
             let! r := np_random_rand N in
             st_ret (Qlt_bool r (ds_sd_prob self))
         | None => st_ret false
         end in
       if is_distillation then
         let! n := st_lift (attr "sd_num_chain" (sd_num_chain self)) in
         let! p := st_lift (attr "sd_sample_prob" (sd_sample_prob self)) in
         let! prot_idx := np_random_choice N (Z.of_nat n) p in
         let! ks := st_lift (attr "sd_chain_keys" (sd_chain_keys self)) in
         let! label_name := st_lift (list_getitem ks prot_idx) in
         let seq_name := label_name in
         st_ret (seq_name, label_name, is_distillation)
       else if negb sample_by_seq then
         let! prot_idx :=
           np_random_choice N (Z.of_nat (num_chain self)) (sample_prob self) in
         let! label_name := st_lift (list_getitem (chain_keys self) prot_idx) in
         let! seq_name :=
           st_lift (getitem (inverse_multi_label self) label_name) in
         st_ret (seq_name, label_name, is_distillation)
       else
         let! seq_idx :=
           np_random_choice N (Z.of_nat (num_seq self)) (seq_sample_prob self) in
         let! seq_name := st_lift (list_getitem (seq_keys self) seq_idx) in
         let! labels := st_lift (getitem (multi_label self) seq_name) in
         let! label_name := np_random_choice_list N labels in
         st_ret (seq_name, label_name, is_distillation))
  else
    let! label_name := st_lift (list_getitem (chain_keys self) idx) in
    let! seq_name := st_lift (getitem (inverse_multi_label self) label_name) in
    st_ret (seq_name, label_name, false).

(** [collater]: recycling is the first axis, the batch the second. *)
Definition collater {N} (E : Externals N) (samples : list TorchDict)
    : result TorchDict :=
  collate_dict E samples 1.

End UnifoldDataset.

(** ** The multimer dataset *)

Module UnifoldMultimerDataset.

(** [chain.split("_")[0]] *)
Fixpoint get_pdb_name (chain : string) : string :=
  match chain with
  | EmptyString => EmptyString
  | String c rest =>
      if Ascii.eqb c "_" then EmptyString else String c (get_pdb_name rest)
  end.

(** The loop of [get_chains]. *)
Fixpoint get_chains_loop (chains : list string) (pdb_chains : dict (list string))
    : result (dict (list string)) :=
  match chains with
  | [] => ret pdb_chains
  | chain :: rest =>
      let pdb := get_pdb_name chain in
      let pdb_chains :=
        if negb (PyDict.mem pdb_chains pdb)
        then PyDict.set pdb_chains pdb [] else pdb_chains in
      let* l := getitem pdb_chains pdb in
      get_chains_loop rest (PyDict.set pdb_chains pdb (l ++ [chain]))
  end.

Definition get_chains (canon_chain_map : dict string)
    : result (dict (list string)) :=
  get_chains_loop (PyDict.keys canon_chain_map) PyDict.empty.

(** [list_overlaps(a, b)]: every element of [a] occurs in [b] *)
Fixpoint list_overlaps (a b : list string) : bool :=
  match a with
  | [] => true
  | i :: a' =>
      if negb (existsb (String.eqb i) b) then false else list_overlaps a' b
  end.

(** The loop [for chain in pdb_chains]. *)
Fixpoint filter_loop (todo : list string) (pdb_chains : dict (list string))
    (pdb_assembly : dict Assembly) (max_chains : Z)
    (inverse_labels : dict string) (new_pdb_chains : dict (list string))
    : result (dict (list string)) :=
  match todo with
  | [] => ret new_pdb_chains
  | chain :: rest =>
      let* new_pdb_chains :=
        if PyDict.mem pdb_assembly chain then
          let* a := getitem pdb_assembly chain in
          let size := length (chains a) in
          if (Z.of_nat size <=? max_chains)%Z then
            let curr_chains :=
              map (fun chain_id => (chain ++ "_" ++ chain_id)%string) (chains a) in
            if list_overlaps curr_chains (PyDict.keys inverse_labels) then
              let* v := getitem pdb_chains chain in
              let new_pdb_chains := PyDict.set new_pdb_chains chain v in
              let* v := getitem pdb_chains chain in
              ret (PyDict.set new_pdb_chains chain v)
            else ret new_pdb_chains
          else ret new_pdb_chains
        else
          let* v := getitem pdb_chains chain in
          let size := length v in
          if (size =? 1)%nat then
            let* v := getitem pdb_chains chain in
            ret (PyDict.set new_pdb_chains chain v)
          else ret new_pdb_chains in
      filter_loop rest pdb_chains pdb_assembly max_chains inverse_labels
        new_pdb_chains
  end.

Definition filter_pdb_by_max_chains (pdb_chains : dict (list string))
    (pdb_assembly : dict Assembly) (sample_weight : dict Q) (max_chains : Z)
    (inverse_labels : dict string)
    : result (dict (list string) * dict Q) :=
  let* new_pdb_chains :=
    filter_loop (PyDict.keys pdb_chains) pdb_chains pdb_assembly max_chains
      inverse_labels PyDict.empty in
  let new_sample_weight :=
    PyDict.filter_keys
      (fun k => PyDict.mem new_pdb_chains (get_pdb_name k)) sample_weight in
  ret (new_pdb_chains, new_sample_weight).

(** The attributes the subclass adds to those of the base class. *)
Record t : Type := mk {
  base : UnifoldDataset.t;
  data_path : string;
  pdb_assembly : dict Assembly;
  pdb_chains : dict (list string);
  monomer_feature_path : string;
  uniprot_msa_path : string;
  ds_max_chains : Z
}.

(** The base attributes the train-mode filter overwrites. *)
Definition with_weights (b : UnifoldDataset.t) (label_path : string)
    (sample_weight : dict Q) (num_chain : nat) (chain_keys : list string)
    (sample_prob : list Q) : UnifoldDataset.t :=
  UnifoldDataset.mk (UnifoldDataset.path b) (UnifoldDataset.multi_label b)
    (UnifoldDataset.inverse_multi_label b) sample_weight
    (UnifoldDataset.seq_sample_weight b) (UnifoldDataset.feature_path b)
    label_path (UnifoldDataset.sd_sample_weight b)
    (UnifoldDataset.sd_feature_path b) (UnifoldDataset.sd_label_path b)
    (UnifoldDataset.ds_batch_size b) (UnifoldDataset.data_len b)
    (UnifoldDataset.mode b) (UnifoldDataset.num_seq b)
    (UnifoldDataset.seq_keys b) (UnifoldDataset.seq_sample_prob b)
    num_chain chain_keys sample_prob (UnifoldDataset.sd_num_chain b)
    (UnifoldDataset.sd_chain_keys b) (UnifoldDataset.sd_sample_prob b)
    (UnifoldDataset.config b) (UnifoldDataset.seed b)
    (UnifoldDataset.ds_sd_prob b).

Definition __init__ (F : PyFloat) (fs : Files) (world_size : Z)
    (args : Args) (seed : Z) (config_data : Config) (data_path : string)
    (mode : string) (max_step : option Z) (disable_sd : bool)
    (json_prefix : string) : result t :=
  let* b :=
    UnifoldDataset.__init__ F fs world_size args seed config_data data_path
      mode max_step disable_sd json_prefix in
  let* pdb_assembly :=
    load_json (assembly_json fs)
      (path_join data_path (json_prefix ++ "pdb_assembly.json")) in
  let* pdb_chains := get_chains (UnifoldDataset.inverse_multi_label b) in
  let monomer_feature_path := path_join data_path "pdb_features" in
  let uniprot_msa_path := path_join data_path "pdb_uniprots" in
  let label_path := path_join data_path "pdb_labels" in
  let max_chains := max_chains args in
  if String.eqb (UnifoldDataset.mode b) "train" then
    let* '(pdb_chains, sample_weight) :=
      filter_pdb_by_max_chains pdb_chains pdb_assembly
        (UnifoldDataset.sample_weight b) max_chains
        (UnifoldDataset.inverse_multi_label b) in
    let* '(num_chain, chain_keys, sample_prob) :=
      UnifoldDataset.cal_sample_weight F sample_weight in
    ret (mk (with_weights b label_path sample_weight num_chain chain_keys
               sample_prob)
            data_path pdb_assembly pdb_chains monomer_feature_path
            uniprot_msa_path max_chains)
  else
    ret (mk (with_weights b label_path (UnifoldDataset.sample_weight b)
               (UnifoldDataset.num_chain b) (UnifoldDataset.chain_keys b)
               (UnifoldDataset.sample_prob b))
            data_path pdb_assembly pdb_chains monomer_feature_path
            uniprot_msa_path max_chains).

(** [collater] of the multimer dataset.  The bare [except:] turns every
    failure of the stacking into the [ValueError] that carries the
    per-example features. *)
Definition collater {N} (E : Externals N) (samples : list TorchExample)
    : result (option (TorchDict * option (list (list TorchDict)))) :=
  if (length samples <=? 0)%nat then ret None
  else
    let feats := map fst samples in
    let labs := omap snd samples in
    let* feats' :=
      match collate_dict E feats 1 with
      | inr stacked => ret stacked
      | inl _ => raise (ValueError "cannot collate features" feats)
      end in
    let labs := match labs with [] => None | _ => Some labs end in
    ret (Some (feats', labs)).

End UnifoldMultimerDataset.

(** ** Concrete collaborators, for running the embedding *)

Module Toy.

(** A linear congruential generator standing in for numpy's. *)
Definition next (g : Z) : Z := ((g * 1103515245 + 12345) mod 2147483648)%Z.

Definition randint (low high : Z) : M Z Z :=
  fun g =>
    if (high <=? low)%Z then (inl (ValueError "low >= high" []), g)
    else (inr (low + g mod (high - low))%Z, next g).

Definition rand : M Z Q :=
  fun g => (inr (Qmake (g mod 1000) 1000), next g).

Definition choice (n : Z) (p : list Q) : M Z Z :=
  fun g =>
    if (n <=? 0)%Z then (inl (ValueError "a must be non-empty" []), g)
    else (inr (g mod n)%Z, next g).

Definition choice_list (l : list string) : M Z string :=
  fun g =>
    match nth_error l (Z.to_nat (g mod Z.of_nat (length l))) with
    | Some s => (inr s, next g)
    | None => (inl (ValueError "a must be non-empty" []), g)
    end.

Definition hash (seed : Z) (addl : list (option Z)) (key : option string)
    : Z :=
  let mix := fold_left (fun h s => (h * 31 + default 0 s)%Z) addl seed in
  (mix * 31 + Z.of_nat (String.length (default "" key)))%Z.

Definition random : NumpyRandom :=
  mk_random Z (fun s => (s mod 2147483648)%Z) randint rand choice
    choice_list hash.

Definition same_keys (a b : TorchDict) : bool :=
  if List.list_eq_dec string_dec (PyDict.keys a) (PyDict.keys b)
  then true else false.

(** Stacking succeeds when all examples carry the same feature names. *)
Definition collate (samples : list TorchDict) (dim : nat)
    : result TorchDict :=
  match samples with
  | [] => raise (ExternalError "nothing to collate")
  | s :: rest =>
      if forallb (same_keys s) rest then ret s
      else raise (ExternalError "cannot stack tensors of different shape")
  end.

Definition externals : Externals random :=
  mk_externals random
    (fun f => ret f)
    (fun msa del _ _ => ret (msa, del))
    (fun f => ret f)
    (fun fs => ret fs)
    (fun fs => list_getitem fs 0)
    (fun f _ _ => st_ret f)
    (fun ls => ret ls)
    collate.

Definition config : Config :=
  mk_config
    (mk_common ["aatype"; "seq_length"] ["num_recycling_iters"] [] [] false
       false 3 None)
    [("train", mk_mode None true (3 # 4)); ("eval", mk_mode None false 1)]
    ["resolution"; "use_clamped_fape"].

(** Arithmetic without rounding. *)
Definition exact_arange (start end_ step : Q) : list Q :=
  map (fun i => (start + inject_Z (Z.of_nat i) * step)%Q)
    (seq 0 (Z.to_nat (Qceiling ((end_ - start) / step)))).

Definition torch : TorchFloat := mk_torch exact_arange Qminus.
Definition pyfloat : PyFloat := mk_pyfloat Qplus Qdiv.

(** Arithmetic that rounds every result to the nearest number with a
    significand of [prec] bits, ties to even (the exponent range is left
    unbounded): 24 bits stand in for float32, 53 bits for float64. *)
Definition pow2 (e : Z) : Q :=
  if (0 <=? e)%Z then inject_Z (2 ^ e) else (1 # Z.to_pos (2 ^ (- e))).

Definition round_float (prec : Z) (x : Q) : Q :=
  if Qeq_bool x 0 then 0%Q
  else
    let a := Qabs x in
    let e0 := (Z.log2 (Qnum a) - Z.log2 (Zpos (Qden a)))%Z in
    let e := if Qle_bool (pow2 e0) a then e0 else (e0 - 1)%Z in
    let ulp := pow2 (e - prec + 1) in
    let m := (a / ulp)%Q in
    let f := Qfloor m in
    let r := (m - inject_Z f)%Q in
    let n := if Qlt_bool r (1 # 2) then f
             else if Qlt_bool (1 # 2) r then (f + 1)%Z
             else if Z.even f then f else (f + 1)%Z in
    let y := Qred (inject_Z n * ulp)%Q in
    if Qlt_bool x 0 then Qopp y else y.

(** [torch.arange] of dtype float32: the number of entries and the entries
    are computed in double precision and then stored as float32. *)
Definition arange32 (start end_ step : Q) : list Q :=
  let d := round_float 53 in
  let n := Z.to_nat (Qceiling (d (d (d end_ - d start) / d step)%Q)) in
  map (fun i =>
         round_float 24 (d (d start + d (inject_Z (Z.of_nat i) * d step))%Q))
    (seq 0 n).

Definition torch32 : TorchFloat :=
  mk_torch arange32 (fun a x => round_float 24 (a - x)%Q).
Definition pyfloat64 : PyFloat :=
  mk_pyfloat (fun a b => round_float 53 (a + b)%Q)
    (fun a b => round_float 53 (a / b)%Q).

End Toy.

(** ** Notions used in the statements of Part II *)

(** The residue index [r] of a cross-link is a valid index of an axis of
    size [n]. *)
Definition in_range (n : nat) (r : Q) : Prop :=
  (- Z.of_nat n <= py_int r < Z.of_nat n)%Z.

(** The cross-link [row] writes the cell [(i, j)], through either of its two
    assignments. *)
Definition addresses (n : nat) (row : xl_row) (i j : nat) : Prop :=
  let '(r1, r2, _) := row in
  (norm_index n (py_int r1) = inr i /\ norm_index n (py_int r2) = inr j)
  \/ (norm_index n (py_int r1) = inr j /\ norm_index n (py_int r2) = inr i).

(** The bin a cross-link falls into: [bucketize(1 - fdr, bins)]. *)
Definition bin_of (T : TorchFloat) (row : xl_row) : Q :=
  let '(_, _, fdr) := row in
  inject_Z (Z.of_nat (bucketize (torch_rsub T 1 fdr) (bins T))).

(** The thresholds as the decimal numbers 0.0, 0.05, ..., 1.0. *)
Definition decimal_bins : list Q :=
  map (fun i => (inject_Z (Z.of_nat i) * (5 # 100))%Q) (seq 0 21).

(** The exact sum of a list of numbers. *)
Definition Qsum (l : list Q) : Q := fold_left Qplus l 0%Q.

(** [a] is within [delta] of [b]. *)
Definition close (delta a b : Q) : Prop :=
  (b - delta <= a /\ a <= b + delta)%Q.

(** The words of the specification for the train-mode filter: a structure
    listed in the assembly map survives when its assembly has at most
    [max_chains] chains, all of them known to the inverse label map; a
    structure absent from the assembly map survives when it has exactly one
    chain. *)
Definition survives (pdb_chains : dict (list string))
    (pdb_assembly : dict Assembly) (max_chains : Z)
    (inverse_labels : dict string) (pdb : string) : bool :=
  match PyDict.get pdb_assembly pdb with
  | Some a =>
      (Z.of_nat (length (chains a)) <=? max_chains)%Z
      && forallb (fun c => PyDict.mem inverse_labels (pdb ++ "_" ++ c)%string)
           (chains a)
  | None =>
      match PyDict.get pdb_chains pdb with
      | Some l => (length l =? 1)%nat
      | None => false
      end
  end.

(** Two coordinate arrays of the same layout whose coordinates differ by
    at most [delta]. *)
Definition vec3_close (delta : Q) (v w : vec3) : Prop :=
  let '(x, y, z) := v in
  let '(a, b, c) := w in
  close delta x a /\ close delta y b /\ close delta z c.

Definition coords_close (delta : Q) (c d : coords) : Prop :=
  Forall2 (Forall2 (vec3_close delta)) c d.

(** Every coordinate lies between [- B] and [B]. *)
Definition vec3_bounded (B : Q) (v : vec3) : Prop :=
  vec3_close B v (0, 0, 0)%Q.

Definition coords_bounded (B : Q) (c : coords) : Prop :=
  Forall (Forall (vec3_bounded B)) c.

Definition mat_bounded (rho : Q) (R : mat3) : Prop :=
  let '(r1, r2, r3) := R in
  vec3_bounded rho r1 /\ vec3_bounded rho r2 /\ vec3_bounded rho r3.

(** [R] is a rotation up to [eps]: every entry of [R^T . R] is within [eps]
    of the unit matrix. *)
Definition near_orthogonal (eps : Q) (R : mat3) : Prop :=
  let '((r11, r12, r13), (r21, r22, r23), (r31, r32, r33)) := R in
  (close eps (r11 * r11 + r21 * r21 + r31 * r31) 1 /\
   close eps (r12 * r12 + r22 * r22 + r32 * r32) 1 /\
   close eps (r13 * r13 + r23 * r23 + r33 * r33) 1 /\
   close eps (r11 * r12 + r21 * r22 + r31 * r32) 0 /\
   close eps (r11 * r13 + r21 * r23 + r31 * r33) 0 /\
   close eps (r12 * r13 + r22 * r23 + r32 * r33) 0)%Q.

(** ** A concrete data directory, for running the constructors *)

Module ToyData.

Definition weights (path : string) : option (dict Q) :=
  if String.eqb path "data/train_sample_weight.json"
  then Some [("seqA", 1%Q); ("seqB", 3%Q)]
  else if String.eqb path "data/sd_train_sample_weight.json"
  then Some [("sd1", 1%Q); ("sd2", 1%Q)]
  else None.

Definition labels (path : string) : option (dict (list string)) :=
  if String.eqb path "data/train_multi_label.json"
  then Some [("seqA", ["1abc_A"; "1abc_B"]); ("seqB", ["2xyz_A"])]
  else None.

Definition assemblies (path : string) : option (dict Assembly) :=
  if String.eqb path "data/pdb_assembly.json"
  then Some [("1abc", mk_assembly ["A"; "B"] [OpStr "I"; OpStr "I"])]
  else None.

Definition files : Files :=
  mk_files weights labels assemblies
    (fun path => match weights path, labels path, assemblies path with
                 | None, None, None => false
                 | _, _, _ => true
                 end).

Definition args : Args := mk_args 2 [1%Z] (1 # 2) 2.

End ToyData.

(** A computation that leaves the global state as it found it, whether it
    returns or raises. *)
Definition restores {S A} (c : M S A) : Prop := forall s, snd (c s) = s.

(** A computation that reads no label file. *)
Definition label_silent {A} (c : M io_state A) : Prop :=
  forall s,
    List.filter is_label_read (reads (snd (c s)))
    = List.filter is_label_read (reads s).

(** The record [load_single_label] returns, or the exception it raises:
    neither depends on what was loaded before. *)
Definition loaded_label (disk : string -> option NumpyDict)
    (label_id label_dir : string) (symmetry_operation : option Operation)
    : result NumpyDict :=
  fst (load_single_label disk label_id label_dir symmetry_operation
         (mk_io [] [])).

(** Lines 146-168 of [load] on their own: from the feature records, merged
    with their labels when labels were asked for, to the result. *)
Definition assemble {N} (E : Externals N) (with_labels is_monomer : bool)
    (all_chain_features : list NumpyDict)
    : result (NumpyDict * option (list NumpyDict)) :=
  let* all_chain_features := add_assembly_features E all_chain_features in
  let* all_chain_labels :=
    if with_labels
    then let* ls := mapM extract_label all_chain_features in ret (Some ls)
    else ret None in
  let* asym_len :=
    mapM (fun c => let* n := getitem c "seq_length" in as_int n)
      all_chain_features in
  let* all_chain_features :=
    if is_monomer then list_getitem all_chain_features 0
    else
      let* merged := pair_and_merge E all_chain_features in
      raise (NameError "post_process") in
  ret (PyDict.set all_chain_features "asym_len"
         (VInts (mk_ndarray [length asym_len] asym_len)),
       all_chain_labels).

(** The path of a label file. *)
Definition label_file (label_dir label_id : string) : string :=
  path_join label_dir (label_id ++ ".label.pkl.gz").

(** ** A concrete disk, for running the loader *)

Module ToyDisk.

Definition label_record : NumpyDict :=
  [("aatype", VInts (mk_ndarray [2] [0; 5]%Z));
   ("all_atom_positions", VCoords [[(1, 0, 0)]; [(0, 2, 0)]]%Q);
   ("all_atom_mask", VInts (mk_ndarray [2; 1] [1; 1]%Z));
   ("resolution", VFloat (3 # 2));
   ("release_date", VStr "2020-01-01")].

Definition disk (path : string) : option NumpyDict :=
  if String.eqb path "feat/seqA.feature.pkl.gz"
  then Some [("seq_length", VInt 2); ("msa", VInts (mk_ndarray [1; 2] [0; 5]%Z))]
  else if String.eqb path "lab/1abc_A.label.pkl.gz"
  then Some label_record
  else None.

Definition fresh : io_state := mk_io [] [].

End ToyDisk.

(** ** A concrete cross-link file *)

Module ToyXl.

Definition xl_disk (path : string) : option xl_table :=
  if String.eqb path "xl.pkl.gz"
  then Some [("A", [("B", [(0%Z, 0%Z, 1 # 10)])])]
  else None.

Definition chain_id_map : dict string := [("A", "A"); ("B", "B")].

(** Two residues, one per chain. *)
Definition features : TorchDict :=
  [("asym_id", VInts (mk_ndarray [2] [0; 1]%Z))].

End ToyXl.

(** ** Further notions used in the statements of Part II *)

(** ["_" in s] *)
Fixpoint contains_underscore (s : string) : bool :=
  match s with
  | EmptyString => false
  | String c rest => Ascii.eqb c "_" || contains_underscore rest
  end.

(** [B @ A] for two 3 x 3 matrices *)
Definition mat_mul (B A : mat3) : mat3 :=
  let '(b1, b2, b3) := B in
  (vec_mat b1 A, vec_mat b2 A, vec_mat b3 A).

(** No label id is listed under two different sequence ids. *)
Definition consistent_labels (mapping : dict (list string)) : Prop :=
  forall ent1 refs1 ent2 refs2 ref,
    In (ent1, refs1) mapping -> In (ent2, refs2) mapping ->
    In ref refs1 -> In ref refs2 -> ent1 = ent2.

(** A data directory with the eval-mode side files only. *)
Definition eval_files : Files :=
  mk_files
    (fun p => if String.eqb p "d/eval_sample_weight.json"
              then Some [("seqA", 1%Q)] else None)
    (fun p => if String.eqb p "d/eval_multi_label.json"
              then Some [("seqA", ["1abc_A"; "1abc_B"])] else None)
    (fun _ => None) (fun _ => false).

(** A computation that raises from every state. *)
Definition never_returns {S A} (c : M S A) : Prop :=
  forall s, exists e, fst (c s) = inl e.

(** The number of label files among the reads logged in [s]. *)
Definition label_reads (s : io_state) : nat :=
  length (List.filter is_label_read (reads s)).

(** ** Fetching one example: both global states at once *)

(** Running a loader step or a generator step on the pair of the loader
    state and the generator state. *)
Definition in_io {R A} (c : M io_state A) : M (io_state * R) A :=
  fun '(s, g) => let '(r, s') := c s in (r, (s', g)).

Definition in_rng {R A} (c : M R A) : M (io_state * R) A :=
  fun '(s, g) => let '(r, g') := c g in (r, (s, g')).

(** The keyword arguments [load_and_process] hands on to [load];
    [kw_is_monomer] is [None] when the caller does not pass [is_monomer]. *)
Record LoadKwargs : Type := mk_kwargs {
  kw_sequence_ids : list string;
  kw_monomer_feature_dir : string;
  kw_uniprot_msa_dir : option string;
  kw_label_ids : option (list string);
  kw_label_dir : option string;
  kw_symmetry_operations : option (list Operation);
  kw_is_monomer : option bool
}.

Definition load_and_process {N} (E : Externals N)
    (disk : string -> option NumpyDict) (config : Config) (mode : string)
    (seed : Z) (batch_idx data_idx : option Z) (is_distillation : bool)
    (load_kwargs : LoadKwargs) : M (io_state * rng_state N) TorchExample :=
  let is_monomer :=
    match kw_is_monomer load_kwargs with
    | None => is_distillation
    | Some b => b
    end in
  let! '(features, labels) :=
    in_io (load E disk (kw_sequence_ids load_kwargs)
             (kw_monomer_feature_dir load_kwargs)
             (kw_uniprot_msa_dir load_kwargs) (kw_label_ids load_kwargs)
             (kw_label_dir load_kwargs) (kw_symmetry_operations load_kwargs)
             is_monomer) in
  in_rng (process E config mode features labels seed batch_idx data_idx
            is_distillation).

(** [idx // batch_size] *)
Definition floordiv (a b : Z) : result Z :=
  if (b =? 0)%Z then raise ZeroDivisionError else ret (a / b)%Z.

(** [UnifoldDataset.__getitem__] *)
Definition base_getitem {N} (E : Externals N)
    (disk : string -> option NumpyDict) (self : UnifoldDataset.t) (idx : Z)
    : M (io_state * rng_state N) TorchDict :=
  let! '(sequence_id, label_id, is_distillation) :=
    in_rng (UnifoldDataset.sample_chain N self idx true) in
  let! '(feature_dir, label_dir) :=
    st_lift
      (if negb is_distillation
       then ret (UnifoldDataset.feature_path self,
                 UnifoldDataset.label_path self)
       else
         let* f := attr "sd_feature_path" (UnifoldDataset.sd_feature_path self) in
         let* l := attr "sd_label_path" (UnifoldDataset.sd_label_path self) in
         ret (f, l)) in
  let! batch_idx := st_lift (floordiv idx (UnifoldDataset.ds_batch_size self)) in
  let! '(features, _) :=
    load_and_process E disk (UnifoldDataset.config self)
      (UnifoldDataset.mode self) (UnifoldDataset.seed self) (Some batch_idx)
      (Some idx) is_distillation
      (mk_kwargs [sequence_id] feature_dir None (Some [label_id])
         (Some label_dir) None (Some true)) in
  st_ret features.

(** Lines 562-573 of [UnifoldMultimerDataset.__getitem__]: the label ids of
    the assembly, their operations and their sequence ids. *)
Definition resolve_ids (self : UnifoldMultimerDataset.t) (label_id : string)
    : result (list string * option (list Operation) * list string) :=
  let pdb_id := UnifoldMultimerDataset.get_pdb_name label_id in
  let* '(label_ids, symmetry_operations) :=
    if (PyDict.mem (UnifoldMultimerDataset.pdb_assembly self) pdb_id
        && String.eqb (UnifoldDataset.mode (UnifoldMultimerDataset.base self))
             "train")%bool
    then
      let* a := getitem (UnifoldMultimerDataset.pdb_assembly self) pdb_id in
      let label_ids := map (fun id => (pdb_id ++ "_" ++ id)%string) (chains a) in
      let* a' := getitem (UnifoldMultimerDataset.pdb_assembly self) pdb_id in
      ret (label_ids, Some (opers a'))
    else
      let* l := getitem (UnifoldMultimerDataset.pdb_chains self) pdb_id in
      ret (l, None) in
  let* sequence_ids :=
    mapM (fun chain_id =>
            getitem (UnifoldDataset.inverse_multi_label
                       (UnifoldMultimerDataset.base self)) chain_id)
         label_ids in
  ret (label_ids, symmetry_operations, sequence_ids).

(** [UnifoldMultimerDataset.__getitem__]; the flag returned by
    [sample_chain] is overwritten with [False]. *)
Definition multimer_getitem {N} (E : Externals N)
    (disk : string -> option NumpyDict) (self : UnifoldMultimerDataset.t)
    (idx : Z) : M (io_state * rng_state N) TorchExample :=
  let b := UnifoldMultimerDataset.base self in
  let! '(seq_id, label_id, is_distillation) :=
    in_rng (UnifoldDataset.sample_chain N b idx false) in
  let is_distillation := false in
  let! '(label_ids, sequence_ids, monomer_feature_path, uniprot_msa_path,
         label_path, symmetry_operations) :=
    st_lift
      (if is_distillation then
         let* f := attr "sd_feature_path" (UnifoldDataset.sd_feature_path b) in
         let* l := attr "sd_label_path" (UnifoldDataset.sd_label_path b) in
         ret ([label_id], [seq_id], f, None, l, None)
       else
         let* '(label_ids, symmetry_operations, sequence_ids) :=
           resolve_ids self label_id in
         ret (label_ids, sequence_ids,
              UnifoldMultimerDataset.monomer_feature_path self,
              Some (UnifoldMultimerDataset.uniprot_msa_path self),
              UnifoldDataset.label_path b, symmetry_operations)) in
  let! batch_idx := st_lift (floordiv idx (UnifoldDataset.ds_batch_size b)) in
  load_and_process E disk (UnifoldDataset.config b) (UnifoldDataset.mode b)
    (UnifoldDataset.seed b) (Some batch_idx) (Some idx) is_distillation
    (mk_kwargs sequence_ids monomer_feature_path uniprot_msa_path
       (Some label_ids) (Some label_path) symmetry_operations (Some false)).

(** A link of the cross-link table with its two residues moved by the
    offsets of their chains. *)
Definition shifted (oi oj : Z) (link : Z * Z * Q) : xl_row :=
  let '(start, end_, fdr) := link in
  (inject_Z (start + oi), inject_Z (end_ + oj), fdr).

(** * Part II: properties *)

(** ** Dictionaries *)

Module PyDictFacts.
Import PyDict.

Lemma get_set_eq {V} (d : dict V) k v : get (set d k v) k = Some v.
Proof.
  induction d as [|[k' v'] d IH]; simpl.
  - now rewrite String.eqb_refl.
  - destruct (String.eqb k' k) eqn:E; simpl.
    + now rewrite String.eqb_refl.
    + now rewrite E.
Qed.

Lemma get_set_ne {V} (d : dict V) k k' v :
  k <> k' -> get (set d k v) k' = get d k'.
Proof.
  intros Hne. induction d as [|[k0 v0] d IH]; simpl.
  - destruct (String.eqb_spec k k'); [contradiction|reflexivity].
  - destruct (String.eqb_spec k0 k) as [->|Hk]; simpl.
    + destruct (String.eqb_spec k k'); [contradiction|reflexivity].
    + destruct (String.eqb_spec k0 k'); [reflexivity|exact IH].
Qed.

Lemma get_set {V} (d : dict V) k k' v :
  get (set d k v) k' = if String.eqb k k' then Some v else get d k'.
Proof.
  destruct (String.eqb_spec k k') as [->|Hne].
  - apply get_set_eq.
  - now apply get_set_ne.
Qed.

Lemma mem_get {V} (d : dict V) k :
  mem d k = true <-> exists v, get d k = Some v.
Proof.
  unfold mem. destruct (get d k) as [v|].
  - split; [eauto|reflexivity].
  - split; [discriminate|intros [v Hv]; discriminate].
Qed.

Lemma mem_keys {V} (d : dict V) k : mem d k = true <-> In k (keys d).
Proof.
  unfold mem, keys. induction d as [|[k' v'] d IH]; simpl.
  - split; [discriminate|tauto].
  - destruct (String.eqb_spec k' k) as [->|Hne].
    + split; auto.
    + rewrite IH. split; [auto|intros [H|H]; [contradiction|exact H]].
Qed.

Lemma mem_set {V} (d : dict V) k k' v :
  mem (set d k v) k' = (String.eqb k k' || mem d k')%bool.
Proof.
  unfold mem. rewrite get_set. now destruct (String.eqb k k').
Qed.

Lemma get_filter_keys {V} (p : string -> bool) (d : dict V) k :
  get (filter_keys p d) k = if p k then get d k else None.
Proof.
  unfold filter_keys. induction d as [|[k' v'] d IH]; simpl.
  - now destruct (p k).
  - destruct (p k') eqn:Pk'; simpl.
    + destruct (String.eqb_spec k' k) as [->|Hne].
      * now rewrite Pk'.
      * exact IH.
    + destruct (String.eqb_spec k' k) as [->|Hne].
      * rewrite IH, Pk'. reflexivity.
      * exact IH.
Qed.

End PyDictFacts.

(** ** The inverse label map *)

Section InverseMap.
Import UnifoldDataset.

Lemma inverse_map_refs_ok ent refs inv inv' :
  inverse_map_refs ent refs inv = inr inv' ->
  (forall ref, In ref refs -> PyDict.get inv' ref = Some ent) /\
  (forall r e, PyDict.get inv r = Some e -> PyDict.get inv' r = Some e).
Proof.
  revert inv. induction refs as [|ref refs IH]; simpl; intros inv H.
  - injection H as <-. split; [tauto|auto].
  - assert (Hstep : inverse_map_refs ent refs (PyDict.set inv ref ent) = inr inv'
                    /\ (forall e, PyDict.get inv ref = Some e -> e = ent)).
    { unfold PyDict.mem, getitem in H.
      destruct (PyDict.get inv ref) as [ent_2|] eqn:G; simpl in H.
      - destruct (String.eqb_spec ent ent_2) as [->|Hne]; simpl in H.
        + split; [exact H|]. intros e [= <-]. reflexivity.
        + discriminate.
      - split; [exact H|discriminate]. }
    destruct Hstep as [Hrec Hold]. destruct (IH _ Hrec) as [Hin Hpres].
    split.
    + intros r [<-|Hr]; [|auto]. apply Hpres, PyDictFacts.get_set_eq.
    + intros r e Hre. apply Hpres. rewrite PyDictFacts.get_set.
      destruct (String.eqb_spec ref r) as [<-|Hne]; [|exact Hre].
      f_equal. symmetry. now apply Hold.
Qed.

Lemma inverse_map_items_ok items inv inv' :
  inverse_map_items items inv = inr inv' ->
  (forall ent refs ref, In (ent, refs) items -> In ref refs ->
     PyDict.get inv' ref = Some ent) /\
  (forall r e, PyDict.get inv r = Some e -> PyDict.get inv' r = Some e).
Proof.
  revert inv. induction items as [|[ent refs] items IH]; simpl; intros inv H.
  - injection H as <-. split; [tauto|auto].
  - destruct (inverse_map_refs ent refs inv) as [e|inv1] eqn:E1; simpl in H;
      [discriminate|].
    destruct (inverse_map_refs_ok _ _ _ _ E1) as [Hin1 Hpres1].
    destruct (IH _ H) as [Hin Hpres]. split.
    + intros ent0 refs0 ref [[= <- <-]|Hi] Hr; [|eauto].
      apply Hpres, Hin1, Hr.
    + intros r e Hre. apply Hpres, Hpres1, Hre.
Qed.

Lemma inverse_map_refs_err ent refs inv e :
  inverse_map_refs ent refs inv = inl e -> exists msg, e = AssertionError msg.
Proof.
  revert inv. induction refs as [|ref refs IH]; simpl; intros inv H;
    [discriminate|].
  unfold PyDict.mem, getitem in H.
  destruct (PyDict.get inv ref) as [ent_2|] eqn:G; simpl in H.
  - destruct (String.eqb ent ent_2); simpl in H; [eauto|].
    injection H as <-. eauto.
  - eauto.
Qed.

Lemma inverse_map_items_err items inv e :
  inverse_map_items items inv = inl e -> exists msg, e = AssertionError msg.
Proof.
  revert inv. induction items as [|[ent refs] items IH]; simpl; intros inv H;
    [discriminate|].
  destruct (inverse_map_refs ent refs inv) as [e1|inv1] eqn:E1; simpl in H.
  - injection H as <-. eapply inverse_map_refs_err, E1.
  - eauto.
Qed.

(** C3. [_inverse_map] on [{"seqA": ["c1","c2"]}] returns
    [{"c1":"seqA","c2":"seqA"}]; on every mapping in which some label id is
    listed under two distinct sequence ids (for instance
    [{"seqA":["c1"],"seqB":["c1"]}]) it raises an [AssertionError] instead of
    returning. *)
Theorem inverse_map_spec :
  _inverse_map [("seqA", ["c1"; "c2"])] = inr [("c1", "seqA"); ("c2", "seqA")]
  /\ is_assertion_error (_inverse_map [("seqA", ["c1"]); ("seqB", ["c1"])])
  /\ forall (mapping : dict (list string)) ent1 refs1 ent2 refs2 ref,
       In (ent1, refs1) mapping -> In (ent2, refs2) mapping ->
       In ref refs1 -> In ref refs2 -> ent1 <> ent2 ->
       is_assertion_error (_inverse_map mapping).
Proof.
  split; [reflexivity|]. split; [eexists; reflexivity|].
  intros mapping ent1 refs1 ent2 refs2 ref H1 H2 Hr1 Hr2 Hne.
  unfold is_assertion_error, _inverse_map.
  destruct (inverse_map_items mapping PyDict.empty) as [e|inv] eqn:E.
  - destruct (inverse_map_items_err _ _ _ E) as [msg ->]. eauto.
  - exfalso. destruct (inverse_map_items_ok _ _ _ E) as [Hin _].
    pose proof (Hin _ _ _ H1 Hr1) as G1. pose proof (Hin _ _ _ H2 Hr2) as G2.
    congruence.
Qed.

Lemma inverse_map_spec_witness :
  is_assertion_error
    (_inverse_map [("seqA", ["c1"; "c2"]); ("seqB", ["c3"; "c1"])]).
Proof.
  apply (proj2 (proj2 inverse_map_spec)) with
    (ent1 := "seqA") (refs1 := ["c1"; "c2"])
    (ent2 := "seqB") (refs2 := ["c3"; "c1"]) (ref := "c1");
    simpl; auto; discriminate.
Defined.

End InverseMap.

(** ** Symmetry operations on label coordinates *)

Section ProcessLabel.

Ltac destruct_mat R :=
  destruct R as [[[[?r11 ?r12] ?r13] [[?r21 ?r22] ?r23]] [[?r31 ?r32] ?r33]].
Ltac destruct_vec v := destruct v as [[?x1 ?x2] ?x3].

Lemma matmul_add_rigid (R : mat3) (t p : vec3) :
  vec_add (vec_mat p (transpose R)) t = rigid_transform R t p.
Proof. destruct_mat R. destruct_vec t. destruct_vec p. reflexivity. Qed.

Lemma reshape_flat_mat (R : mat3) : reshape_3_3 (flat_mat R) = inr R.
Proof. destruct_mat R. reflexivity. Qed.

Lemma reshape_flat_vec (t : vec3) : reshape_3 (flat_vec t) = inr t.
Proof. destruct_vec t. reflexivity. Qed.

Lemma process_label_rigid (x : coords) (R : mat3) (t : vec3) :
  process_label x (operation_of R t) = inr (map (map (rigid_transform R t)) x).
Proof.
  unfold process_label, operation_of.
  rewrite reshape_flat_mat, reshape_flat_vec. simpl. unfold ret, matmul_add.
  f_equal. apply map_ext. intros atoms. apply map_ext. intros p.
  apply matmul_add_rigid.
Qed.

Lemma mul_bound (a b A B : Q) :
  (- A <= a)%Q -> (a <= A)%Q -> (- B <= b)%Q -> (b <= B)%Q ->
  (- (A * B) <= a * b /\ a * b <= A * B)%Q.
Proof. intros. split; nra. Qed.

(** One atom: [p' ] is the computed image of [p], off by at most [d1], and
    [q'] the computed image of [p'] under the inverse operation, off by at
    most [d2].  Then [q' - p = p . (R^T R - 1) + (p' - image) . R + error]. *)
Lemma round_trip_atom (R : mat3) (t p p' q' : vec3) (eps B rho d1 d2 : Q) :
  near_orthogonal eps R -> mat_bounded rho R -> vec3_bounded B p ->
  vec3_close d1 p' (rigid_transform R t p) ->
  vec3_close d2 q'
    (rigid_transform (transpose R) (vec_opp (vec_mat t R)) p') ->
  vec3_close (3 * eps * B + 3 * rho * d1 + d2) q' p.
Proof.
  destruct_mat R. destruct t as [[t1 t2] t3]. destruct p as [[p1 p2] p3].
  destruct p' as [[a1 a2] a3]. destruct q' as [[q1 q2] q3].
  unfold near_orthogonal, mat_bounded, vec3_bounded, vec3_close, close.
  cbn [rigid_transform transpose vec_opp vec_mat].
  intros (H11 & H22 & H33 & H12 & H13 & H23)
    ((Ra & Rb & Rc) & (Rd & Re & Rf) & (Rg & Rh & Ri))
    (P1 & P2 & P3) (A1 & A2 & A3) (Q1 & Q2 & Q3).
  set (e1 := (a1 - (p1 * r11 + p2 * r12 + p3 * r13 + t1))%Q).
  set (e2 := (a2 - (p1 * r21 + p2 * r22 + p3 * r23 + t2))%Q).
  set (e3 := (a3 - (p1 * r31 + p2 * r32 + p3 * r33 + t3))%Q).
  pose proof (mul_bound p1 (r11 * r11 + r21 * r21 + r31 * r31 - 1) B eps).
  pose proof (mul_bound p2 (r11 * r12 + r21 * r22 + r31 * r32) B eps).
  pose proof (mul_bound p3 (r11 * r13 + r21 * r23 + r31 * r33) B eps).
  pose proof (mul_bound p1 (r11 * r12 + r21 * r22 + r31 * r32) B eps).
  pose proof (mul_bound p2 (r12 * r12 + r22 * r22 + r32 * r32 - 1) B eps).
  pose proof (mul_bound p3 (r12 * r13 + r22 * r23 + r32 * r33) B eps).
  pose proof (mul_bound p1 (r11 * r13 + r21 * r23 + r31 * r33) B eps).
  pose proof (mul_bound p2 (r12 * r13 + r22 * r23 + r32 * r33) B eps).
  pose proof (mul_bound p3 (r13 * r13 + r23 * r23 + r33 * r33 - 1) B eps).
  pose proof (mul_bound e1 r11 d1 rho). pose proof (mul_bound e2 r21 d1 rho).
  pose proof (mul_bound e3 r31 d1 rho). pose proof (mul_bound e1 r12 d1 rho).
  pose proof (mul_bound e2 r22 d1 rho). pose proof (mul_bound e3 r32 d1 rho).
  pose proof (mul_bound e1 r13 d1 rho). pose proof (mul_bound e2 r23 d1 rho).
  pose proof (mul_bound e3 r33 d1 rho).
  subst e1 e2 e3. repeat split; lra.
Qed.

Lemma close_atoms (f g : vec3 -> vec3) (B d1 d2 bound : Q) :
  (forall p p' q',
     vec3_bounded B p -> vec3_close d1 p' (f p) -> vec3_close d2 q' (g p') ->
     vec3_close bound q' p) ->
  forall xs ys zs,
    Forall (vec3_bounded B) xs ->
    Forall2 (vec3_close d1) ys (map f xs) ->
    Forall2 (vec3_close d2) zs (map g ys) ->
    Forall2 (vec3_close bound) zs xs.
Proof.
  intros Hatom. induction xs as [|p xs IH]; intros ys zs Hb H1 H2.
  - inversion H1; subst. inversion H2; subst. constructor.
  - inversion H1 as [|p' ? ys' ? Hp' Hys]; subst.
    inversion H2 as [|q' ? zs' ? Hq' Hzs]; subst.
    inversion Hb as [|? ? Hp Hxs]; subst.
    constructor; [eapply Hatom; eauto|now apply (IH ys')].
Qed.

Lemma close_coords (f g : vec3 -> vec3) (B d1 d2 bound : Q) :
  (forall p p' q',
     vec3_bounded B p -> vec3_close d1 p' (f p) -> vec3_close d2 q' (g p') ->
     vec3_close bound q' p) ->
  forall x y z : coords,
    coords_bounded B x ->
    coords_close d1 y (map (map f) x) ->
    coords_close d2 z (map (map g) y) ->
    coords_close bound z x.
Proof.
  intros Hatom. unfold coords_bounded, coords_close.
  induction x as [|xs x IH]; intros y z Hb H1 H2.
  - inversion H1; subst. inversion H2; subst. constructor.
  - inversion H1 as [|ys ? y' ? Hys Hy]; subst.
    inversion H2 as [|zs ? z' ? Hzs Hz]; subst.
    inversion Hb as [|? ? Hxs Hx]; subst.
    constructor; [eapply close_atoms; eauto|now apply (IH y')].
Qed.

Lemma coords_close_refl (delta : Q) (x : coords) :
  (0 <= delta)%Q -> coords_close delta x x.
Proof.
  intros Hd. unfold coords_close.
  induction x as [|atoms x IH]; constructor; [|exact IH].
  induction atoms as [|[[a b] c] atoms IHa]; constructor; [|exact IHa].
  unfold vec3_close, close. repeat split; lra.
Qed.

(** C2. [process_label] with operation ["I"] returns the coordinate array
    unchanged; with a rotation [R] and a translation [t] it returns
    [positions . R^T + t]; and applying [(R, t)] and then the inverse rigid
    transform [(R^T, - t . R)] gives back the original coordinates within a
    tolerance that the statement makes explicit.  [R] need not be an exact
    rotation: its entries are at most [rho] in size and [R^T . R] is within
    [eps] of the unit matrix, as for every rotation matrix stored in floats.
    The two applications need not be exact either: the array [y'] handed on
    is any array within [d1] of the first result, and the array [z']
    finally obtained any array within [d2] of the second.  For coordinates
    of size at most [B], [z'] is then within [3 eps B + 3 rho d1 + d2] of the
    original; with an exact rotation and exact arithmetic this is 0. *)
Theorem process_label_spec :
  (forall x : coords, process_label x (OpStr "I") = inr x)
  /\ (forall (x : coords) (R : mat3) (t : vec3),
        process_label x (operation_of R t)
        = inr (map (map (rigid_transform R t)) x))
  /\ (forall (x : coords) (R : mat3) (t : vec3) (eps B rho d1 d2 : Q),
        near_orthogonal eps R -> mat_bounded rho R -> coords_bounded B x ->
        exists y,
          process_label x (operation_of R t) = inr y
          /\ forall y',
               coords_close d1 y' y ->
               exists z,
                 process_label y' (inverse_operation R t) = inr z
                 /\ forall z',
                      coords_close d2 z' z ->
                      coords_close (3 * eps * B + 3 * rho * d1 + d2) z' x).
Proof.
  split; [reflexivity|]. split; [apply process_label_rigid|].
  intros x R t eps B rho d1 d2 HR Hrho HB.
  eexists. split; [apply process_label_rigid|].
  intros y' Hy'. eexists. split; [apply process_label_rigid|].
  intros z' Hz'.
  eapply close_coords; [|exact HB|exact Hy'|exact Hz'].
  intros p p' q'. now apply round_trip_atom.
Qed.

Lemma process_label_spec_witness :
  near_orthogonal (1 # 10000) rot30
  /\ exists y z,
       process_label [[(1, 2, 3); (0, 0, 0)]; [(4 # 3, -5, 1 # 2)]]%Q
         (operation_of rot30 shift_x) = inr y
       /\ process_label y (inverse_operation rot30 shift_x) = inr z
       /\ coords_close (3 * (1 # 10000) * 5 + 3 * 1 * 0 + 0) z
            [[(1, 2, 3); (0, 0, 0)]; [(4 # 3, -5, 1 # 2)]]%Q.
Proof.
  assert (H : near_orthogonal (1 # 10000) rot30)
    by (vm_compute; repeat split; discriminate).
  split; [exact H|].
  destruct (proj2 (proj2 process_label_spec)
              [[(1, 2, 3); (0, 0, 0)]; [(4 # 3, -5, 1 # 2)]]%Q rot30 shift_x
              (1 # 10000) 5%Q 1%Q 0%Q 0%Q H) as (y & Hy & Hnext).
  - vm_compute. repeat split; discriminate.
  - vm_compute. repeat constructor; discriminate.
  - destruct (Hnext y) as (z & Hz & Hlast);
      [apply coords_close_refl; discriminate|].
    exists y, z. split; [exact Hy|]. split; [exact Hz|].
    apply Hlast, coords_close_refl. discriminate.
Defined.

End ProcessLabel.

(** ** Chain offsets *)

Section Offsets.

Lemma insert_unique_In x y l : In y (insert_unique x l) <-> y = x \/ In y l.
Proof.
  induction l as [|z l IH]; simpl.
  - intuition.
  - destruct (Z.ltb_spec x z); simpl; [intuition|].
    destruct (Z.eqb_spec x z) as [->|Hne]; simpl; [intuition|].
    rewrite IH. intuition.
Qed.

Lemma insert_unique_sorted x l :
  StronglySorted Z.lt l -> StronglySorted Z.lt (insert_unique x l).
Proof.
  induction 1 as [|z l Hs IH Hall]; simpl.
  - repeat constructor.
  - destruct (Z.ltb_spec x z).
    + constructor; [now constructor|]. constructor; [exact H|].
      eapply List.Forall_impl; [|exact Hall]. intros; simpl in *; lia.
    + destruct (Z.eqb_spec x z) as [->|Hne]; [now constructor|].
      constructor; [exact IH|].
      apply List.Forall_forall. intros y Hy.
      apply insert_unique_In in Hy as [->|Hy]; [lia|].
      rewrite List.Forall_forall in Hall. now apply Hall.
Qed.

Lemma np_unique_In y l : In y (np_unique l) <-> In y l.
Proof.
  induction l as [|x l IH]; simpl; [tauto|].
  rewrite insert_unique_In, IH. intuition.
Qed.

Lemma np_unique_sorted l : StronglySorted Z.lt (np_unique l).
Proof.
  induction l as [|x l IH]; simpl; [constructor|].
  now apply insert_unique_sorted.
Qed.

(** Counting with a predicate that splits into two exclusive ones. *)
Lemma filter_length_split (p q r : Z -> bool) (l : list Z) :
  (forall a, In a l -> p a = (q a || r a)%bool) ->
  (forall a, In a l -> (q a && r a)%bool = false) ->
  length (List.filter p l)
  = (length (List.filter q l) + length (List.filter r l))%nat.
Proof.
  induction l as [|a l IH]; simpl; intros Hp Hex; [reflexivity|].
  specialize (Hp a (or_introl eq_refl)) as Ha.
  specialize (Hex a (or_introl eq_refl)) as Hb.
  assert (IH' := IH (fun b Hb => Hp b (or_intror Hb))
                    (fun b Hb => Hex b (or_intror Hb))).
  rewrite Ha. destruct (q a), (r a); simpl in *; try discriminate; lia.
Qed.

Lemma residues_before_next ids u0 u1 :
  (u0 < u1)%Z ->
  (forall a, In a ids -> (a <= u0)%Z \/ (u1 <= a)%Z) ->
  residues_before ids u1 = (residues_before ids u0 + count_eq ids u0)%Z.
Proof.
  intros Hlt Hgap. unfold residues_before, count_eq.
  rewrite (filter_length_split _ (fun a => (a <? u0)%Z) (Z.eqb u0)); [lia| |].
  - intros a Ha. specialize (Hgap a Ha).
    destruct (Z.ltb_spec a u1), (Z.ltb_spec a u0), (Z.eqb_spec u0 a);
      simpl; try reflexivity; lia.
  - intros a _. destruct (Z.ltb_spec a u0), (Z.eqb_spec u0 a);
      simpl; try reflexivity; lia.
Qed.

(** The running sums over a strictly increasing list of chain ids that
    covers every residue not yet counted. *)
Lemma cumsum_offsets ids us :
  StronglySorted Z.lt us ->
  forall acc,
    (forall a, In a ids -> In a us \/ Forall (Z.lt a) us) ->
    (forall u0 rest, us = u0 :: rest -> acc = residues_before ids u0) ->
    forall i u, us !! i = Some u ->
      (acc :: cumsum_from acc (map (count_eq ids) us)) !! i
        = Some (residues_before ids u)
      /\ (acc :: cumsum_from acc (map (count_eq ids) us)) !! (S i)
        = Some (residues_before ids u + count_eq ids u)%Z.
Proof.
  induction 1 as [|u0 us Hs IH Hall]; intros acc Hcov Hacc i u Hi;
    [discriminate|].
  pose proof (Hacc u0 us eq_refl) as ->.
  destruct i as [|i]; simpl in Hi.
  - injection Hi as <-. split; reflexivity.
  - change ((cumsum_from (residues_before ids u0)
               (map (count_eq ids) (u0 :: us))) !! i
              = Some (residues_before ids u)
            /\ (cumsum_from (residues_before ids u0)
                  (map (count_eq ids) (u0 :: us))) !! (S i)
              = Some (residues_before ids u + count_eq ids u)%Z).
    simpl. apply IH; [|intros u1 rest ->|exact Hi].
    + intros a Ha. destruct (Hcov a Ha) as [[<-|Hin]|Hsm].
      * right. exact Hall.
      * now left.
      * right. now inversion Hsm.
    + symmetry. inversion Hall as [|? ? Hu1 _]; subst.
      apply residues_before_next; [exact Hu1|].
      intros a Ha. destruct (Hcov a Ha) as [[<-|[<-|Hin]]|Hsm].
      * left; lia.
      * right; lia.
      * right. inversion Hs as [|? ? _ Hall1]; subst.
        rewrite List.Forall_forall in Hall1. specialize (Hall1 a Hin). lia.
      * left. inversion Hsm; subst. lia.
Qed.

Lemma cumsum_from_length acc l : length (cumsum_from acc l) = length l.
Proof. revert acc. induction l; intros; simpl; [reflexivity|now rewrite IHl]. Qed.

Lemma residues_before_nil ids u0 :
  (forall a, In a ids -> (u0 <= a)%Z) -> residues_before ids u0 = 0%Z.
Proof.
  intros H. unfold residues_before.
  induction ids as [|a ids IH]; simpl; [reflexivity|].
  destruct (Z.ltb_spec a u0).
  - specialize (H a (or_introl eq_refl)). lia.
  - apply IH. intros; apply H; now right.
Qed.

Lemma count_eq_nil ids u :
  (forall a, In a ids -> a <> u) -> count_eq ids u = 0%Z.
Proof.
  intros H. unfold count_eq.
  induction ids as [|a ids IH]; simpl; [reflexivity|].
  destruct (Z.eqb_spec u a) as [->|Hne].
  - now destruct (H a (or_introl eq_refl)).
  - apply IH. intros; apply H; now right.
Qed.

(** In a chain-sorted numbering the residues of a chain are contiguous. *)
Lemma sorted_chain_positions ids u :
  StronglySorted Z.le ids ->
  forall p : nat,
    ids !! p = Some u <->
    (residues_before ids u <= Z.of_nat p
       < residues_before ids u + count_eq ids u)%Z.
Proof.
  induction 1 as [|a l Hs IH Hall]; intros p.
  - unfold residues_before, count_eq. simpl. split; [discriminate|lia].
  - rewrite List.Forall_forall in Hall.
    assert (Hb : residues_before (a :: l) u
                 = ((if (a <? u)%Z then 1 else 0) + residues_before l u)%Z).
    { unfold residues_before. simpl. destruct (a <? u)%Z; simpl; lia. }
    assert (Hc : count_eq (a :: l) u
                 = ((if (u =? a)%Z then 1 else 0) + count_eq l u)%Z).
    { unfold count_eq. simpl. destruct (u =? a)%Z; simpl; lia. }
    assert (Hb0 : (u <= a)%Z -> residues_before l u = 0%Z).
    { intros Hua. apply residues_before_nil. intros b Hb'.
      specialize (Hall b Hb'). lia. }
    assert (Hc0 : (u < a)%Z -> count_eq l u = 0%Z).
    { intros Hua. apply count_eq_nil. intros b Hb'.
      specialize (Hall b Hb'). lia. }
    assert (Hnn : (0 <= residues_before l u)%Z /\ (0 <= count_eq l u)%Z).
    { unfold residues_before, count_eq. lia. }
    rewrite Hb, Hc. destruct p as [|p]; simpl.
    + destruct (Z.ltb_spec a u), (Z.eqb_spec u a);
        (split; [intros [= ?]; lia|intros ?; f_equal; lia]).
    + rewrite IH.
      destruct (Z.ltb_spec a u), (Z.eqb_spec u a); lia.
Qed.

(** C6. [calculate_offsets] on the asym ids [0,0,1,1,1] returns [0,2,5].
    In general the result starts with 0 and has one entry more than there
    are chains; the entry of the i-th chain (in increasing id order) is the
    number of residues of the chains before it, and the next entry adds the
    residue count of this chain (cumulative sums). When the residues are laid
    out chain after chain (the flattened complex numbering), the residues of
    the i-th chain are exactly the positions from [offsets[i]] up to, but
    excluding, [offsets[i] + count]. *)
Theorem calculate_offsets_spec :
  calculate_offsets (mk_ndarray [5] [0; 0; 1; 1; 1]%Z) = [0; 2; 5]%Z
  /\ forall asym_ids : ndarray Z,
       let ids := data asym_ids in
       let chain_ids := np_unique ids in
       let offsets := calculate_offsets asym_ids in
       offsets !! 0 = Some 0%Z
       /\ length offsets = S (length chain_ids)
       /\ (forall i u, chain_ids !! i = Some u ->
             offsets !! i = Some (residues_before ids u)
             /\ offsets !! (S i)
                = Some (residues_before ids u + count_eq ids u)%Z)
       /\ (StronglySorted Z.le ids ->
           forall i u o, chain_ids !! i = Some u -> offsets !! i = Some o ->
             forall p : nat,
               ids !! p = Some u
               <-> (o <= Z.of_nat p < o + count_eq ids u)%Z).
Proof.
  split; [reflexivity|].
  intros asym_ids ids chain_ids offsets.
  assert (Hlook : forall i u, chain_ids !! i = Some u ->
             offsets !! i = Some (residues_before ids u)
             /\ offsets !! (S i)
                = Some (residues_before ids u + count_eq ids u)%Z).
  { intros i u Hi. unfold offsets, calculate_offsets, np_cumsum.
    fold ids. fold chain_ids. simpl.
    apply (cumsum_offsets ids chain_ids (np_unique_sorted ids) 0%Z);
      [| |exact Hi].
    - intros a Ha. left. now apply np_unique_In.
    - intros u0 rest Hus. symmetry. apply residues_before_nil.
      intros a Ha. apply np_unique_In in Ha. fold ids in Ha.
      fold chain_ids in Ha. pose proof (np_unique_sorted ids) as Hs.
      fold chain_ids in Hs. rewrite Hus in Ha, Hs.
      destruct Ha as [<-|Ha]; [lia|].
      inversion Hs as [|? ? _ Hall]; subst.
      rewrite List.Forall_forall in Hall. specialize (Hall a Ha). lia. }
  split; [reflexivity|]. split.
  { unfold offsets, calculate_offsets, np_cumsum. simpl.
    now rewrite cumsum_from_length, length_map. }
  split; [exact Hlook|].
  intros Hsorted i u o Hi Ho p.
  destruct (Hlook i u Hi) as [Ho' _]. rewrite Ho' in Ho. injection Ho as <-.
  now apply sorted_chain_positions.
Qed.

Lemma calculate_offsets_spec_witness :
  let asym_ids := mk_ndarray [5] [0; 0; 1; 1; 1]%Z in
  calculate_offsets asym_ids !! 1 = Some 2%Z
  /\ (data asym_ids !! 2 = Some 1%Z <-> (2 <= Z.of_nat 2 < 2 + 3)%Z).
Proof.
  intros asym_ids.
  destruct (proj2 calculate_offsets_spec asym_ids) as (_ & _ & Hl & Hp).
  split.
  - exact (proj1 (Hl 1 1%Z eq_refl)).
  - apply (Hp ltac:(repeat constructor; lia) 1 1%Z 2%Z eq_refl eq_refl 2).
Defined.

End Offsets.

(** ** Binning cross-links *)

Section BinXl.

Lemma norm_index_lt n r i : norm_index n r = inr i -> i < n.
Proof.
  unfold norm_index.
  destruct (r <? 0)%Z;
    match goal with |- context [(?c && ?d)%bool] =>
      destruct (Z.leb_spec 0 ltac:(match c with (_ <=? ?x)%Z => exact x end));
      simpl; [|discriminate];
      match d with (?x <? ?y)%Z => destruct (Z.ltb_spec x y) end;
      simpl; [|discriminate]
    end; intros [= <-]; lia.
Qed.

Lemma norm_index_in_range n r :
  in_range n r -> exists i, norm_index n (py_int r) = inr i.
Proof.
  unfold in_range, norm_index. intros H.
  destruct (Z.ltb_spec (py_int r) 0).
  - destruct (Z.leb_spec 0 (py_int r + Z.of_nat n)); [|lia].
    destruct (Z.ltb_spec (py_int r + Z.of_nat n) (Z.of_nat n)); [|lia].
    simpl. eauto.
  - destruct (Z.leb_spec 0 (py_int r)); [|lia].
    destruct (Z.ltb_spec (py_int r) (Z.of_nat n)); [|lia].
    simpl. eauto.
Qed.

Lemma norm_index_defined n r i :
  norm_index n (py_int r) = inr i -> in_range n r.
Proof.
  unfold in_range, norm_index.
  destruct (Z.ltb_spec (py_int r) 0).
  - destruct (Z.leb_spec 0 (py_int r + Z.of_nat n)); simpl; [|discriminate].
    destruct (Z.ltb_spec (py_int r + Z.of_nat n) (Z.of_nat n)); simpl;
      [|discriminate]. lia.
  - destruct (Z.leb_spec 0 (py_int r)); simpl; [|discriminate].
    destruct (Z.ltb_spec (py_int r) (Z.of_nat n)); simpl; [|discriminate].
    lia.
Qed.

Lemma offset_inj n i j i' j' :
  j < n -> j' < n ->
  (i * n + j) * 1 + 0 = (i' * n + j') * 1 + 0 <-> i = i' /\ j = j'.
Proof.
  intros Hj Hj'. split; [|intros [-> ->]; reflexivity].
  intros H. assert (i = i') by nia. subst. split; [reflexivity|lia].
Qed.

Lemma getitem3_lookup n (a : ndarray Q) i j :
  shape a = [n; n; 1] -> i < n -> j < n ->
  getitem3 a i j 0 = data a !! ((i * n + j) * 1 + 0).
Proof.
  intros Hs Hi Hj. unfold getitem3. rewrite Hs.
  destruct (Nat.ltb_spec i n); [|lia]. destruct (Nat.ltb_spec j n); [|lia].
  reflexivity.
Qed.

Lemma setitem3_spec n (a a' : ndarray Q) r1 r2 v :
  shape a = [n; n; 1] -> length (data a) = n * n ->
  setitem3 a r1 r2 0 v = inr a' ->
  exists i j,
    norm_index n r1 = inr i /\ norm_index n r2 = inr j /\
    shape a' = [n; n; 1] /\ length (data a') = n * n /\
    forall i' j', i' < n -> j' < n ->
      getitem3 a' i' j' 0
      = if decide (i' = i /\ j' = j) then Some v else getitem3 a i' j' 0.
Proof.
  intros Hs Hl. unfold setitem3. rewrite Hs.
  destruct (norm_index n r1) as [e|i] eqn:E1; simpl; [discriminate|].
  destruct (norm_index n r2) as [e|j] eqn:E2; simpl; [discriminate|].
  intros [= <-]. exists i, j.
  pose proof (norm_index_lt _ _ _ E1) as Hi.
  pose proof (norm_index_lt _ _ _ E2) as Hj.
  split; [reflexivity|]. split; [reflexivity|]. split; [reflexivity|].
  split; [simpl; now rewrite length_insert|].
  intros i' j' Hi' Hj'.
  rewrite !(getitem3_lookup n) by (simpl; auto). simpl.
  rewrite list_lookup_insert.
  destruct (decide (i' = i /\ j' = j)) as [[-> ->]|Hne].
  - rewrite decide_True; [reflexivity|]. split; [reflexivity|]. nia.
  - rewrite decide_False; [reflexivity|]. intros [Heq _].
    apply offset_inj in Heq; [|lia|lia]. destruct Heq; subst. now apply Hne.
Qed.

Lemma setitem3_returns n (a : ndarray Q) r1 r2 v :
  shape a = [n; n; 1] -> in_range n r1 -> in_range n r2 ->
  exists a', setitem3 a (py_int r1) (py_int r2) 0 v = inr a'.
Proof.
  intros Hs H1 H2. unfold setitem3. rewrite Hs.
  destruct (norm_index_in_range _ _ H1) as [i ->].
  destruct (norm_index_in_range _ _ H2) as [j ->]. simpl. eauto.
Qed.

Lemma addresses_iff n r1 r2 fdr a b i j :
  norm_index n (py_int r1) = inr a -> norm_index n (py_int r2) = inr b ->
  addresses n (r1, r2, fdr) i j <-> (i = a /\ j = b) \/ (i = b /\ j = a).
Proof.
  intros H1 H2. unfold addresses. rewrite H1, H2. split.
  - intros [[[= ->] [= ->]]|[[= ->] [= ->]]]; auto.
  - intros [[-> ->]|[-> ->]]; auto.
Qed.

(** The loop: every cell is either untouched, and then no cross-link
    addresses it, or it and its mirror cell hold the bin of a cross-link
    that addresses it. *)
Lemma bin_xl_loop_spec T n rows :
  forall out out' : ndarray Q,
    shape out = [n; n; 1] -> length (data out) = n * n ->
    bin_xl_loop T rows out = inr out' ->
    shape out' = [n; n; 1] /\ length (data out') = n * n /\
    forall i j, i < n -> j < n ->
      (getitem3 out' i j 0 = getitem3 out i j 0
       /\ getitem3 out' j i 0 = getitem3 out j i 0
       /\ forall row, In row rows -> ~ addresses n row i j)
      \/ (exists row, In row rows /\ addresses n row i j
          /\ getitem3 out' i j 0 = Some (bin_of T row)
          /\ getitem3 out' j i 0 = Some (bin_of T row)).
Proof.
  induction rows as [|[[r1 r2] fdr] rows IH]; intros out out' Hs Hl H.
  - injection H as <-. split; [exact Hs|]. split; [exact Hl|].
    intros i j _ _. left. split; [reflexivity|]. split; [reflexivity|].
    intros row [].
  - simpl in H.
    destruct (setitem3 out (py_int r1) (py_int r2) 0 _) as [e|out1] eqn:S1;
      simpl in H; [discriminate|].
    destruct (setitem3 out1 (py_int r2) (py_int r1) 0 _) as [e|out2] eqn:S2;
      simpl in H; [discriminate|].
    destruct (setitem3_spec n _ _ _ _ _ Hs Hl S1)
      as (a & b & Ha & Hb & Hs1 & Hl1 & G1).
    destruct (setitem3_spec n _ _ _ _ _ Hs1 Hl1 S2)
      as (b' & a' & Hb' & Ha' & Hs2 & Hl2 & G2).
    rewrite Hb in Hb'. rewrite Ha in Ha'.
    injection Hb' as <-. injection Ha' as <-.
    destruct (IH _ _ Hs2 Hl2 H) as (Hs' & Hl' & G).
    split; [exact Hs'|]. split; [exact Hl'|].
    intros i j Hi Hj.
    pose proof (addresses_iff n r1 r2 fdr a b i j Ha Hb) as Haddr.
    destruct (G i j Hi Hj) as [(Eij & Eji & Hno)|(row & Hin & Hrow & Eij & Eji)].
    + rewrite Eij, Eji, !G2, !G1 by assumption.
      destruct (decide ((i = a /\ j = b) \/ (i = b /\ j = a))) as [Hyes|Hnot].
      * right. exists (r1, r2, fdr). split; [now left|].
        split; [now apply Haddr|]. unfold bin_of.
        split; repeat case_decide; try reflexivity; exfalso; intuition lia.
      * left. split; [|split].
        -- repeat case_decide; try reflexivity; exfalso; intuition lia.
        -- repeat case_decide; try reflexivity; exfalso; intuition lia.
        -- intros row [<-|Hin]; [now rewrite Haddr|now apply Hno].
    + right. exists row. split; [now right|]. auto.
Qed.

Lemma bin_xl_loop_cons T r1 r2 fdr rows (out : ndarray Q) :
  bin_xl_loop T ((r1, r2, fdr) :: rows) out
  = bind (setitem3 out (py_int r1) (py_int r2) 0 (bin_of T (r1, r2, fdr)))
      (fun out1 =>
         bind (setitem3 out1 (py_int r2) (py_int r1) 0 (bin_of T (r1, r2, fdr)))
           (fun out2 => bin_xl_loop T rows out2)).
Proof. reflexivity. Qed.

Lemma bin_xl_loop_returns T n rows :
  forall out : ndarray Q,
    shape out = [n; n; 1] -> length (data out) = n * n ->
    (forall r1 r2 fdr, In (r1, r2, fdr) rows ->
       in_range n r1 /\ in_range n r2) ->
    exists out', bin_xl_loop T rows out = inr out'.
Proof.
  induction rows as [|[[r1 r2] fdr] rows IH]; intros out Hs Hl Hr.
  - simpl. eauto.
  - rewrite bin_xl_loop_cons.
    destruct (Hr r1 r2 fdr (or_introl eq_refl)) as [H1 H2].
    destruct (setitem3_returns n out r1 r2 (bin_of T (r1, r2, fdr)) Hs H1 H2)
      as [out1 S1].
    rewrite S1. cbn [bind].
    destruct (setitem3_spec n _ _ _ _ _ Hs Hl S1)
      as (a & b & _ & _ & Hs1 & Hl1 & _).
    destruct (setitem3_returns n out1 r2 r1 (bin_of T (r1, r2, fdr)) Hs1 H2 H1)
      as [out2 S2].
    rewrite S2. cbn [bind].
    destruct (setitem3_spec n _ _ _ _ _ Hs1 Hl1 S2)
      as (? & ? & _ & _ & Hs2 & Hl2 & _).
    apply IH; auto. intros; eapply Hr; right; eassumption.
Qed.

Lemma take_rows_In xl perm rows :
  take_rows xl perm = inr rows -> forall row, In row rows -> In row xl.
Proof.
  unfold take_rows. revert rows.
  induction perm as [|i perm IH]; simpl; intros rows H row Hin.
  - injection H as <-. destruct Hin.
  - destruct (nth_error xl i) as [r|] eqn:E; simpl in H; [|discriminate].
    destruct (mapM _ perm) as [e|rs] eqn:E'; simpl in H; [discriminate|].
    injection H as <-. destruct Hin as [<-|Hin].
    + eapply nth_error_In, E.
    + eapply IH; eauto.
Qed.

Lemma take_rows_returns xl perm :
  Forall (fun i => i < length xl) perm ->
  exists rows, take_rows xl perm = inr rows.
Proof.
  unfold take_rows. induction 1 as [|i perm Hi _ [rows IH]]; simpl; eauto.
  destruct (nth_error xl i) as [r|] eqn:E.
  - simpl. rewrite IH. simpl. eauto.
  - apply nth_error_None in E. lia.
Qed.

Lemma take_rows_perm xl perm rows :
  Permutation perm (seq 0 (length xl)) ->
  take_rows xl perm = inr rows -> forall row, In row xl -> In row rows.
Proof.
  intros Hp H row Hin.
  apply In_nth_error in Hin as [i Hi].
  assert (Hip : In i perm).
  { eapply Permutation_in; [symmetry; exact Hp|].
    apply in_seq. split; [lia|]. simpl. apply nth_error_Some. congruence. }
  clear Hp. revert rows H. unfold take_rows.
  induction perm as [|k perm IH]; simpl; intros rows H; [destruct Hip|].
  destruct (nth_error xl k) as [r|] eqn:E; simpl in H; [|discriminate].
  destruct (mapM _ perm) as [e|rs] eqn:E'; simpl in H; [discriminate|].
  injection H as <-. destruct Hip as [->|Hip].
  - left. congruence.
  - right. now apply IH.
Qed.

Lemma repeat_lookup_lt {A} (x : A) n i : i < n -> repeat x n !! i = Some x.
Proof.
  revert i. induction n as [|n IH]; intros i Hi; [lia|].
  destruct i as [|i]; simpl; [reflexivity|]. apply IH. lia.
Qed.

Lemma np_zeros_getitem3 n i j :
  i < n -> j < n -> getitem3 (np_zeros [n; n; 1]) i j 0 = Some 0%Q.
Proof.
  intros Hi Hj. rewrite (getitem3_lookup n) by auto.
  unfold np_zeros, numel. cbn [data fold_right].
  apply repeat_lookup_lt. nia.
Qed.

Lemma np_zeros_length n : length (data (np_zeros [n; n; 1])) = n * n.
Proof. unfold np_zeros, numel. simpl. rewrite repeat_length. lia. Qed.

Lemma addresses_lt n row i j : addresses n row i j -> i < n /\ j < n.
Proof.
  destruct row as [[r1 r2] fdr]. unfold addresses.
  intros [[H1 H2]|[H1 H2]]; split; eapply norm_index_lt; eassumption.
Qed.

(** [bucketize] is monotone across two threshold lists: when every
    threshold of the first list that bounds [v] has its partner in the second
    list bound [w], the index of [w] is at most that of [v]. *)
Lemma bucketize_across (v w : Q) (bs cs : list Q) :
  Forall2 (fun b c => (v <= b)%Q -> (w <= c)%Q) bs cs ->
  bucketize w cs <= bucketize v bs.
Proof.
  induction 1 as [|b c bs cs Hbc _ IH]; simpl; [lia|].
  destruct (Qle_bool v b) eqn:Ev.
  - apply Qle_bool_iff in Ev.
    rewrite (proj2 (Qle_bool_iff w c) (Hbc Ev)). lia.
  - destruct (Qle_bool w c); lia.
Qed.

Lemma decimal_bins_values :
  length decimal_bins = 21
  /\ forall k, k < 21 ->
       exists b, decimal_bins !! k = Some b /\ (b == Z.of_nat k # 20)%Q.
Proof.
  split; [reflexivity|]. intros k Hk.
  do 21 (destruct k as [|k]; [eexists; split; [reflexivity|reflexivity]|]).
  lia.
Qed.

(** C5. Whatever float arithmetic torch uses, and whatever permutation of
    the entries [bin_xl] drew: when it returns, the dense array has shape
    (num_res, num_res, 1), is symmetric in its first two indices, and every
    cell holds 0 or the bin [bucketize(1 - fdr, bins)] of an entry that
    addresses it, with [1 - fdr] and [bins = arange(0, 1.05, 0.05)] as torch
    computes them; a cell addressed by some entry always holds such a bin.
    [bin_xl] does return when the residue indices are valid for the array.
    The decimal thresholds 0.0, 0.05, ..., 1.0 are 21 numbers, and when
    torch's thresholds and its [1 - fdr] are within [delta] of the decimal
    ones, the bin written lies between the decimal bins of
    [1 - fdr - 2 delta] and [1 - fdr + 2 delta]: it is the decimal bin unless
    [1 - fdr] is that close to a threshold. *)
Theorem bin_xl_spec :
  forall T : TorchFloat,
    (forall perm xl num_res output,
       bin_xl T perm xl num_res = inr output ->
       let n := Z.to_nat num_res in
       shape output = [n; n; 1]
       /\ (forall i j, i < n -> j < n ->
             getitem3 output i j 0 = getitem3 output j i 0)
       /\ (forall i j, i < n -> j < n ->
             getitem3 output i j 0 = Some 0%Q
             \/ exists row, In row xl /\ addresses n row i j
                  /\ getitem3 output i j 0 = Some (bin_of T row))
       /\ (Permutation perm (seq 0 (length xl)) ->
           forall row i j, In row xl -> addresses n row i j ->
             exists row', In row' xl /\ addresses n row' i j
               /\ getitem3 output i j 0 = Some (bin_of T row')))
    /\ (forall perm xl num_res,
          Permutation perm (seq 0 (length xl)) -> (0 <= num_res)%Z ->
          (forall r1 r2 fdr, In (r1, r2, fdr) xl ->
             in_range (Z.to_nat num_res) r1
             /\ in_range (Z.to_nat num_res) r2) ->
          exists output, bin_xl T perm xl num_res = inr output)
    /\ (length decimal_bins = 21
        /\ forall k, k < 21 ->
             exists b, decimal_bins !! k = Some b
                       /\ (b == Z.of_nat k # 20)%Q)
    /\ (forall (delta : Q) (r1 r2 fdr : Q),
          Forall2 (close delta) (bins T) decimal_bins ->
          close delta (torch_rsub T 1 fdr) (1 - fdr)%Q ->
          exists k,
            bin_of T (r1, r2, fdr) = inject_Z (Z.of_nat k)
            /\ bucketize (1 - fdr - 2 * delta) decimal_bins <= k
            /\ k <= bucketize (1 - fdr + 2 * delta) decimal_bins).
Proof.
  intros T. split; [|split; [|split]].
  - intros perm xl num_res output H n. unfold bin_xl in H.
    destruct (take_rows xl perm) as [e|rows] eqn:Erows; simpl in H;
      [discriminate|].
    destruct (Z.ltb_spec num_res 0); [discriminate|]. fold n in H.
    destruct (bin_xl_loop_spec T n rows (np_zeros [n; n; 1]) output eq_refl
                (np_zeros_length n) H) as (Hs & Hl & G).
    split; [exact Hs|]. split; [|split].
    + intros i j Hi Hj.
      destruct (G i j Hi Hj) as [(Eij & Eji & _)|(row & _ & _ & Eij & Eji)].
      * rewrite Eij, Eji, !np_zeros_getitem3 by assumption. reflexivity.
      * now rewrite Eij, Eji.
    + intros i j Hi Hj.
      destruct (G i j Hi Hj) as [(Eij & _ & _)|(row & Hin & Ha & Eij & _)].
      * left. now rewrite Eij, np_zeros_getitem3.
      * right. exists row. split; [eapply take_rows_In; eauto|]. auto.
    + intros Hperm row i j Hin Ha.
      destruct (addresses_lt _ _ _ _ Ha) as [Hi Hj].
      destruct (G i j Hi Hj) as [(_ & _ & Hno)|(row' & Hin' & Ha' & Eij & _)].
      * exfalso. apply (Hno row); [|exact Ha].
        eapply take_rows_perm; eauto.
      * exists row'. split; [eapply take_rows_In; eauto|]. auto.
  - intros perm xl num_res Hperm Hn Hr. unfold bin_xl.
    destruct (take_rows_returns xl perm) as [rows Erows].
    { apply List.Forall_forall. intros i Hi.
      eapply Permutation_in in Hi; [|exact Hperm]. apply in_seq in Hi.
      exact (proj2 Hi). }
    rewrite Erows. cbn [bind].
    destruct (Z.ltb_spec num_res 0); [lia|].
    apply (bin_xl_loop_returns T (Z.to_nat num_res));
      [reflexivity|apply np_zeros_length|].
    intros r1 r2 fdr Hin. apply (Hr r1 r2 fdr). eapply take_rows_In; eauto.
  - exact decimal_bins_values.
  - intros delta r1 r2 fdr Hb [Hlo Hhi].
    exists (bucketize (torch_rsub T 1 fdr) (bins T)).
    split; [reflexivity|]. split.
    + apply bucketize_across.
      eapply Forall2_impl; [exact Hb|].
      intros b d [Hd1 Hd2] Hv. lra.
    + apply bucketize_across. apply Forall2_flip.
      eapply Forall2_impl; [exact Hb|].
      intros b d [Hd1 Hd2] Hv. lra.
Qed.

Lemma bin_xl_spec_witness :
  exists output,
    bin_xl Toy.torch32 [1; 0]
      [(0, 1, 7549747 # 8388608); (1, 0, 1 # 2)]%Q 2 = inr output
    /\ getitem3 output 0 1 0 = getitem3 output 1 0 0
    /\ getitem3 output 0 1 0 = Some (inject_Z 3)
    /\ bucketize (1 - (7549747 # 8388608) - 2 * (1 # 10000000)) decimal_bins
       <= 3
       <= bucketize (1 - (7549747 # 8388608) + 2 * (1 # 10000000))
            decimal_bins.
Proof.
  destruct (proj1 (proj2 (bin_xl_spec Toy.torch32)) [1; 0]
              [(0, 1, 7549747 # 8388608); (1, 0, 1 # 2)]%Q 2%Z)
    as [output H].
  - apply perm_swap.
  - lia.
  - intros r1 r2 fdr [[= <- <- <-]|[[= <- <- <-]|[]]];
      split; vm_compute; (split; [discriminate|reflexivity]).
  - exists output. split; [exact H|].
    destruct (proj1 (bin_xl_spec Toy.torch32) _ _ _ _ H)
      as (_ & Hsym & _ & _).
    split; [apply Hsym; simpl; lia|].
    split; [vm_compute in H; injection H as <-; reflexivity|].
    destruct (proj2 (proj2 (proj2 (bin_xl_spec Toy.torch32)))
                (1 # 10000000) 0%Q 1%Q (7549747 # 8388608))
      as (k & Hk & Hlo & Hhi).
    + set (l := bins Toy.torch32). vm_compute in l. subst l.
      set (d := decimal_bins). vm_compute in d. subst d.
      repeat (constructor; [split; vm_compute; discriminate|]).
      constructor.
    + split; vm_compute; discriminate.
    + assert (E : k = 3).
      { assert (E3 : bin_of Toy.torch32 (0, 1, 7549747 # 8388608)%Q
                     = inject_Z 3) by (vm_compute; reflexivity).
        rewrite E3 in Hk. unfold inject_Z in Hk. injection Hk as Hk. lia. }
      subst k. split; assumption.
Defined.

End BinXl.

(** ** The chain-count filter of the multimer dataset *)

Section FilterPdb.
Import UnifoldMultimerDataset.

Lemma existsb_keys {V} (d : dict V) k :
  existsb (String.eqb k) (PyDict.keys d) = PyDict.mem d k.
Proof.
  unfold PyDict.mem, PyDict.keys. induction d as [|[k' v] d IH]; simpl.
  - reflexivity.
  - rewrite String.eqb_sym. destruct (String.eqb k' k); simpl; auto.
Qed.

Lemma list_overlaps_forallb (a b : list string) :
  list_overlaps a b = forallb (fun i => existsb (String.eqb i) b) a.
Proof.
  induction a as [|i a IH]; simpl; [reflexivity|].
  destruct (existsb (String.eqb i) b); simpl; auto.
Qed.

Lemma list_overlaps_labels chain ids (inverse_labels : dict string) :
  list_overlaps (map (fun c => (chain ++ "_" ++ c)%string) ids)
    (PyDict.keys inverse_labels)
  = forallb (fun c => PyDict.mem inverse_labels (chain ++ "_" ++ c)%string) ids.
Proof.
  rewrite list_overlaps_forallb.
  induction ids as [|c ids IH]; cbn [map forallb]; [reflexivity|].
  now rewrite existsb_keys, IH.
Qed.

(** The loop never raises on keys of [pdb_chains], and afterwards a
    structure of the work list is recorded exactly when it survives. *)
Lemma filter_loop_spec pdb_chains pdb_assembly max_chains inverse_labels todo :
  forall new_pdb_chains,
    (forall k, In k todo -> PyDict.mem pdb_chains k = true) ->
    exists new',
      filter_loop todo pdb_chains pdb_assembly max_chains inverse_labels
        new_pdb_chains = inr new'
      /\ forall pdb,
           PyDict.get new' pdb
           = if (existsb (String.eqb pdb) todo
                 && survives pdb_chains pdb_assembly max_chains
                      inverse_labels pdb)%bool
             then PyDict.get pdb_chains pdb
             else PyDict.get new_pdb_chains pdb.
Proof.
  induction todo as [|chain rest IH]; intros new Hkeys.
  - exists new. split; [reflexivity|]. intros pdb. reflexivity.
  - assert (Hc : PyDict.mem pdb_chains chain = true)
      by (apply Hkeys; now left).
    apply PyDictFacts.mem_get in Hc as [v Hv].
    assert (Hstep : exists new1,
      (if PyDict.mem pdb_assembly chain then
         let* a := getitem pdb_assembly chain in
         let size := length (chains a) in
         if (Z.of_nat size <=? max_chains)%Z then
           let curr_chains :=
             map (fun chain_id => (chain ++ "_" ++ chain_id)%string) (chains a) in
           if list_overlaps curr_chains (PyDict.keys inverse_labels) then
             let* v := getitem pdb_chains chain in
             let new_pdb_chains := PyDict.set new chain v in
             let* v := getitem pdb_chains chain in
             ret (PyDict.set new_pdb_chains chain v)
           else ret new
         else ret new
       else
         let* v := getitem pdb_chains chain in
         let size := length v in
         if (size =? 1)%nat then
           let* v := getitem pdb_chains chain in
           ret (PyDict.set new chain v)
         else ret new) = inr new1
      /\ forall pdb,
           PyDict.get new1 pdb
           = if (String.eqb pdb chain
                 && survives pdb_chains pdb_assembly max_chains
                      inverse_labels pdb)%bool
             then PyDict.get pdb_chains pdb else PyDict.get new pdb).
    { unfold survives.
      destruct (PyDict.get pdb_assembly chain) as [a|] eqn:Ea.
      - assert (Hm : PyDict.mem pdb_assembly chain = true)
          by (unfold PyDict.mem; now rewrite Ea).
        rewrite Hm. unfold getitem. rewrite Ea, Hv. cbn [bind ret].
        rewrite list_overlaps_labels.
        destruct (Z.of_nat (length (chains a)) <=? max_chains)%Z eqn:Esz;
          [destruct (forallb _ (chains a)) eqn:Eall|].
        + eexists. split; [reflexivity|].
          intros pdb. rewrite !PyDictFacts.get_set, String.eqb_sym.
          destruct (String.eqb_spec pdb chain) as [->|Hne]; cbn [andb]; [|reflexivity].
          now rewrite Ea, Esz, Eall, Hv.
        + exists new. split; [reflexivity|]. intros pdb.
          destruct (String.eqb_spec pdb chain) as [->|Hne]; cbn [andb]; [|reflexivity].
          now rewrite Ea, Esz, Eall.
        + exists new. split; [reflexivity|]. intros pdb.
          destruct (String.eqb_spec pdb chain) as [->|Hne]; cbn [andb]; [|reflexivity].
          now rewrite Ea, Esz.
      - assert (Hm : PyDict.mem pdb_assembly chain = false)
          by (unfold PyDict.mem; now rewrite Ea).
        rewrite Hm. unfold getitem. rewrite Hv. cbn [bind ret].
        destruct (length v =? 1)%nat eqn:E1.
        + eexists. split; [reflexivity|].
          intros pdb. rewrite !PyDictFacts.get_set, String.eqb_sym.
          destruct (String.eqb_spec pdb chain) as [->|Hne]; cbn [andb]; [|reflexivity].
          now rewrite Ea, Hv, E1.
        + exists new. split; [reflexivity|]. intros pdb.
          destruct (String.eqb_spec pdb chain) as [->|Hne]; cbn [andb]; [|reflexivity].
          now rewrite Ea, Hv, E1. }
    destruct Hstep as (new1 & Hrun & Hget).
    destruct (IH new1) as (new' & Hrun' & Hget').
    { intros k Hk. apply Hkeys. now right. }
    exists new'. split.
    + match type of Hrun with
      | ?step = _ =>
          change (filter_loop (chain :: rest) pdb_chains pdb_assembly
                    max_chains inverse_labels new)
            with (bind step
                    (fun n => filter_loop rest pdb_chains pdb_assembly
                                max_chains inverse_labels n))
      end.
      rewrite Hrun. exact Hrun'.
    + intros pdb. rewrite Hget', Hget. cbn [existsb].
      destruct (existsb (String.eqb pdb) rest), (String.eqb pdb chain),
        (survives pdb_chains pdb_assembly max_chains inverse_labels pdb);
        reflexivity.
Qed.

Lemma existsb_eqb_In k (l : list string) :
  existsb (String.eqb k) l = true <-> In k l.
Proof.
  rewrite existsb_exists. split.
  - intros (x & Hx & E). apply String.eqb_eq in E. now subst.
  - intros H. exists k. split; [exact H|apply String.eqb_refl].
Qed.

(** C7. [filter_pdb_by_max_chains] always returns.  A structure of
    [pdb_chains] that the assembly map lists is kept if and only if its
    assembly has at most [max_chains] chains and every [pdbid_chainid] of the
    assembly is a key of the inverse label map; a structure the assembly map
    does not list is kept if and only if it has exactly one chain.  Kept
    structures keep their chain list, nothing else is added, and the new
    sample-weight table holds exactly the chains of the old one whose
    structure is kept, with their weights. *)
Theorem filter_pdb_by_max_chains_spec :
  forall (pdb_chains : dict (list string)) (pdb_assembly : dict Assembly)
         (sample_weight : dict Q) (max_chains : Z)
         (inverse_labels : dict string),
  exists new_pdb_chains new_sample_weight,
    filter_pdb_by_max_chains pdb_chains pdb_assembly sample_weight max_chains
      inverse_labels = inr (new_pdb_chains, new_sample_weight)
    /\ (forall pdb a,
          PyDict.mem pdb_chains pdb = true ->
          PyDict.get pdb_assembly pdb = Some a ->
          (PyDict.mem new_pdb_chains pdb = true
           <-> (Z.of_nat (length (chains a)) <= max_chains)%Z
               /\ forall c, In c (chains a) ->
                    PyDict.mem inverse_labels (pdb ++ "_" ++ c)%string = true))
    /\ (forall pdb,
          PyDict.mem pdb_chains pdb = true ->
          PyDict.get pdb_assembly pdb = None ->
          (PyDict.mem new_pdb_chains pdb = true
           <-> exists l, PyDict.get pdb_chains pdb = Some l /\ length l = 1))
    /\ (forall pdb,
          PyDict.mem new_pdb_chains pdb = true ->
          PyDict.mem pdb_chains pdb = true
          /\ PyDict.get new_pdb_chains pdb = PyDict.get pdb_chains pdb)
    /\ (forall k,
          PyDict.get new_sample_weight k
          = if PyDict.mem new_pdb_chains (get_pdb_name k)
            then PyDict.get sample_weight k else None).
Proof.
  intros pdb_chains pdb_assembly sample_weight max_chains inverse_labels.
  destruct (filter_loop_spec pdb_chains pdb_assembly max_chains inverse_labels
              (PyDict.keys pdb_chains) PyDict.empty) as (new & Hrun & Hget).
  { intros k Hk. now apply PyDictFacts.mem_keys. }
  exists new, (PyDict.filter_keys
                 (fun k => PyDict.mem new (get_pdb_name k)) sample_weight).
  split; [unfold filter_pdb_by_max_chains; now rewrite Hrun|].
  assert (Hmem : forall pdb, PyDict.mem pdb_chains pdb = true ->
            PyDict.mem new pdb
            = survives pdb_chains pdb_assembly max_chains inverse_labels pdb).
  { intros pdb Hin. unfold PyDict.mem at 1. rewrite Hget.
    rewrite (proj2 (existsb_eqb_In pdb _)) by now apply PyDictFacts.mem_keys.
    simpl. apply PyDictFacts.mem_get in Hin as [v Hv].
    destruct (survives _ _ _ _ pdb); [now rewrite Hv|reflexivity]. }
  split; [|split; [|split]].
  - intros pdb a Hin Ha. rewrite (Hmem pdb Hin). unfold survives. rewrite Ha.
    rewrite andb_true_iff, forallb_forall, Z.leb_le. reflexivity.
  - intros pdb Hin Ha. rewrite (Hmem pdb Hin). unfold survives. rewrite Ha.
    destruct (PyDict.get pdb_chains pdb) as [l|].
    + rewrite Nat.eqb_eq. split; [eauto|]. now intros (l' & [= <-] & H).
    + split; [discriminate|]. now intros (l' & [=] & _).
  - intros pdb Hin. unfold PyDict.mem in Hin. rewrite Hget in Hin.
    rewrite Hget.
    destruct (existsb (String.eqb pdb) (PyDict.keys pdb_chains)) eqn:E;
      simpl in *; [|discriminate].
    destruct (survives _ _ _ _ pdb); [|discriminate].
    split; [|reflexivity].
    apply PyDictFacts.mem_keys. now apply existsb_eqb_In.
  - intros k.
    exact (PyDictFacts.get_filter_keys
             (fun k => PyDict.mem new (get_pdb_name k)) sample_weight k).
Qed.

Lemma filter_pdb_by_max_chains_spec_witness :
  exists new_pdb_chains new_sample_weight,
    filter_pdb_by_max_chains
      [("1abc", ["1abc_A"; "1abc_B"]); ("2xyz", ["2xyz_A"]);
       ("3big", ["3big_A"; "3big_B"; "3big_C"]); ("4two", ["4two_A"; "4two_B"])]
      [("1abc", mk_assembly ["A"; "B"] [OpStr "I"; OpStr "I"]);
       ("3big", mk_assembly ["A"; "B"; "C"] [])]
      [("1abc_A", 1%Q); ("2xyz_A", 2%Q); ("3big_A", 3%Q); ("4two_B", 4%Q)]
      2
      [("1abc_A", "s1"); ("1abc_B", "s2"); ("2xyz_A", "s3"); ("3big_A", "s4");
       ("3big_B", "s4"); ("3big_C", "s4"); ("4two_A", "s5"); ("4two_B", "s5")]
    = inr (new_pdb_chains, new_sample_weight)
    /\ PyDict.mem new_pdb_chains "1abc" = true
    /\ PyDict.mem new_pdb_chains "2xyz" = true
    /\ PyDict.keys new_sample_weight = ["1abc_A"; "2xyz_A"].
Proof.
  destruct (filter_pdb_by_max_chains_spec
      [("1abc", ["1abc_A"; "1abc_B"]); ("2xyz", ["2xyz_A"]);
       ("3big", ["3big_A"; "3big_B"; "3big_C"]); ("4two", ["4two_A"; "4two_B"])]
      [("1abc", mk_assembly ["A"; "B"] [OpStr "I"; OpStr "I"]);
       ("3big", mk_assembly ["A"; "B"; "C"] [])]
      [("1abc_A", 1%Q); ("2xyz_A", 2%Q); ("3big_A", 3%Q); ("4two_B", 4%Q)]
      2%Z
      [("1abc_A", "s1"); ("1abc_B", "s2"); ("2xyz_A", "s3"); ("3big_A", "s4");
       ("3big_B", "s4"); ("3big_C", "s4"); ("4two_A", "s5"); ("4two_B", "s5")])
    as (new & sw & Hrun & Hin & Hout & _ & _).
  exists new, sw. split; [exact Hrun|]. split; [|split].
  - apply (Hin "1abc" (mk_assembly ["A"; "B"] [OpStr "I"; OpStr "I"]));
      [reflexivity|reflexivity|].
    split; [simpl; lia|].
    intros c [<-|[<-|[]]]; reflexivity.
  - apply (Hout "2xyz"); [reflexivity|reflexivity|].
    exists ["2xyz_A"]. split; reflexivity.
  - vm_compute in Hrun. injection Hrun as <- <-. reflexivity.
Defined.

End FilterPdb.

(** ** Inversion of the monadic binds *)

Lemma bind_inr {A B} (c : result A) (k : A -> result B) b :
  bind c k = inr b -> exists a, c = inr a /\ k a = inr b.
Proof. destruct c as [e|a]; simpl; [discriminate|eauto]. Qed.

Lemma st_bind_inr {S A B} (c : M S A) (k : A -> M S B) s b s' :
  st_bind c k s = (inr b, s') ->
  exists a s1, c s = (inr a, s1) /\ k a s1 = (inr b, s').
Proof.
  unfold st_bind. destruct (c s) as [[e|a] s1]; [discriminate|eauto].
Qed.

Lemma st_lift_inr {S A} (r : result A) (s s' : S) a :
  st_lift r s = (inr a, s') -> r = inr a /\ s' = s.
Proof. unfold st_lift. intros [= -> ->]. auto. Qed.

(** ** Collation of multimer batches *)

Section Collater.
Import UnifoldMultimerDataset.

(** C9. The multimer collater returns the null batch [None] on an empty
    list of samples; on a non-empty list it returns the stacked features, with
    [None] as the label half when no sample carries labels (and the list of
    the labels present otherwise); when stacking the features fails, it
    raises [ValueError("cannot collate features", feats)] where [feats] is
    the list of the per-example feature records. *)
Theorem multimer_collater_spec :
  forall (N : NumpyRandom) (E : Externals N),
    collater E [] = inr None
    /\ (forall samples stacked,
          samples <> [] ->
          collate_dict E (map fst samples) 1 = inr stacked ->
          (forall s, In s samples -> snd s = None) ->
          collater E samples = inr (Some (stacked, None)))
    /\ (forall samples stacked,
          samples <> [] ->
          collate_dict E (map fst samples) 1 = inr stacked ->
          (exists s, In s samples /\ snd s <> None) ->
          collater E samples = inr (Some (stacked, Some (omap snd samples))))
    /\ (forall samples e,
          samples <> [] ->
          collate_dict E (map fst samples) 1 = inl e ->
          collater E samples
          = inl (ValueError "cannot collate features" (map fst samples))).
Proof.
  intros N E. split; [reflexivity|].
  assert (Hne : forall samples : list TorchExample,
            samples <> [] -> (length samples <=? 0)%nat = false).
  { intros [|s samples] H; [congruence|reflexivity]. }
  split; [|split].
  - intros samples stacked Hs Hc Hnone. unfold collater.
    rewrite (Hne _ Hs), Hc. cbn [bind ret].
    replace (omap snd samples) with (@nil (list TorchDict)); [reflexivity|].
    clear Hs Hc. induction samples as [|[f l] samples IH]; [reflexivity|].
    pose proof (Hnone (f, l) (or_introl eq_refl)) as Hl. simpl in Hl. subst l.
    simpl. apply IH. intros s Hin. apply Hnone. now right.
  - intros samples stacked Hs Hc (s & Hin & Hsome). unfold collater.
    rewrite (Hne _ Hs), Hc. cbn [bind ret].
    destruct (omap snd samples) as [|l ls] eqn:E'; [|reflexivity].
    exfalso. clear Hs Hc. induction samples as [|[f l] samples IH];
      [destruct Hin|].
    simpl in E'. destruct l as [l|]; [discriminate|].
    destruct Hin as [<-|Hin]; [now apply Hsome|]. now apply IH.
  - intros samples e Hs Hc. unfold collater.
    rewrite (Hne _ Hs), Hc. reflexivity.
Qed.

Lemma multimer_collater_spec_witness :
  collater Toy.externals
    [([("aatype", VInt 1)], None); ([("aatype", VInt 2)], None)]
  = inr (Some ([("aatype", VInt 1)], None))
  /\ collater Toy.externals
       [([("aatype", VInt 1)], None); ([("msa", VInt 2)], Some [])]
     = inl (ValueError "cannot collate features"
              [[("aatype", VInt 1)]; [("msa", VInt 2)]]).
Proof.
  split.
  - apply (proj1 (proj2 (multimer_collater_spec Toy.random Toy.externals)));
      [discriminate|reflexivity|].
    intros s [<-|[<-|[]]]; reflexivity.
  - apply (proj2 (proj2 (proj2
             (multimer_collater_spec Toy.random Toy.externals))))
      with (e := ExternalError "cannot stack tensors of different shape");
      [discriminate|reflexivity].
Defined.

End Collater.

(** ** Self-distillation is switched off *)

Section SelfDistillation.
Import UnifoldDataset.

Lemma st_bind_ret {S A B} (a : A) (k : A -> M S B) (s : S) :
  st_bind (st_ret a) k s = k a s.
Proof. reflexivity. Qed.

Tactic Notation "bind_peel" hyp(H) "as" ident(a) ident(Ha) :=
  apply bind_inr in H as (a & Ha & H).

Lemma init_sd_sample_weight F fs world_size args seed config_data data_path
    mode max_step disable_sd json_prefix ds :
  __init__ F fs world_size args seed config_data data_path mode max_step
    disable_sd json_prefix = inr ds ->
  sd_sample_weight ds = None.
Proof.
  intros H. unfold __init__ in H.
  bind_peel H as sw Hsw. bind_peel H as ml Hml. bind_peel H as inv Hinv.
  bind_peel H as cw Hcw.
  cbn [negb] in H. rewrite andb_false_r in H. cbn [bind ret] in H.
  bind_peel H as uf Huf. bind_peel H as sq Hsq. destruct sq as [[? ?] ?].
  bind_peel H as ch Hch. destruct ch as [[? ?] ?].
  injection H as <-. reflexivity.
Qed.

(** C10. Whatever arguments the constructor receives ([disable_sd] is
    overwritten before use, so its value is ignored), a constructed dataset
    has no self-distillation table, and [sample_chain] then returns
    [is_distillation = False] for every index, both sampling flags, every
    mode and every state of the random generator. The subclass constructor
    inherits this. *)
Theorem self_distillation_unreachable :
  (forall F fs world_size args seed config_data data_path mode max_step
          json_prefix,
     __init__ F fs world_size args seed config_data data_path mode max_step
       false json_prefix
     = __init__ F fs world_size args seed config_data data_path mode max_step
         true json_prefix)
  /\ (forall F fs world_size args seed config_data data_path mode max_step
             disable_sd json_prefix ds,
        __init__ F fs world_size args seed config_data data_path mode max_step
          disable_sd json_prefix = inr ds ->
        sd_sample_weight ds = None
        /\ forall (N : NumpyRandom) idx sample_by_seq g seq_name label_name
                  is_distillation g',
             sample_chain N ds idx sample_by_seq g
             = (inr (seq_name, label_name, is_distillation), g') ->
             is_distillation = false)
  /\ (forall F fs world_size args seed config_data data_path mode max_step
             disable_sd json_prefix mds,
        UnifoldMultimerDataset.__init__ F fs world_size args seed config_data
          data_path mode max_step disable_sd json_prefix = inr mds ->
        sd_sample_weight (UnifoldMultimerDataset.base mds) = None).
Proof.
  split; [reflexivity|]. split.
  - intros F fs world_size args seed0 config_data data_path mode0 max_step
      disable_sd json_prefix ds Hinit.
    pose proof (init_sd_sample_weight _ _ _ _ _ _ _ _ _ _ _ _ Hinit) as Hsd.
    split; [exact Hsd|].
    intros N idx sample_by_seq g seq_name label_name is_distillation g' H.
    unfold sample_chain in H. rewrite Hsd in H.
    destruct (String.eqb (mode ds) "train").
    + unfold numpy_seed in H.
      match type of H with
      | (let '(_, _) := ?body ?g0 in _) = _ =>
          destruct (body g0) as [r gg] eqn:E
      end.
      injection H as -> _.
      rewrite st_bind_ret in E. cbn [negb] in E.
      destruct sample_by_seq; cbn [negb] in E.
      * do 4 (apply st_bind_inr in E as (? & ? & _ & E)).
        now injection E.
      * do 3 (apply st_bind_inr in E as (? & ? & _ & E)).
        now injection E.
    + do 2 (apply st_bind_inr in H as (? & ? & _ & H)).
      now injection H.
  - intros F fs world_size args seed0 config_data data_path mode0 max_step
      disable_sd json_prefix mds H.
    unfold UnifoldMultimerDataset.__init__ in H.
    bind_peel H as b Hb.
    pose proof (init_sd_sample_weight _ _ _ _ _ _ _ _ _ _ _ _ Hb) as Hsd.
    bind_peel H as pa Hpa. bind_peel H as pc Hpc.
    destruct (String.eqb (mode b) "train").
    + bind_peel H as fl Hfl. destruct fl as [? ?]. bind_peel H as cw Hcw.
      destruct cw as [[? ?] ?]. injection H as <-. exact Hsd.
    + injection H as <-. exact Hsd.
Qed.

Lemma self_distillation_unreachable_witness :
  ToyData.files.(isfile) "data/sd_train_sample_weight.json" = true
  /\ exists ds,
       __init__ Toy.pyfloat ToyData.files 1 ToyData.args 7 Toy.config "data" "train"
         None false "" = inr ds
       /\ sd_sample_weight ds = None
       /\ fst (sample_chain Toy.random ds 5 true 42%Z)
          = inr ("seqB", "2xyz_A", false).
Proof.
  split; [reflexivity|].
  destruct (__init__ Toy.pyfloat ToyData.files 1 ToyData.args 7 Toy.config "data" "train"
              None false "") as [e|ds] eqn:E; [vm_compute in E; discriminate|].
  exists ds. split; [reflexivity|].
  destruct (proj1 (proj2 self_distillation_unreachable) _ _ _ _ _ _ _ _ _ _ _ _
              E)
    as [Hsd Hflag].
  split; [exact Hsd|].
  vm_compute in E. injection E as <-. vm_compute. reflexivity.
Defined.

End SelfDistillation.

(** ** Reproducible recycling draws *)

Section Recycling.

Lemma get_remove_ne {V} (d : dict V) k k' :
  k <> k' -> PyDict.get (PyDict.remove d k) k' = PyDict.get d k'.
Proof.
  intros Hne. induction d as [|[k0 v0] d IH]; simpl; [reflexivity|].
  destruct (String.eqb_spec k0 k) as [->|Hk]; simpl.
  - destruct (String.eqb_spec k k'); [contradiction|reflexivity].
  - now rewrite IH.
Qed.

Lemma annotate_get features n c d k :
  k <> "msa_chains" ->
  PyDict.get (annotate features n c d) k
  = PyDict.get
      (PyDict.set
         (PyDict.set
            (PyDict.set features "num_recycling_iters" (VInt n))
            "use_clamped_fape" (VInt (Z.b2z c)))
         "is_distillation" (VInt (Z.b2z d))) k.
Proof.
  intros Hk. unfold annotate.
  destruct (d && _)%bool; [|reflexivity].
  apply get_remove_ne. congruence.
Qed.

Lemma annotate_num_recycling_iters features n c d :
  PyDict.get (annotate features n c d) "num_recycling_iters" = Some (VInt n).
Proof.
  rewrite annotate_get; [|discriminate].
  rewrite !PyDictFacts.get_set. reflexivity.
Qed.

Lemma annotate_use_clamped_fape features n c d :
  PyDict.get (annotate features n c d) "use_clamped_fape"
  = Some (VInt (Z.b2z c)).
Proof.
  rewrite annotate_get; [|discriminate].
  rewrite !PyDictFacts.get_set. reflexivity.
Qed.

(** The scoped seed hides the global generator from its body and puts the
    saved state back. *)
Lemma numpy_seed_scoped N {A} seed addl key (body : M (rng_state N) A) g :
  numpy_seed N seed addl key body g
  = (fst (body (np_random_seed N (seed_hash N seed addl key))), g).
Proof. unfold numpy_seed. now destruct (body _). Qed.

Lemma st_bind_ret_lift {S A B} (a : A) (k : A -> M S B) (s : S) :
  st_bind (st_lift (ret a)) k s = k a s.
Proof. reflexivity. Qed.

Lemma restores_ret {S A} (a : A) : restores (@st_ret S A a).
Proof. intros s. reflexivity. Qed.

Lemma restores_lift {S A} (r : result A) : restores (@st_lift S A r).
Proof. intros s. reflexivity. Qed.

Lemma restores_bind {S A B} (c : M S A) (k : A -> M S B) :
  restores c -> (forall a, restores (k a)) -> restores (st_bind c k).
Proof.
  intros Hc Hk s. unfold st_bind. specialize (Hc s).
  destruct (c s) as [[e|a] s1]; simpl in *; subst; [reflexivity|apply Hk].
Qed.

Lemma restores_numpy_seed N {A} seed addl key (body : M (rng_state N) A) :
  restores (numpy_seed N seed addl key body).
Proof. intros g. now rewrite numpy_seed_scoped. Qed.

Lemma recycling_draw_scoped N config mode seed batch_idx g :
  recycling_draw N config mode seed batch_idx g
  = (fst (recycling_draw N config mode seed batch_idx
            (np_random_seed N 0)), g).
Proof.
  unfold recycling_draw. destruct (String.eqb mode "train"); [|reflexivity].
  destruct batch_idx as [b|]; [|reflexivity].
  cbn [is_not_None py_assert]. rewrite !st_bind_ret_lift.
  now rewrite !numpy_seed_scoped.
Qed.

Lemma process_annotate_scoped N config mode features seed batch_idx d g :
  process_annotate N config mode features seed batch_idx d g
  = (match fst (recycling_draw N config mode seed batch_idx
                  (np_random_seed N 0)) with
     | inl e => inl e
     | inr (n, c) => inr (annotate features n c d)
     end, g).
Proof.
  unfold process_annotate, st_bind. rewrite recycling_draw_scoped.
  destruct (fst _) as [e|[n c]]; reflexivity.
Qed.

(** C1. In train mode two calls of [process] with the same seed and batch
    index (whatever the features, the distillation flag and the state of the
    global random generator at either call, hence whatever was drawn before
    or in between) either both fail with the same exception or both write
    the same [num_recycling_iters] and the same [use_clamped_fape] into the
    features; each call leaves the global generator in the state it found,
    also when it fails, and so does the whole of [process]. *)
Theorem process_recycling_reproducible :
  forall (N : NumpyRandom) (config : Config) (seed : Z)
         (batch_idx : option Z) (features1 features2 : NumpyDict)
         (d1 d2 : bool) (g1 g2 : rng_state N),
    let r1 := process_annotate N config "train" features1 seed batch_idx d1 g1 in
    let r2 := process_annotate N config "train" features2 seed batch_idx d2 g2 in
    snd r1 = g1 /\ snd r2 = g2
    /\ match fst r1, fst r2 with
       | inr f1, inr f2 =>
           exists n c,
             PyDict.get f1 "num_recycling_iters" = Some (VInt n)
             /\ PyDict.get f2 "num_recycling_iters" = Some (VInt n)
             /\ PyDict.get f1 "use_clamped_fape" = Some (VInt (Z.b2z c))
             /\ PyDict.get f2 "use_clamped_fape" = Some (VInt (Z.b2z c))
       | inl e1, inl e2 => e1 = e2
       | _, _ => False
       end
    /\ forall (E : Externals N) mode features labels data_idx d g,
         snd (process E config mode features labels seed batch_idx data_idx
                d g) = g.
Proof.
  intros N config seed batch_idx features1 features2 d1 d2 g1 g2 r1 r2.
  subst r1 r2. rewrite !process_annotate_scoped. cbn [fst snd].
  split; [reflexivity|]. split; [reflexivity|]. split.
  - destruct (fst _) as [e|[n c]]; [reflexivity|].
    exists n, c.
    rewrite !annotate_num_recycling_iters, !annotate_use_clamped_fape. auto.
  - intros E mode features labels data_idx d g.
    assert (Ha : forall f, restores
              (process_annotate N config mode f seed batch_idx d)).
    { intros f s. now rewrite process_annotate_scoped. }
    revert g. change (restores (process E config mode features labels seed
                                  batch_idx data_idx d)).
    unfold process.
    apply restores_bind; [apply Ha|intros f1].
    apply restores_bind; [apply restores_lift|intros sl].
    apply restores_bind; [apply restores_lift|intros nr].
    apply restores_bind; [apply restores_lift|intros [cfg names]].
    apply restores_bind; [apply restores_lift|intros f2].
    apply restores_bind; [apply restores_numpy_seed|intros f3].
    apply restores_bind; [apply restores_lift|intros ls].
    apply restores_ret.
Qed.

(** A run with the toy generator: two calls with seed 7 and batch 3, from
    generator states 11 and 999 and on different records, draw alike. *)
Example process_annotate_run :
  exists n c,
    fst (process_annotate Toy.random Toy.config "train" [] 7 (Some 3%Z) false
           11%Z)
    = inr (annotate [] n c false)
    /\ fst (process_annotate Toy.random Toy.config "train"
              [("msa_chains", VInt 0)] 7 (Some 3%Z) true 999%Z)
       = inr (annotate [("msa_chains", VInt 0)] n c true)
    /\ (0 <= n <= 3)%Z.
Proof.
  exists 1%Z, true. split; [vm_compute; reflexivity|].
  split; [vm_compute; reflexivity|]. lia.
Qed.

End Recycling.

(** ** The label branch of the assembly builder *)

Section LoadLabels.

Lemma silent_ret {A} (a : A) : label_silent (st_ret a).
Proof. intros s. reflexivity. Qed.

Lemma silent_lift {A} (r : result A) : label_silent (st_lift r).
Proof. intros s. reflexivity. Qed.

Lemma silent_bind {A B} (c : M io_state A) (k : A -> M io_state B) :
  label_silent c -> (forall a, label_silent (k a)) ->
  label_silent (st_bind c k).
Proof.
  intros Hc Hk s. unfold st_bind. specialize (Hc s).
  destruct (c s) as [[e|a] s1]; simpl in *; [exact Hc|].
  now rewrite Hk.
Qed.

Lemma silent_mapM {A B} (f : A -> M io_state B) (l : list A) :
  (forall a, label_silent (f a)) -> label_silent (st_mapM f l).
Proof.
  intros Hf. induction l as [|a l IH]; simpl; [apply silent_ret|].
  apply silent_bind; [apply Hf|intros b].
  apply silent_bind; [exact IH|intros bs]. apply silent_ret.
Qed.

Lemma silent_load_pickle disk kind path :
  kind <> LabelFile -> label_silent (load_pickle disk kind path).
Proof.
  intros Hk s. unfold load_pickle. simpl.
  rewrite List.filter_app. simpl. unfold is_label_read at 2. simpl.
  destruct kind; [| |congruence]; simpl; apply app_nil_r.
Qed.

Lemma silent_lru_cache maxsize f k :
  label_silent (f k) -> label_silent (lru_cache maxsize f k).
Proof.
  intros Hf s. unfold lru_cache.
  destruct (List.find _ (cache s)) as [[k' v]|]; [reflexivity|].
  specialize (Hf s). destruct (f k s) as [[e|v] s']; exact Hf.
Qed.

Lemma silent_load_single_feature {N} (E : Externals N) disk sid mfd umd m :
  label_silent (load_single_feature E disk sid mfd umd m).
Proof.
  unfold load_single_feature. apply silent_lru_cache.
  unfold load_single_feature_body.
  apply silent_bind; [now apply silent_load_pickle|intros f].
  apply silent_bind; [apply silent_lift|intros f'].
  destruct umd as [dir|]; [|apply silent_ret].
  apply silent_bind; [now apply silent_load_pickle|intros a].
  destruct m; apply silent_lift.
Qed.

Lemma st_bind_unfold {S A B} (c : M S A) (k : A -> M S B) (s : S) :
  st_bind c k s
  = match c s with
    | (inl e, s') => (inl e, s')
    | (inr a, s') => k a s'
    end.
Proof. reflexivity. Qed.

Lemma st_bind_raise_lift {S A B} (e : exn) (k : A -> M S B) (s : S) :
  st_bind (st_lift (inl e)) k s = (inl e, s).
Proof. reflexivity. Qed.

(** One label: what is returned depends on the disk only, and the read is
    logged. *)
Lemma load_single_label_run disk label_id label_dir op s :
  load_single_label disk label_id label_dir op s
  = (loaded_label disk label_id label_dir op,
     mk_io (cache s)
       (reads s ++ [(LabelFile, label_file label_dir label_id)])).
Proof.
  unfold loaded_label, load_single_label, label_file.
  rewrite !st_bind_unfold. unfold load_pickle.
  destruct (disk _) as [label|]; [|reflexivity].
  rewrite !st_bind_unfold. unfold st_lift.
  destruct op as [o|]; [|reflexivity].
  destruct (let* pos := getitem label "all_atom_positions" in _)
    as [e|label']; reflexivity.
Qed.

(** Labels loaded one after the other: the records are those of the single
    loads, and on success every label file was read, in order. *)
Lemma label_mapM_run disk d (pairs : list (string * Operation)) :
  forall s,
    let out :=
      st_mapM (fun '(l, o) => load_single_label disk l d (Some o)) pairs s in
    fst out = mapM (fun '(l, o) => loaded_label disk l d (Some o)) pairs
    /\ forall labels,
         fst out = inr labels ->
         snd out
         = mk_io (cache s)
             (reads s
              ++ map (fun lo => (LabelFile, label_file d (fst lo))) pairs).
Proof.
  induction pairs as [|[l o] pairs IH]; intros s out; subst out.
  - split; [reflexivity|]. intros labels _. cbn [st_mapM st_ret snd map].
    rewrite app_nil_r. now destruct s.
  - cbn [st_mapM mapM map fst]. rewrite st_bind_unfold.
    rewrite load_single_label_run.
    destruct (loaded_label disk l d (Some o)) as [e|b];
      [split; [reflexivity|discriminate]|].
    rewrite st_bind_unfold. cbn [bind ret].
    specialize (IH (mk_io (cache s)
                      (reads s ++ [(LabelFile, label_file d l)]))).
    cbv zeta in IH. destruct IH as [IH1 IH2].
    destruct (st_mapM _ pairs _) as [[e|bs] s2]; cbn [fst snd] in *.
    + split; [now rewrite <- IH1|discriminate].
    + split; [now rewrite <- IH1|].
      intros labels _. cbn [st_ret snd].
      rewrite (IH2 bs eq_refl). cbn [cache reads].
      now rewrite <- app_assoc.
Qed.

(** C4 (as the code has it). When [label_ids] is given and its length
    differs from that of [sequence_ids], [load] fails and reads no label
    file.  The feature records are loaded before the length is checked: when
    they all load the failure is the length assertion, and when their
    loading fails the failure is that of the loading.  When the lengths
    agree the check is passed: with no operations given the call behaves
    exactly as with the identity operation ["I"] given for every label id,
    and, with a label directory, once the features have loaded and every
    label loads under ["I"], the call reads the label files one per label
    id, in order, right after the features, and goes on to assemble the
    feature records merged with these labels. *)
Theorem load_label_length_check :
  forall (N : NumpyRandom) (E : Externals N)
         (disk : string -> option NumpyDict) (sequence_ids : list string)
         (monomer_feature_dir : string) (uniprot_msa_dir : option string)
         (label_ids : list string) (label_dir : option string)
         (symmetry_operations : option (list Operation)) (is_monomer : bool)
         (s : io_state),
    let features :=
      st_mapM (fun sid => load_single_feature E disk sid monomer_feature_dir
                            uniprot_msa_dir is_monomer) sequence_ids s in
    let out :=
      load E disk sequence_ids monomer_feature_dir uniprot_msa_dir
        (Some label_ids) label_dir symmetry_operations is_monomer s in
    (length label_ids <> length sequence_ids ->
       (exists e, fst out = inl e)
       /\ List.filter is_label_read (reads (snd out))
          = List.filter is_label_read (reads s)
       /\ (forall feats s1,
             features = (inr feats, s1) ->
             out = (inl (AssertionError "len(label_ids) == len(sequence_ids)"),
                    s1))
       /\ (forall e s1, features = (inl e, s1) -> out = (inl e, s1)))
    /\ (length label_ids = length sequence_ids ->
        load E disk sequence_ids monomer_feature_dir uniprot_msa_dir
          (Some label_ids) label_dir None is_monomer s
        = load E disk sequence_ids monomer_feature_dir uniprot_msa_dir
            (Some label_ids) label_dir
            (Some (map (fun _ => OpStr "I") label_ids)) is_monomer s
        /\ forall feats s1 d labels,
             features = (inr feats, s1) ->
             label_dir = Some d ->
             symmetry_operations = None ->
             mapM (fun l => loaded_label disk l d (Some (OpStr "I")))
               label_ids = inr labels ->
             out
             = (assemble E true is_monomer (update_all feats labels),
                mk_io (cache s1)
                  (reads s1
                   ++ map (fun l => (LabelFile, label_file d l)) label_ids))).
Proof.
  intros N E disk sequence_ids mfd umd label_ids label_dir symops is_monomer
    s features out.
  split.
  - intros Hlen.
    assert (Hneq : (length label_ids =? length sequence_ids)%nat = false)
      by now apply Nat.eqb_neq.
    pose proof (silent_mapM
      (fun sid => load_single_feature E disk sid mfd umd is_monomer)
      sequence_ids
      (fun sid => silent_load_single_feature E disk sid mfd umd is_monomer) s)
      as Hsilent.
    subst out features. unfold load. rewrite st_bind_unfold.
    destruct (st_mapM _ sequence_ids s) as [[e|feats] s1] eqn:Ef.
    + split; [eauto|]. split; [exact Hsilent|].
      split; [intros ? ? [=]|]. now intros e' s1' [= <- <-].
    + rewrite st_bind_unfold. unfold load_labels.
      rewrite Hneq. cbn [py_assert raise]. rewrite st_bind_raise_lift.
      cbn [fst snd].
      split; [eauto|]. split; [exact Hsilent|].
      split; [|intros ? ? [=]].
      intros feats' s1' [= <- <-]. reflexivity.
  - intros Hlen.
    assert (Heq : (length label_ids =? length sequence_ids)%nat = true)
      by now apply Nat.eqb_eq.
    split; [reflexivity|].
    intros feats s1 d labels Hf -> -> Hl.
    subst out features. unfold load. rewrite st_bind_unfold, Hf.
    rewrite st_bind_unfold. unfold load_labels. rewrite Heq.
    cbn [py_assert]. rewrite !st_bind_ret_lift, st_bind_unfold.
    pose proof (label_mapM_run disk d
                  (combine label_ids (map (fun _ => OpStr "I") label_ids))
                  s1) as Hrun.
    cbv zeta in Hrun. destruct Hrun as [Hres Hstate].
    assert (Hmap : forall ls : list string,
              mapM (fun '(l, o) => loaded_label disk l d (Some o))
                (combine ls (map (fun _ => OpStr "I") ls))
              = mapM (fun l => loaded_label disk l d (Some (OpStr "I"))) ls).
    { induction ls as [|l ls IH]; [reflexivity|].
      cbn [map combine mapM]. now rewrite IH. }
    assert (Hpaths : forall ls : list string,
              map (fun lo : string * Operation =>
                     (LabelFile, label_file d (fst lo)))
                (combine ls (map (fun _ => OpStr "I") ls))
              = map (fun l => (LabelFile, label_file d l)) ls).
    { induction ls as [|l ls IH]; [reflexivity|].
      cbn [map combine fst]. now rewrite IH. }
    rewrite Hmap, Hl in Hres. specialize (Hstate labels Hres).
    rewrite Hpaths in Hstate.
    destruct (st_mapM _ (combine label_ids _) s1) as [[e|ls] s2];
      cbn [fst snd] in *; [discriminate|].
    subst s2. injection Hres as ->. cbn [st_ret]. unfold assemble.
    rewrite st_bind_unfold. unfold st_lift at 1.
    destruct (add_assembly_features E _) as [e|chains]; [reflexivity|].
    cbn [bind]. rewrite st_bind_unfold. unfold st_lift at 1.
    destruct (mapM extract_label chains) as [e|ls]; [reflexivity|].
    cbn [bind ret]. rewrite st_bind_unfold. unfold st_lift at 1.
    destruct (mapM (fun c => let* n := getitem c "seq_length" in as_int n)
                chains) as [e|lens]; [reflexivity|].
    cbn [bind]. rewrite st_bind_unfold. unfold st_lift at 1.
    destruct is_monomer.
    + destruct (list_getitem chains 0) as [e|c]; reflexivity.
    + destruct (pair_and_merge E chains) as [e|m]; reflexivity.
Qed.

Lemma load_label_length_check_witness :
  load Toy.externals ToyDisk.disk ["seqA"] "feat" None (Some []) (Some "lab")
    None true ToyDisk.fresh
  = (inl (AssertionError "len(label_ids) == len(sequence_ids)"),
     mk_io
       [(("seqA", "feat", None, true),
         [("seq_length", VInt 2); ("msa", VInts (mk_ndarray [1; 2] [0; 5]%Z))])]
       [(FeatureFile, "feat/seqA.feature.pkl.gz")])
  /\ reads (snd (load Toy.externals ToyDisk.disk ["seqA"] "feat" None
                   (Some ["1abc_A"]) (Some "lab") None true ToyDisk.fresh))
     = [(FeatureFile, "feat/seqA.feature.pkl.gz");
        (LabelFile, "lab/1abc_A.label.pkl.gz")].
Proof.
  split.
  - eapply (proj1 (proj2 (proj2 (proj1 (load_label_length_check Toy.random
                     Toy.externals ToyDisk.disk ["seqA"] "feat" None []
                     (Some "lab") None true ToyDisk.fresh)
                     ltac:(simpl; lia))))).
    vm_compute. reflexivity.
  - destruct (st_mapM (fun sid => load_single_feature Toy.externals
                                   ToyDisk.disk sid "feat" None true)
                ["seqA"] ToyDisk.fresh) as [[e|feats] s1] eqn:Hf;
      [vm_compute in Hf; discriminate|].
    destruct (mapM (fun l => loaded_label ToyDisk.disk l "lab"
                               (Some (OpStr "I"))) ["1abc_A"])
      as [e|labels] eqn:Hl; [vm_compute in Hl; discriminate|].
    rewrite (proj2 (proj2 (load_label_length_check Toy.random Toy.externals
                             ToyDisk.disk ["seqA"] "feat" None ["1abc_A"]
                             (Some "lab") None true ToyDisk.fresh) eq_refl)
               feats s1 "lab" labels Hf eq_refl eq_refl Hl).
    vm_compute in Hf. injection Hf as <- <-. reflexivity.
Defined.

(** The claim as the specification words it does not hold: on a length
    mismatch the call need not fail with the assertion.  Here the one
    feature file is missing, and the call fails with [FileNotFoundError]
    before the lengths are compared. *)
Lemma load_label_length_check_counterexample :
  length (@nil string) <> length ["nofile"]
  /\ load Toy.externals ToyDisk.disk ["nofile"] "feat" None (Some [])
       (Some "lab") None true ToyDisk.fresh
     = (inl (FileNotFoundError "feat/nofile.feature.pkl.gz"),
        mk_io [] [(FeatureFile, "feat/nofile.feature.pkl.gz")])
  /\ ~ is_assertion_error
         (fst (load Toy.externals ToyDisk.disk ["nofile"] "feat" None
                 (Some []) (Some "lab") None true ToyDisk.fresh)).
Proof.
  split; [simpl; lia|]. split; [vm_compute; reflexivity|].
  intros [msg H]. vm_compute in H. discriminate.
Qed.

End LoadLabels.

(** ** The cross-link feature of [process_ap] *)

Section ProcessApXl.

Lemma bin_xl_shape T perm xl num_res out :
  bin_xl T perm xl num_res = inr out ->
  shape out = [Z.to_nat num_res; Z.to_nat num_res; 1].
Proof.
  unfold bin_xl. intros H.
  destruct (take_rows xl perm) as [e|rows]; simpl in H; [discriminate|].
  destruct (num_res <? 0)%Z; [discriminate|].
  now destruct (bin_xl_loop_spec T _ rows
                  (np_zeros [Z.to_nat num_res; Z.to_nat num_res; 1]) out
                  eq_refl (np_zeros_length _) H) as (Hs & _).
Qed.

Lemma zeros_pair_inr num_res z :
  zeros_pair num_res = inr z ->
  z = np_zeros [Z.to_nat num_res; Z.to_nat num_res; 1].
Proof.
  unfold zeros_pair. destruct (num_res <? 0)%Z; [discriminate|].
  now intros [= <-].
Qed.

(** The features [process_ap] returns come out of the cross-link step, run
    on the residue count of the input record. *)
Lemma process_ap_ends_with_xl {N} (E : Externals N) T xl_disk perm config
    mode
    features labels seed batch_idx d crosslinks chain_id_map g f' l' g' :
  process_ap E T xl_disk perm config mode features labels seed batch_idx d
    crosslinks chain_id_map g = (inr (f', l'), g') ->
  exists v num_res f,
    PyDict.get features "seq_length" = Some v
    /\ as_int v = inr num_res
    /\ process_ap_xl T xl_disk perm f num_res crosslinks chain_id_map = inr f'.
Proof.
  intros H. unfold process_ap in H.
  apply st_bind_inr in H as (f1 & s1 & H1 & H).
  rewrite process_annotate_scoped in H1.
  destruct (fst _) as [e|[n c]]; [discriminate|]. injection H1 as <- <-.
  apply st_bind_inr in H as (v & s2 & Hv & H).
  apply st_lift_inr in Hv as [Hv ->].
  apply st_bind_inr in H as (num_res & s3 & Hn & H).
  apply st_lift_inr in Hn as [Hn ->].
  apply st_bind_inr in H as ([cfg names] & s4 & _ & H).
  apply st_bind_inr in H as (f2 & s5 & _ & H).
  apply st_bind_inr in H as (f3 & s6 & _ & H).
  apply st_bind_inr in H as (ls & s7 & _ & H).
  apply st_bind_inr in H as (f4 & s8 & Hxl & H).
  apply st_lift_inr in Hxl as [Hxl ->].
  injection H as <- <- <-.
  exists v, num_res, f3. split; [|split; [exact Hn|exact Hxl]].
  unfold getitem in Hv. rewrite annotate_get in Hv; [|discriminate].
  rewrite !PyDictFacts.get_set_ne in Hv by discriminate.
  destruct (PyDict.get features "seq_length"); [|discriminate].
  now injection Hv as <-.
Qed.

(** C8 (what the code does). Whenever the cross-link step returns, the
    feature [xl] is present. Without a cross-link source it is the all-zero
    array of shape (num_res, num_res, 1), and the step does return for every
    non-negative [num_res]. With a source it is the dense array with a new
    leading axis, of shape (1, num_res, num_res, 1): the two cases do not
    attach tensors of the same shape. [process_ap] returns the features of
    this step, so its [xl] feature has these shapes. *)
Theorem process_ap_xl_shapes :
  forall (T : TorchFloat) (xl_disk : string -> option xl_table)
         (perm : list nat) (features : TorchDict) (num_res : Z)
         (chain_id_map : option (dict string)),
    let n := Z.to_nat num_res in
    (forall features',
       process_ap_xl T xl_disk perm features num_res None chain_id_map
       = inr features' ->
       PyDict.get features' "xl" = Some (VFloats (np_zeros [n; n; 1])))
    /\ ((0 <= num_res)%Z ->
        exists features',
          process_ap_xl T xl_disk perm features num_res None chain_id_map
          = inr features')
    /\ (forall path features',
          process_ap_xl T xl_disk perm features num_res (Some path) chain_id_map
          = inr features' ->
          exists a,
            PyDict.get features' "xl" = Some (VFloats a)
            /\ shape a = [1; n; n; 1])
    /\ (forall (N : NumpyRandom) (E : Externals N) config mode input labels
               seed batch_idx d crosslinks g f' l' g',
          process_ap E T xl_disk perm config mode input labels seed batch_idx d
            crosslinks chain_id_map g = (inr (f', l'), g') ->
          exists v res a,
            PyDict.get input "seq_length" = Some v /\ as_int v = inr res
            /\ PyDict.get f' "xl" = Some (VFloats a)
            /\ shape a
               = match crosslinks with
                 | Some _ => [1; Z.to_nat res; Z.to_nat res; 1]
                 | None => [Z.to_nat res; Z.to_nat res; 1]
                 end).
Proof.
  intros T xl_disk perm features num_res chain_id_map n.
  assert (Hnone : forall f r features',
            process_ap_xl T xl_disk perm f r None chain_id_map = inr features' ->
            PyDict.get features' "xl"
            = Some (VFloats (np_zeros [Z.to_nat r; Z.to_nat r; 1]))).
  { intros f r features' H. unfold process_ap_xl in H.
    apply bind_inr in H as (z & Hz & H). injection H as <-.
    apply zeros_pair_inr in Hz as ->. apply PyDictFacts.get_set_eq. }
  assert (Hsome : forall f r path features',
            process_ap_xl T xl_disk perm f r (Some path) chain_id_map
            = inr features' ->
            exists a, PyDict.get features' "xl" = Some (VFloats a)
                      /\ shape a = [1; Z.to_nat r; Z.to_nat r; 1]).
  { intros f r path features' H. unfold process_ap_xl in H.
    apply bind_inr in H as (m & _ & H).
    apply bind_inr in H as (xl & _ & H).
    apply bind_inr in H as (a & Ha & H). injection H as <-.
    exists (unsqueeze0 a). split; [apply PyDictFacts.get_set_eq|].
    unfold unsqueeze0. cbn [shape]. f_equal.
    destruct (length xl =? 0)%nat.
    + now apply zeros_pair_inr in Ha as ->.
    + now apply bin_xl_shape in Ha. }
  split; [|split; [|split]].
  - intros features' H. eapply Hnone, H.
  - intros Hn. unfold process_ap_xl, zeros_pair.
    destruct (Z.ltb_spec num_res 0); [lia|]. simpl. eauto.
  - intros path features' H. eapply Hsome, H.
  - intros N E config mode input labels seed batch_idx d crosslinks g f' l'
      g' H.
    destruct (process_ap_ends_with_xl _ _ _ _ _ _ _ _ _ _ _ _ _ _ _ _ _ H)
      as (v & res & f & Hv & Hres & Hxl).
    exists v, res. destruct crosslinks as [path|].
    + destruct (Hsome _ _ _ _ Hxl) as (a & Hget & Hshape). eauto.
    + eexists. split; [exact Hv|]. split; [exact Hres|].
      split; [eapply Hnone, Hxl|reflexivity].
Qed.

Lemma process_ap_xl_shapes_witness :
  (exists f a,
     process_ap_xl Toy.torch ToyXl.xl_disk [0] ToyXl.features 2 None None = inr f
     /\ PyDict.get f "xl" = Some (VFloats a) /\ shape a = [2; 2; 1])
  /\ (exists f a,
        process_ap_xl Toy.torch ToyXl.xl_disk [0] ToyXl.features 2 (Some "xl.pkl.gz")
          (Some ToyXl.chain_id_map) = inr f
        /\ PyDict.get f "xl" = Some (VFloats a) /\ shape a = [1; 2; 2; 1]).
Proof.
  pose proof (process_ap_xl_shapes Toy.torch ToyXl.xl_disk [0] ToyXl.features 2 None)
    as (Hnone & Hret & _ & _).
  pose proof (process_ap_xl_shapes Toy.torch ToyXl.xl_disk [0] ToyXl.features 2
                (Some ToyXl.chain_id_map)) as (_ & _ & Hsome & _).
  split.
  - destruct (Hret ltac:(lia)) as [f Hf]. exists f. eexists.
    split; [exact Hf|]. split; [exact (Hnone f Hf)|reflexivity].
  - destruct (process_ap_xl Toy.torch ToyXl.xl_disk [0] ToyXl.features 2
                (Some "xl.pkl.gz") (Some ToyXl.chain_id_map)) as [e|f] eqn:E;
      [vm_compute in E; discriminate|].
    destruct (Hsome _ _ E) as (a & Hget & Hshape).
    exists f, a. auto.
Defined.

End ProcessApXl.

(** ** Structure names *)

Section PdbNames.
Import UnifoldMultimerDataset.

Lemma get_pdb_name_clean chain :
  contains_underscore (get_pdb_name chain) = false.
Proof.
  induction chain as [|c rest IH]; simpl; [reflexivity|].
  destruct (Ascii.eqb c "_") eqn:E; simpl; [reflexivity|].
  now rewrite E.
Qed.

Lemma get_pdb_name_append pdb rest :
  contains_underscore pdb = false ->
  get_pdb_name (pdb ++ "_" ++ rest) = pdb.
Proof.
  induction pdb as [|c pdb IH]; simpl in *; [reflexivity|].
  destruct (Ascii.eqb c "_"); simpl; [discriminate|].
  intros H. now rewrite IH.
Qed.

Lemma get_pdb_name_id chain :
  contains_underscore chain = false -> get_pdb_name chain = chain.
Proof.
  induction chain as [|c rest IH]; simpl; [reflexivity|].
  destruct (Ascii.eqb c "_"); simpl; [discriminate|].
  intros H. now rewrite IH.
Qed.

Lemma get_pdb_name_prefix chain :
  String.prefix (get_pdb_name chain) chain = true.
Proof.
  induction chain as [|c rest IH]; simpl; [reflexivity|].
  destruct (Ascii.eqb c "_"); simpl; [reflexivity|].
  destruct (Ascii.ascii_dec c c); [exact IH|congruence].
Qed.

(** X1. [get_pdb_name] returns the part of a chain id before its first
    underscore: the result is a prefix of the chain id and holds no
    underscore; it undoes the formatting [pdb + "_" + chain_id] of the filter
    whenever the structure id itself holds no underscore, and a chain id
    without underscore is its own structure id. *)
Theorem get_pdb_name_spec :
  (forall chain,
     contains_underscore (get_pdb_name chain) = false
     /\ String.prefix (get_pdb_name chain) chain = true)
  /\ (forall pdb chain_id,
        contains_underscore pdb = false ->
        get_pdb_name (pdb ++ "_" ++ chain_id) = pdb)
  /\ (forall chain,
        contains_underscore chain = false -> get_pdb_name chain = chain).
Proof.
  split; [|split].
  - intros chain. split; [apply get_pdb_name_clean|apply get_pdb_name_prefix].
  - apply get_pdb_name_append.
  - apply get_pdb_name_id.
Qed.

Lemma get_pdb_name_spec_witness :
  get_pdb_name ("1abc" ++ "_" ++ "A_2") = "1abc"
  /\ get_pdb_name "7xyz" = "7xyz".
Proof.
  split.
  - apply (proj1 (proj2 get_pdb_name_spec)). reflexivity.
  - apply (proj2 (proj2 get_pdb_name_spec)). reflexivity.
Defined.

(** The loop of [get_chains]: it never raises, and a chain is listed under a
    structure afterwards exactly when it was before or it is one of the
    chains of the work list with that structure name. *)
Lemma get_chains_loop_spec chains :
  forall acc : dict (list string),
    exists acc',
      get_chains_loop chains acc = inr acc'
      /\ (forall pdb chain,
            (exists l, PyDict.get acc' pdb = Some l /\ In chain l)
            <-> (exists l, PyDict.get acc pdb = Some l /\ In chain l)
                \/ (In chain chains /\ get_pdb_name chain = pdb))
      /\ ((forall pdb l, PyDict.get acc pdb = Some l -> l <> []) ->
          forall pdb l, PyDict.get acc' pdb = Some l -> l <> []).
Proof.
  induction chains as [|chain rest IH]; intros acc.
  - exists acc. split; [reflexivity|]. split; [|auto].
    intros pdb c. split; [auto|]. intros [H|[[] _]]. exact H.
  - cbn [get_chains_loop].
    set (pdb0 := get_pdb_name chain).
    set (acc1 := if negb (PyDict.mem acc pdb0)
                 then PyDict.set acc pdb0 [] else acc).
    assert (H1 : exists l0, PyDict.get acc1 pdb0 = Some l0
               /\ (forall c, In c l0 <->
                     exists l, PyDict.get acc pdb0 = Some l /\ In c l)
               /\ forall p, p <> pdb0 -> PyDict.get acc1 p = PyDict.get acc p).
    { unfold acc1, PyDict.mem.
      destruct (PyDict.get acc pdb0) as [l|] eqn:G; cbn [negb].
      - exists l. split; [exact G|]. split; [|reflexivity].
        intros c. split; [eauto|]. now intros (l' & [= <-] & Hc).
      - exists []. split; [apply PyDictFacts.get_set_eq|]. split.
        + intros c. split; [intros []|]. now intros (l' & [=] & _).
        + intros p Hp. apply PyDictFacts.get_set_ne. congruence. }
    destruct H1 as (l0 & G1 & Hl0 & Hother).
    unfold getitem. rewrite G1. cbn [bind ret].
    destruct (IH (PyDict.set acc1 pdb0 (l0 ++ [chain])))
      as (acc' & Hrun & Hiff & Hne).
    exists acc'. split; [exact Hrun|]. split.
    + intros pdb c. rewrite Hiff. rewrite PyDictFacts.get_set.
      destruct (String.eqb_spec pdb0 pdb) as [<-|Hp].
      * split.
        -- intros [(l & [= <-] & Hc)|[Hc Hn]]; [|right; split; [now right|exact Hn]].
           apply in_app_iff in Hc as [Hc|[<-|[]]].
           ++ left. now apply Hl0.
           ++ right. split; [now left|reflexivity].
        -- intros [Hold|[[<-|Hc] Hn]].
           ++ left. eexists. split; [reflexivity|].
              apply in_app_iff. left. now apply Hl0.
           ++ left. eexists. split; [reflexivity|].
              apply in_app_iff. right. now left.
           ++ right. auto.
      * rewrite Hother by congruence. split.
        -- intros [H|[Hc Hn]]; [now left|right; split; [now right|exact Hn]].
        -- intros [H|[[<-|Hc] Hn]]; [now left|contradiction|right; auto].
    + intros Hacc. apply Hne. intros p l. rewrite PyDictFacts.get_set.
      destruct (String.eqb_spec pdb0 p) as [<-|Hp].
      * intros [= <-]. now destruct l0.
      * rewrite Hother by congruence. apply Hacc.
Qed.

(** X2. [get_chains] never raises. A chain id is listed under a structure
    exactly when it is a key of the label map and [get_pdb_name] gives that
    structure, and every structure listed has at least one chain. *)
Theorem get_chains_spec :
  forall canon_chain_map : dict string,
    exists pdb_chains,
      get_chains canon_chain_map = inr pdb_chains
      /\ (forall pdb chain,
            (exists l, PyDict.get pdb_chains pdb = Some l /\ In chain l)
            <-> PyDict.mem canon_chain_map chain = true
                /\ get_pdb_name chain = pdb)
      /\ (forall pdb l, PyDict.get pdb_chains pdb = Some l -> l <> []).
Proof.
  intros m. unfold get_chains.
  destruct (get_chains_loop_spec (PyDict.keys m) PyDict.empty)
    as (acc' & Hrun & Hiff & Hne).
  exists acc'. split; [exact Hrun|]. split.
  - intros pdb chain. rewrite Hiff, PyDictFacts.mem_keys. split.
    + intros [(l & [=] & _)|H]; exact H.
    + auto.
  - apply Hne. intros pdb l [=].
Qed.

Lemma get_chains_spec_witness :
  exists pdb_chains,
    get_chains [("1abc_A", "s1"); ("2xyz_A", "s2"); ("1abc_B", "s1")]
    = inr pdb_chains
    /\ exists l, PyDict.get pdb_chains "1abc" = Some l /\ In "1abc_B" l.
Proof.
  destruct (get_chains_spec
              [("1abc_A", "s1"); ("2xyz_A", "s2"); ("1abc_B", "s1")])
    as (pc & Hrun & Hiff & _).
  exists pc. split; [exact Hrun|].
  apply Hiff. split; reflexivity.
Defined.

End PdbNames.

(** ** The inverse label map of consistent mappings *)

Section InverseMapTotal.
Import UnifoldDataset.

Lemma inverse_map_refs_total ent refs :
  forall inv : dict string,
    (forall ref e, In ref refs -> PyDict.get inv ref = Some e -> e = ent) ->
    exists inv',
      inverse_map_refs ent refs inv = inr inv'
      /\ forall r e,
           PyDict.get inv' r = Some e
           <-> PyDict.get inv r = Some e \/ (In r refs /\ e = ent).
Proof.
  induction refs as [|ref refs IH]; intros inv Hc.
  - exists inv. split; [reflexivity|]. intros r e. split; [auto|].
    intros [H|[[] _]]. exact H.
  - cbn [inverse_map_refs].
    assert (Hpre : (if PyDict.mem inv ref then
                      let* ent_2 := getitem inv ref in
                      py_assert (String.eqb ent ent_2)
                        (inverse_map_msg ent_2 ent ref)
                    else ret tt) = inr tt).
    { unfold PyDict.mem, getitem.
      destruct (PyDict.get inv ref) as [e|] eqn:G; [|reflexivity].
      cbn [bind ret]. rewrite (Hc ref e (or_introl eq_refl) G).
      now rewrite String.eqb_refl. }
    rewrite Hpre. cbn [bind].
    destruct (IH (PyDict.set inv ref ent)) as (inv' & Hrun & Hiff).
    { intros r e Hr. rewrite PyDictFacts.get_set.
      destruct (String.eqb_spec ref r) as [<-|Hne]; [now intros [= <-]|].
      intros G. eapply Hc; [right; exact Hr|exact G]. }
    exists inv'. split; [exact Hrun|].
    intros r e. rewrite Hiff, PyDictFacts.get_set.
    destruct (String.eqb_spec ref r) as [<-|Hne].
    + split.
      * intros [[= <-]|[Hr ->]]; right; split; auto; now left.
      * intros [G|[_ ->]]; [|now left].
        left. f_equal. symmetry. eapply Hc; [now left|exact G].
    + split.
      * intros [G|[Hr ->]]; [now left|right; split; [now right|reflexivity]].
      * intros [G|[[Hr|Hr] ->]]; [now left|contradiction|right; auto].
Qed.

Lemma inverse_map_items_total items :
  forall inv : dict string,
    consistent_labels items ->
    (forall ent refs ref e,
       In (ent, refs) items -> In ref refs ->
       PyDict.get inv ref = Some e -> e = ent) ->
    exists inv',
      inverse_map_items items inv = inr inv'
      /\ forall r e,
           PyDict.get inv' r = Some e
           <-> PyDict.get inv r = Some e
               \/ exists refs, In (e, refs) items /\ In r refs.
Proof.
  induction items as [|[ent refs] items IH]; intros inv Hcons Hacc.
  - exists inv. split; [reflexivity|]. intros r e. split; [auto|].
    intros [H|(refs & [] & _)]. exact H.
  - cbn [inverse_map_items].
    destruct (inverse_map_refs_total ent refs inv) as (inv1 & Hrun1 & Hiff1).
    { intros ref e Hr G. eapply Hacc; [now left|exact Hr|exact G]. }
    rewrite Hrun1. cbn [bind].
    destruct (IH inv1) as (inv' & Hrun & Hiff).
    { intros e1 r1 e2 r2 ref H1 H2. apply Hcons; now right. }
    { intros ent2 refs2 ref e Hin Hr G. apply Hiff1 in G as [G|[Hr1 ->]].
      - eapply Hacc; [right; exact Hin|exact Hr|exact G].
      - eapply (Hcons ent refs ent2 refs2 ref); auto; [now left|now right]. }
    exists inv'. split; [exact Hrun|].
    intros r e. rewrite Hiff, Hiff1. split.
    + intros [[G|[Hr ->]]|(refs' & Hin & Hr)].
      * now left.
      * right. exists refs. split; [now left|exact Hr].
      * right. exists refs'. split; [now right|exact Hr].
    + intros [G|(refs' & [[= <- <-]|Hin] & Hr)].
      * left. now left.
      * left. right. auto.
      * right. eauto.
Qed.

(** The inverse map of a consistent mapping, as a shared fact. *)
Lemma inverse_map_consistent (mapping : dict (list string)) :
  consistent_labels mapping ->
  exists inv,
    _inverse_map mapping = inr inv
    /\ forall ref ent,
         PyDict.get inv ref = Some ent
         <-> exists refs, In (ent, refs) mapping /\ In ref refs.
Proof.
  intros Hcons. unfold _inverse_map.
  destruct (inverse_map_items_total mapping PyDict.empty Hcons)
    as (inv & Hrun & Hiff); [intros ? ? ? ? _ _ [=]|].
  exists inv. split; [exact Hrun|]. intros ref ent. rewrite Hiff.
  split; [intros [[=]|H]; exact H|auto].
Qed.

(** A returned inverse map proves the mapping consistent. *)
Lemma inverse_map_returns_consistent (mapping : dict (list string)) inv :
  _inverse_map mapping = inr inv -> consistent_labels mapping.
Proof.
  intros H e1 r1 e2 r2 ref H1 H2 Hr1 Hr2.
  destruct (inverse_map_items_ok _ _ _ H) as [Hin _].
  pose proof (Hin _ _ _ H1 Hr1) as G1. pose proof (Hin _ _ _ H2 Hr2) as G2.
  congruence.
Qed.

(** X3. [_inverse_map] returns exactly on the mappings in which no label id is
    listed under two different sequence ids; the map it returns sends a label
    id to a sequence id if and only if the mapping lists the label under that
    sequence (so no label is lost and none is invented). *)
Theorem inverse_map_total :
  forall mapping : dict (list string),
    ((exists inv, _inverse_map mapping = inr inv)
     <-> consistent_labels mapping)
    /\ forall inv,
         _inverse_map mapping = inr inv ->
         forall ref ent,
           PyDict.get inv ref = Some ent
           <-> exists refs, In (ent, refs) mapping /\ In ref refs.
Proof.
  intros mapping. split.
  - split.
    + intros [inv H]. eapply inverse_map_returns_consistent, H.
    + intros Hc. destruct (inverse_map_consistent mapping Hc) as (inv & H & _).
      eauto.
  - intros inv H.
    destruct (inverse_map_consistent mapping
                (inverse_map_returns_consistent _ _ H)) as (inv' & H' & Hiff).
    rewrite H in H'. injection H' as <-. exact Hiff.
Qed.

Lemma inverse_map_total_witness :
  exists inv,
    _inverse_map [("seqA", ["c1"; "c2"]); ("seqB", ["c3"]); ("seqA", ["c1"])]
    = inr inv
    /\ PyDict.get inv "c3" = Some "seqB".
Proof.
  destruct (inverse_map_total
              [("seqA", ["c1"; "c2"]); ("seqB", ["c3"]); ("seqA", ["c1"])])
    as [[_ Hret] Hget].
  destruct Hret as [inv Hinv].
  - intros e1 r1 e2 r2 ref H1 H2 Hr1 Hr2. simpl in H1, H2.
    destruct H1 as [[= <- <-]|[[= <- <-]|[[= <- <-]|[]]]];
      destruct H2 as [[= <- <-]|[[= <- <-]|[[= <- <-]|[]]]];
      try reflexivity; simpl in Hr1, Hr2; exfalso;
      intuition (subst; discriminate).
  - exists inv. split; [exact Hinv|].
    apply (Hget inv Hinv). exists ["c3"]. simpl. auto.
Defined.

End InverseMapTotal.

(** ** Sampling weights *)

Section SampleWeights.
Import UnifoldDataset.

Lemma mapM_length {A B} (f : A -> result B) l bs :
  mapM f l = inr bs -> length bs = length l.
Proof.
  revert bs. induction l as [|a l IH]; simpl; intros bs H.
  - now injection H as <-.
  - destruct (f a) as [e|b]; simpl in H; [discriminate|].
    destruct (mapM f l) as [e|bs']; simpl in H; [discriminate|].
    injection H as <-. simpl. f_equal. now apply IH.
Qed.

Lemma wf_get {V} (d : dict V) k v :
  PyDict.wf d -> In (k, v) d -> PyDict.get d k = Some v.
Proof.
  unfold PyDict.wf, PyDict.keys.
  induction d as [|[k0 v0] d IH]; simpl; intros Hnd Hin; [destruct Hin|].
  inversion Hnd as [|? ? Hnotin Hnd']; subst.
  destruct Hin as [[= -> ->]|Hin].
  - now rewrite String.eqb_refl.
  - destruct (String.eqb_spec k0 k) as [->|Hne]; [|now apply IH].
    exfalso. apply Hnotin. apply list_elem_of_In, in_map_iff.
    now exists (k, v).
Qed.

Lemma Qsum_from (l : list Q) (a : Q) :
  (fold_left Qplus l a == a + Qsum l)%Q.
Proof.
  unfold Qsum. revert a. induction l as [|x l IH]; intros a; simpl.
  - ring.
  - rewrite IH, (IH (0 + x)%Q). ring.
Qed.

Lemma Qsum_cons (x : Q) (l : list Q) : (Qsum (x :: l) == x + Qsum l)%Q.
Proof. unfold Qsum at 1. simpl. rewrite Qsum_from. ring. Qed.

Lemma Qsum_quotients (div : Q -> Q -> Q) (S : Q) (l : list Q) :
  (forall w, In w l -> (div w S == w / S)%Q) ->
  (Qsum (map (fun w => div w S) l) == Qsum l / S)%Q.
Proof.
  induction l as [|x l IH]; intros Hdiv; cbn [map].
  - unfold Qsum. simpl. unfold Qdiv. ring.
  - rewrite !Qsum_cons.
    rewrite IH by (intros w Hw; apply Hdiv; now right).
    rewrite (Hdiv x) by now left.
    unfold Qdiv. ring.
Qed.

(** The probabilities of the dictionary entries [l], looked up in [sw]. *)
Lemma cal_probabilities (F : PyFloat) (sw : dict Q) (S : Q) (l : dict Q) :
  Qeq_bool S 0 = false ->
  (forall k v, In (k, v) l -> PyDict.get sw k = Some v) ->
  mapM (fun k =>
          let* w := getitem sw k in
          if Qeq_bool S 0 then raise ZeroDivisionError
          else ret (float_div F w S))
       (PyDict.keys l)
  = inr (map (fun w => float_div F w S) (PyDict.values l)).
Proof.
  intros HS. induction l as [|[k v] l IH]; intros Hget; [reflexivity|].
  cbn [PyDict.keys PyDict.values map mapM fst snd].
  unfold PyDict.keys, PyDict.values in IH. rewrite IH;
    [|intros k' v' Hin; apply Hget; now right].
  unfold getitem. rewrite (Hget k v (or_introl eq_refl)). cbn [bind ret].
  now rewrite HS.
Qed.

(** X4. Whatever the float arithmetic: [cal_sample_weight] on the empty
    table returns [(0, [], [])]; on a non-empty table whose float sum (from
    0, left to right) is zero it raises [ZeroDivisionError]; on a table with
    unique keys whose float sum is not zero it returns the number of keys,
    the keys in table order and, in the same order, one probability per key,
    the float quotient of its weight by that sum.  The probabilities add up
    to one wherever no rounding occurs, that is, when the float sum is the
    exact sum and every quotient is the exact quotient. *)
Theorem cal_sample_weight_spec :
  forall F : PyFloat,
    cal_sample_weight F [] = inr (0, [], [])
    /\ (forall sw : dict Q,
          sw <> [] -> (py_sum F (PyDict.values sw) == 0)%Q ->
          cal_sample_weight F sw = inl ZeroDivisionError)
    /\ (forall sw : dict Q,
          PyDict.wf sw -> ~ (py_sum F (PyDict.values sw) == 0)%Q ->
          let total := py_sum F (PyDict.values sw) in
          let probs :=
            map (fun w => float_div F w total) (PyDict.values sw) in
          cal_sample_weight F sw = inr (length sw, PyDict.keys sw, probs)
          /\ length probs = length sw
          /\ ((total == Qsum (PyDict.values sw))%Q ->
              (forall w, In w (PyDict.values sw) ->
                 (float_div F w total == w / total)%Q) ->
              (Qsum probs == 1)%Q)).
Proof.
  intros F. split; [reflexivity|]. split.
  - intros [|[k v] sw] Hne Hsum; [congruence|].
    unfold cal_sample_weight. cbn [PyDict.keys map mapM fst].
    unfold getitem, PyDict.get. rewrite String.eqb_refl. cbn [bind ret].
    apply Qeq_bool_iff in Hsum. now rewrite Hsum.
  - intros sw Hwf Hsum total probs.
    assert (HS : Qeq_bool total 0 = false).
    { destruct (Qeq_bool _ 0) eqn:E; [|reflexivity].
      apply Qeq_bool_iff in E. contradiction. }
    split; [|split].
    + unfold cal_sample_weight. fold total.
      rewrite (cal_probabilities F sw _ sw HS);
        [|intros k v; now apply wf_get].
      cbn [bind ret]. unfold PyDict.keys. now rewrite length_map.
    + unfold probs, PyDict.values. now rewrite !length_map.
    + intros Hexact Hdiv. unfold probs.
      rewrite (Qsum_quotients _ _ _ Hdiv), <- Hexact. now field.
Qed.

Lemma cal_sample_weight_spec_witness :
  (exists probs,
     cal_sample_weight Toy.pyfloat64
       [("a", Toy.round_float 53 (1 # 10));
        ("b", Toy.round_float 53 (2 # 10));
        ("c", - Toy.round_float 53 (3 # 10))%Q]
     = inr (3, ["a"; "b"; "c"], probs))
  /\ cal_sample_weight Toy.pyfloat64 [("a", 1%Q); ("b", (-1)%Q)]
     = inl ZeroDivisionError.
Proof.
  split.
  - eexists.
    apply (proj2 (proj2 (cal_sample_weight_spec Toy.pyfloat64))
             [("a", Toy.round_float 53 (1 # 10));
              ("b", Toy.round_float 53 (2 # 10));
              ("c", - Toy.round_float 53 (3 # 10))%Q]).
    + repeat (constructor;
                [rewrite list_elem_of_In; simpl; intuition discriminate|]).
      constructor.
    + vm_compute. discriminate.
  - apply (proj1 (proj2 (cal_sample_weight_spec Toy.pyfloat64)));
      [discriminate|reflexivity].
Defined.

End SampleWeights.

(** ** What a constructed dataset guarantees *)

Section DatasetInvariants.
Import UnifoldDataset.

Tactic Notation "peel" hyp(H) "as" ident(a) ident(Ha) :=
  apply bind_inr in H as (a & Ha & H).

Lemma chain_weights_spec chains (inv : dict string) (sw : dict Q) :
  forall acc acc',
    chain_weights chains inv sw acc = inr acc' ->
    (forall c, PyDict.mem acc' c
               = (existsb (String.eqb c) chains || PyDict.mem acc c)%bool)
    /\ (forall c, In c chains ->
          exists ent w, PyDict.get inv c = Some ent
                        /\ PyDict.get sw ent = Some w
                        /\ PyDict.get acc' c = Some w)
    /\ (forall c, ~ In c chains -> PyDict.get acc' c = PyDict.get acc c).
Proof.
  induction chains as [|chain rest IH]; intros acc acc' H.
  - injection H as <-. split; [reflexivity|]. split; [intros c []|reflexivity].
  - cbn [chain_weights] in H. unfold getitem in H.
    destruct (PyDict.get inv chain) as [ent|] eqn:Ge; [|discriminate].
    cbn [bind ret] in H.
    destruct (PyDict.get sw ent) as [w|] eqn:Gw; [|discriminate].
    cbn [bind ret] in H.
    destruct (IH _ _ H) as (Hmem & Hin & Hout).
    split; [|split].
    + intros c. rewrite Hmem, PyDictFacts.mem_set. cbn [existsb].
      rewrite (String.eqb_sym chain c).
      destruct (String.eqb c chain), (existsb (String.eqb c) rest);
        reflexivity.
    + intros c [<-|Hc]; [|now apply Hin].
      exists ent, w. split; [exact Ge|]. split; [exact Gw|].
      destruct (in_dec string_dec chain rest) as [Hr|Hr].
      * destruct (Hin chain Hr) as (ent' & w' & Ge' & Gw' & Ga).
        congruence.
      * rewrite (Hout chain Hr). apply PyDictFacts.get_set_eq.
    + intros c Hc. simpl in Hc. rewrite Hout by tauto.
      apply PyDictFacts.get_set_ne. tauto.
Qed.

Lemma cal_sample_weight_inr F (sw : dict Q) n ks ps :
  cal_sample_weight F sw = inr (n, ks, ps) ->
  ks = PyDict.keys sw /\ n = length ks /\ length ps = n.
Proof.
  unfold cal_sample_weight. intros H. peel H as probs Hp.
  injection H as <- <- <-. apply mapM_length in Hp. auto.
Qed.

(** What the constructor establishes, as a shared fact. *)
Lemma init_facts F fs world_size args seed0 config_data data_path mode0
    max_step disable_sd json_prefix ds :
  __init__ F fs world_size args seed0 config_data data_path mode0 max_step
    disable_sd json_prefix = inr ds ->
  mode ds = mode0
  /\ weight_json fs
       (path_join data_path (json_prefix ++ mode0 ++ "_sample_weight.json"))
     = Some (seq_sample_weight ds)
  /\ label_json fs
       (path_join data_path (json_prefix ++ mode0 ++ "_multi_label.json"))
     = Some (multi_label ds)
  /\ _inverse_map (multi_label ds) = inr (inverse_multi_label ds)
  /\ chain_weights (PyDict.keys (inverse_multi_label ds))
       (inverse_multi_label ds) (seq_sample_weight ds) PyDict.empty
     = inr (sample_weight ds)
  /\ chain_keys ds = PyDict.keys (sample_weight ds)
  /\ num_chain ds = length (chain_keys ds)
  /\ length (sample_prob ds) = num_chain ds
  /\ seq_keys ds = PyDict.keys (seq_sample_weight ds)
  /\ num_seq ds = length (seq_keys ds)
  /\ data_len ds
     = match max_step with
       | Some m => (m * ds_batch_size ds)%Z
       | None => Z.of_nat (PyDict.len (sample_weight ds))
       end.
Proof.
  intros H. unfold __init__ in H.
  peel H as sw Hsw. peel H as ml Hml. peel H as inv Hinv. peel H as cw Hcw.
  cbn [negb] in H. rewrite andb_false_r in H. cbn [bind ret] in H.
  peel H as uf Huf. peel H as sq Hsq. destruct sq as [[nq kq] pq].
  peel H as ch Hch. destruct ch as [[nc kc] pc].
  injection H as <-. cbn.
  apply cal_sample_weight_inr in Hsq as (-> & -> & Hlq).
  apply cal_sample_weight_inr in Hch as (-> & -> & Hlc).
  unfold load_json in Hsw, Hml.
  destruct (weight_json fs _) as [sw'|]; [|discriminate].
  destruct (label_json fs _) as [ml'|]; [|discriminate].
  injection Hsw as ->. injection Hml as ->.
  repeat split; auto.
Qed.

(** X5. A dataset that [UnifoldDataset.__init__] returns holds: the inverse
    label map is the inverse of [multi_label]; the chain weight table has
    exactly the label ids of the inverse map as keys, and every chain carries
    the weight of the sequence that owns it; [chain_keys] and [seq_keys] are
    the keys of the two weight tables, [num_chain] and [num_seq] their
    lengths, with one chain probability per chain; and the dataset length is
    [max_step * batch_size] when a step cap is given, the number of chains
    otherwise. *)
Theorem init_invariants :
  forall F fs world_size args seed0 config_data data_path mode0 max_step
         disable_sd json_prefix ds,
    __init__ F fs world_size args seed0 config_data data_path mode0 max_step
      disable_sd json_prefix = inr ds ->
    (forall ref ent,
       PyDict.get (inverse_multi_label ds) ref = Some ent
       <-> exists refs, In (ent, refs) (multi_label ds) /\ In ref refs)
    /\ (forall chain,
          PyDict.mem (sample_weight ds) chain
          = PyDict.mem (inverse_multi_label ds) chain)
    /\ (forall chain ent,
          PyDict.get (inverse_multi_label ds) chain = Some ent ->
          exists w, PyDict.get (seq_sample_weight ds) ent = Some w
                    /\ PyDict.get (sample_weight ds) chain = Some w)
    /\ chain_keys ds = PyDict.keys (sample_weight ds)
    /\ num_chain ds = length (chain_keys ds)
    /\ length (sample_prob ds) = num_chain ds
    /\ seq_keys ds = PyDict.keys (seq_sample_weight ds)
    /\ num_seq ds = length (seq_keys ds)
    /\ data_len ds
       = match max_step with
         | Some m => (m * ds_batch_size ds)%Z
         | None => Z.of_nat (num_chain ds)
         end.
Proof.
  intros F fs world_size args seed0 config_data data_path mode0 max_step
    disable_sd json_prefix ds H.
  destruct (init_facts _ _ _ _ _ _ _ _ _ _ _ _ H)
    as (_ & _ & _ & Hinv & Hcw & Hck & Hnc & Hsp & Hsk & Hns & Hdl).
  destruct (chain_weights_spec _ _ _ _ _ Hcw) as (Hmem & Hin & _).
  assert (Hkeys : forall chain,
            PyDict.mem (sample_weight ds) chain
            = PyDict.mem (inverse_multi_label ds) chain).
  { intros chain. rewrite Hmem. cbn [PyDict.mem PyDict.get PyDict.empty].
    rewrite orb_false_r.
    destruct (PyDict.mem (inverse_multi_label ds) chain) eqn:E.
    - apply existsb_eqb_In. now apply PyDictFacts.mem_keys.
    - destruct (existsb _ _) eqn:E'; [|reflexivity].
      apply existsb_eqb_In, PyDictFacts.mem_keys in E'. congruence. }
  split; [|split; [exact Hkeys|split]].
  - intros ref ent.
    destruct (inverse_map_consistent _
                (inverse_map_returns_consistent _ _ Hinv))
      as (inv' & Hinv' & Hiff).
    rewrite Hinv in Hinv'. injection Hinv' as <-. apply Hiff.
  - intros chain ent G.
    destruct (Hin chain) as (ent' & w & Ge & Gw & Ga).
    { apply PyDictFacts.mem_keys. unfold PyDict.mem. now rewrite G. }
    exists w. split; [congruence|exact Ga].
  - repeat split; auto.
    rewrite Hdl. destruct max_step; [reflexivity|].
    rewrite Hnc, Hck. unfold PyDict.len, PyDict.keys. now rewrite length_map.
Qed.

Lemma init_invariants_witness :
  exists ds,
    __init__ Toy.pyfloat ToyData.files 1 ToyData.args 7 Toy.config "data" "train" None
      false "" = inr ds
    /\ chain_keys ds = ["1abc_A"; "1abc_B"; "2xyz_A"]
    /\ PyDict.get (sample_weight ds) "2xyz_A" = Some 3%Q
    /\ data_len ds = 3%Z.
Proof.
  destruct (__init__ Toy.pyfloat ToyData.files 1 ToyData.args 7 Toy.config "data" "train"
              None false "") as [e|ds] eqn:E; [vm_compute in E; discriminate|].
  destruct (init_invariants _ _ _ _ _ _ _ _ _ _ _ _ E)
    as (_ & _ & Hw & _ & _ & _ & _ & _ & Hdl).
  exists ds. split; [reflexivity|].
  vm_compute in E. injection E as <-. repeat split.
Defined.

(** X6. Construction aborts on bad side files: a missing sample-weight file
    or a missing multi-label file raises [FileNotFoundError] with its path,
    and a multi-label file that lists some label id under two different
    sequence ids raises [AssertionError]. *)
Theorem init_aborts :
  forall F fs world_size args seed0 config_data data_path mode0 max_step
         disable_sd json_prefix,
    let weights :=
      path_join data_path (json_prefix ++ mode0 ++ "_sample_weight.json") in
    let labels :=
      path_join data_path (json_prefix ++ mode0 ++ "_multi_label.json") in
    let run :=
      __init__ F fs world_size args seed0 config_data data_path mode0 max_step
        disable_sd json_prefix in
    (weight_json fs weights = None -> run = inl (FileNotFoundError weights))
    /\ (forall sw,
          weight_json fs weights = Some sw ->
          label_json fs labels = None ->
          run = inl (FileNotFoundError labels))
    /\ (forall sw ml,
          weight_json fs weights = Some sw ->
          label_json fs labels = Some ml ->
          ~ consistent_labels ml ->
          is_assertion_error run).
Proof.
  intros F fs world_size args seed0 config_data data_path mode0 max_step
    disable_sd json_prefix weights labels run.
  subst run. unfold __init__, load_json. fold weights. fold labels.
  split; [|split].
  - intros ->. reflexivity.
  - intros sw -> ->. reflexivity.
  - intros sw ml -> -> Hbad. cbn [bind ret].
    destruct (_inverse_map ml) as [e|inv] eqn:E.
    + unfold _inverse_map in E.
      destruct (inverse_map_items_err _ _ _ E) as [msg ->].
      exists msg. reflexivity.
    + exfalso. apply Hbad. eapply inverse_map_returns_consistent, E.
Qed.

Lemma init_aborts_witness :
  __init__ Toy.pyfloat ToyData.files 1 ToyData.args 7 Toy.config "data" "eval" None
    false ""
  = inl (FileNotFoundError "data/eval_sample_weight.json").
Proof.
  apply (proj1 (init_aborts Toy.pyfloat ToyData.files 1 ToyData.args 7 Toy.config "data"
                  "eval" None false "")).
  reflexivity.
Defined.

(** X7. Outside train mode [sample_chain] draws nothing: on a constructed
    dataset every index from 0 up to, but excluding, the number of chains
    returns the chain key at that index with the sequence id that owns it and
    [is_distillation = False] (no key lookup can fail), an index from the
    number of chains on raises [IndexError], and the random generator is left
    untouched. *)
Theorem sample_chain_eval :
  forall F fs world_size args seed0 config_data data_path mode0 max_step
         disable_sd json_prefix ds,
    __init__ F fs world_size args seed0 config_data data_path mode0 max_step
      disable_sd json_prefix = inr ds ->
    mode0 <> "train" ->
    forall (N : NumpyRandom) (idx : Z) (sample_by_seq : bool)
           (g : rng_state N),
      ((0 <= idx < Z.of_nat (num_chain ds))%Z ->
       exists label seq,
         nth_error (chain_keys ds) (Z.to_nat idx) = Some label
         /\ PyDict.get (inverse_multi_label ds) label = Some seq
         /\ sample_chain N ds idx sample_by_seq g
            = (inr (seq, label, false), g))
      /\ ((Z.of_nat (num_chain ds) <= idx)%Z ->
          sample_chain N ds idx sample_by_seq g
          = (inl (IndexError "list index out of range"), g)).
Proof.
  intros F fs world_size args seed0 config_data data_path mode0 max_step
    disable_sd json_prefix ds H Hmode N idx sbs g.
  destruct (init_facts _ _ _ _ _ _ _ _ _ _ _ _ H)
    as (Hm & _ & _ & _ & Hcw & Hck & Hnc & _).
  destruct (chain_weights_spec _ _ _ _ _ Hcw) as (Hmem & _ & _).
  unfold sample_chain. rewrite Hm.
  destruct (String.eqb_spec mode0 "train") as [?|_]; [contradiction|].
  rewrite Hnc. unfold list_getitem. split.
  - intros Hidx.
    destruct (Z.ltb_spec idx 0); [lia|].
    destruct (Z.leb_spec 0 idx); [|lia].
    destruct (Z.ltb_spec idx (Z.of_nat (length (chain_keys ds)))); [|lia].
    cbn [andb].
    destruct (nth_error (chain_keys ds) (Z.to_nat idx)) as [label|] eqn:En.
    2:{ apply nth_error_None in En. lia. }
    assert (Hin : PyDict.mem (inverse_multi_label ds) label = true).
    { apply nth_error_In in En. rewrite Hck in En.
      apply PyDictFacts.mem_keys in En. rewrite Hmem in En.
      cbn [PyDict.mem PyDict.get PyDict.empty] in En.
      rewrite orb_false_r in En.
      apply PyDictFacts.mem_keys. now apply existsb_eqb_In. }
    apply PyDictFacts.mem_get in Hin as [seq Hseq].
    exists label, seq. split; [reflexivity|]. split; [exact Hseq|].
    rewrite st_bind_ret_lift. unfold getitem. rewrite Hseq.
    rewrite st_bind_ret_lift. reflexivity.
  - intros Hidx.
    destruct (Z.ltb_spec idx 0); [lia|].
    destruct (Z.ltb_spec idx (Z.of_nat (length (chain_keys ds)))); [lia|].
    rewrite andb_false_r. reflexivity.
Qed.

Lemma sample_chain_eval_witness :
  exists ds,
    __init__ Toy.pyfloat eval_files 1 ToyData.args 7 Toy.config "d" "eval" None false ""
    = inr ds
    /\ sample_chain Toy.random ds 1 false 5%Z
       = (inr ("seqA", "1abc_B", false), 5%Z).
Proof.
  destruct (__init__ Toy.pyfloat eval_files 1 ToyData.args 7 Toy.config "d" "eval" None
              false "") as [e|ds] eqn:H; [vm_compute in H; discriminate|].
  exists ds. split; [reflexivity|].
  destruct (proj1 (sample_chain_eval _ _ _ _ _ _ _ _ _ _ _ _ H
                     ltac:(discriminate) Toy.random 1%Z false 5%Z))
    as (label & seq & Hn & Hs & Hrun).
  - vm_compute in H. injection H as <-. simpl. lia.
  - rewrite Hrun. vm_compute in H. injection H as <-.
    vm_compute in Hn, Hs. injection Hn as <-. injection Hs as <-.
    reflexivity.
Defined.

End DatasetInvariants.

(** ** The assembly builder beyond the length check *)

Section LoadResults.

Lemma never_bind_r {S A B} (c : M S A) (k : A -> M S B) :
  (forall a, never_returns (k a)) -> never_returns (st_bind c k).
Proof.
  intros Hk s. rewrite st_bind_unfold.
  destruct (c s) as [[e|a] s1]; [eauto|apply Hk].
Qed.

Lemma never_bind_l {S A B} (c : M S A) (k : A -> M S B) :
  never_returns c -> never_returns (st_bind c k).
Proof.
  intros Hc s. rewrite st_bind_unfold. destruct (Hc s) as [e He].
  destruct (c s) as [[e'|a] s1]; simpl in He; [eauto|discriminate].
Qed.

(** X8. With [is_monomer = False] the assembly builder never returns: after
    [pair_and_merge] it calls [post_process], a name the module neither
    defines nor imports, so every call that gets that far raises
    [NameError]. Without labels, once the features have loaded and the
    external assembly and pairing steps have succeeded, that is the exception
    raised. *)
Theorem load_multimer_never_returns :
  forall (N : NumpyRandom) (E : Externals N)
         (disk : string -> option NumpyDict) (sequence_ids : list string)
         (monomer_feature_dir : string) (uniprot_msa_dir : option string),
    (forall label_ids label_dir symmetry_operations,
       never_returns
         (load E disk sequence_ids monomer_feature_dir uniprot_msa_dir
            label_ids label_dir symmetry_operations false))
    /\ (forall s feats s1 chains lens merged,
          st_mapM (fun sid => load_single_feature E disk sid
                                monomer_feature_dir uniprot_msa_dir false)
            sequence_ids s = (inr feats, s1) ->
          add_assembly_features E feats = inr chains ->
          mapM (fun c => let* n := getitem c "seq_length" in as_int n) chains
          = inr lens ->
          pair_and_merge E chains = inr merged ->
          load E disk sequence_ids monomer_feature_dir uniprot_msa_dir None
            None None false s
          = (inl (NameError "post_process"), s1)).
Proof.
  intros N E disk sequence_ids mfd umd. split.
  - intros label_ids label_dir symops. unfold load.
    do 5 (apply never_bind_r; intros ?).
    apply never_bind_l. intros s. cbn [st_lift fst].
    destruct (pair_and_merge E _); simpl; eauto.
  - intros s feats s1 chains lens merged Hf Ha Hl Hp. unfold load.
    rewrite st_bind_unfold, Hf. cbn [load_labels].
    rewrite (st_bind_unfold (st_ret feats)). cbn [st_ret].
    rewrite st_bind_unfold. cbn [st_lift]. rewrite Ha.
    rewrite st_bind_ret_lift.
    rewrite st_bind_unfold. cbn [st_lift]. rewrite Hl.
    rewrite st_bind_unfold. cbn [st_lift]. rewrite Hp. reflexivity.
Qed.

Lemma load_multimer_never_returns_witness :
  load Toy.externals ToyDisk.disk ["seqA"] "feat" None None None None false
    ToyDisk.fresh
  = (inl (NameError "post_process"),
     mk_io
       [(("seqA", "feat", None, false),
         [("seq_length", VInt 2); ("msa", VInts (mk_ndarray [1; 2] [0; 5]%Z))])]
       [(FeatureFile, "feat/seqA.feature.pkl.gz")]).
Proof.
  eapply (proj2 (load_multimer_never_returns Toy.random Toy.externals
                   ToyDisk.disk ["seqA"] "feat" None)); reflexivity.
Defined.


Lemma get_set_same {V} (d : dict V) k v k' :
  PyDict.get d k = Some v -> PyDict.get (PyDict.set d k v) k' = PyDict.get d k'.
Proof.
  intros H. rewrite PyDictFacts.get_set.
  destruct (String.eqb_spec k k') as [<-|Hne]; [now rewrite H|reflexivity].
Qed.

Lemma process_label_identity (x : coords) :
  process_label x (OpStr "I") = inr x.
Proof. reflexivity. Qed.

(** X9. [load_single_label] reads exactly one file, the label file of the
    id. A missing file raises [FileNotFoundError]. Otherwise the returned
    record holds the four label fields present in the file and nothing else;
    with no operation or with ["I"] they are the stored values, with a
    rotation and translation the atom positions are the stored ones
    transformed and the other fields the stored values. An operation given
    for a record without atom positions raises [KeyError]. *)
Theorem load_single_label_spec :
  forall (disk : string -> option NumpyDict) (label_id label_dir : string)
         (op : option Operation) (s : io_state),
    let path := path_join label_dir (label_id ++ ".label.pkl.gz") in
    let out := load_single_label disk label_id label_dir op s in
    snd out = mk_io (cache s) (reads s ++ [(LabelFile, path)])
    /\ (disk path = None -> fst out = inl (FileNotFoundError path))
    /\ (forall label,
          disk path = Some label ->
          op = None
          \/ (op = Some (OpStr "I")
              /\ exists c, PyDict.get label "all_atom_positions"
                           = Some (VCoords c)) ->
          exists r,
            fst out = inr r
            /\ forall k,
                 PyDict.get r k
                 = if existsb (String.eqb k) label_keys
                   then PyDict.get label k else None)
    /\ (forall label x R t,
          disk path = Some label ->
          PyDict.get label "all_atom_positions" = Some (VCoords x) ->
          op = Some (operation_of R t) ->
          exists r,
            fst out = inr r
            /\ PyDict.get r "all_atom_positions"
               = Some (VCoords (map (map (rigid_transform R t)) x))
            /\ forall k,
                 k <> "all_atom_positions" ->
                 PyDict.get r k
                 = if existsb (String.eqb k) label_keys
                   then PyDict.get label k else None)
    /\ (forall label o,
          disk path = Some label ->
          PyDict.get label "all_atom_positions" = None ->
          op = Some o ->
          fst out = inl (KeyError "all_atom_positions")).
Proof.
  intros disk label_id label_dir op s path out.
  assert (Hrun : out
    = match disk path with
      | None => (inl (FileNotFoundError path),
                 mk_io (cache s) (reads s ++ [(LabelFile, path)]))
      | Some label =>
          (bind match op with
                | Some o =>
                    let* pos := getitem label "all_atom_positions" in
                    let* pos := as_coords pos in
                    let* pos := process_label pos o in
                    ret (PyDict.set label "all_atom_positions" (VCoords pos))
                | None => ret label
                end
             (fun l =>
                ret (PyDict.filter_keys
                       (fun k => existsb (String.eqb k) label_keys) l)),
           mk_io (cache s) (reads s ++ [(LabelFile, path)]))
      end).
  { subst out. unfold load_single_label. rewrite st_bind_unfold.
    unfold load_pickle. fold path.
    destruct (disk path) as [label|]; [|reflexivity].
    rewrite st_bind_unfold. cbn [st_lift].
    destruct (match op with Some _ => _ | None => _ end); reflexivity. }
  rewrite Hrun. split; [now destruct (disk path)|]. split; [now intros ->|].
  split; [|split].
  - intros label -> [->|[-> [c Hc]]].
    + eexists. split; [reflexivity|]. intros k.
      apply PyDictFacts.get_filter_keys.
    + unfold getitem. rewrite Hc. cbn [bind ret as_coords].
      rewrite process_label_identity. cbn [bind ret fst].
      eexists. split; [reflexivity|]. intros k.
      rewrite PyDictFacts.get_filter_keys.
      destruct (existsb _ label_keys); [|reflexivity].
      now apply get_set_same.
  - intros label x R t -> Hx ->. unfold getitem. rewrite Hx.
    cbn [bind ret as_coords]. rewrite process_label_rigid. cbn [bind ret fst].
    eexists. split; [reflexivity|]. split.
    + rewrite PyDictFacts.get_filter_keys.
      change (existsb (String.eqb "all_atom_positions") label_keys) with true.
      apply PyDictFacts.get_set_eq.
    + intros k Hk. rewrite PyDictFacts.get_filter_keys.
      destruct (existsb _ label_keys); [|reflexivity].
      apply PyDictFacts.get_set_ne. congruence.
  - intros label o -> Hx ->. unfold getitem. now rewrite Hx.
Qed.

Lemma load_single_label_spec_witness :
  exists r,
    fst (load_single_label ToyDisk.disk "1abc_A" "lab"
           (Some (operation_of rot90 shift_x)) ToyDisk.fresh) = inr r
    /\ PyDict.get r "all_atom_positions"
       = Some (VCoords (map (map (rigid_transform rot90 shift_x))
                          [[(1, 0, 0)]; [(0, 2, 0)]]%Q))
    /\ PyDict.get r "release_date" = None.
Proof.
  destruct (load_single_label_spec ToyDisk.disk "1abc_A" "lab"
              (Some (operation_of rot90 shift_x)) ToyDisk.fresh)
    as (_ & _ & _ & Hrt & _).
  destruct (Hrt ToyDisk.label_record [[(1, 0, 0)]; [(0, 2, 0)]]%Q rot90 shift_x
              eq_refl eq_refl eq_refl) as (r & Hr & Hpos & Hrest).
  exists r. split; [exact Hr|]. split; [exact Hpos|].
  rewrite Hrest by discriminate. reflexivity.
Defined.


Lemma update_all_length (features labels : list NumpyDict) :
  length (update_all features labels) = length features.
Proof.
  revert labels. induction features as [|f fs IH]; intros [|l ls]; simpl;
    auto.
Qed.

Lemma update_all_beyond (features labels : list NumpyDict) i :
  length labels <= i ->
  nth_error (update_all features labels) i = nth_error features i.
Proof.
  revert labels i. induction features as [|f fs IH]; intros [|l ls] i Hi;
    try reflexivity.
  destruct i as [|i]; simpl in *; [lia|]. apply IH. lia.
Qed.

Lemma update_all_merged (features labels : list NumpyDict) i f l :
  nth_error features i = Some f -> nth_error labels i = Some l ->
  nth_error (update_all features labels) i = Some (PyDict.update f l).
Proof.
  revert labels i. induction features as [|f0 fs IH]; intros [|l0 ls] [|i];
    simpl; try discriminate.
  - now intros [= ->] [= ->].
  - apply IH.
Qed.

Lemma label_reads_app {A} c (rs : list (file_kind * string)) (ls : list A)
    (path : A -> string) :
  label_reads (mk_io c (rs ++ map (fun l => (LabelFile, path l)) ls))
  = label_reads (mk_io c rs) + length ls.
Proof.
  unfold label_reads. cbn [reads]. rewrite List.filter_app, length_app.
  f_equal. induction ls as [|l ls IH]; [reflexivity|].
  cbn [map List.filter is_label_read fst length]. now rewrite IH.
Qed.

Lemma mapM_nth {A B} (f : A -> result B) l bs i a :
  mapM f l = inr bs -> nth_error l i = Some a ->
  exists b, nth_error bs i = Some b /\ f a = inr b.
Proof.
  revert bs i. induction l as [|a0 l IH]; intros bs i H Hi;
    [now destruct i|].
  cbn [mapM] in H.
  destruct (f a0) as [e|b0] eqn:E0; cbn [bind] in H; [discriminate|].
  destruct (mapM f l) as [e|bs'] eqn:E'; cbn [bind ret] in H; [discriminate|].
  injection H as <-. destruct i as [|i]; cbn [nth_error] in *.
  - injection Hi as <-. eauto.
  - now apply IH.
Qed.

Lemma nth_error_combine {A B} (l : list A) (k : list B) i a b :
  nth_error l i = Some a -> nth_error k i = Some b ->
  nth_error (combine l k) i = Some (a, b).
Proof.
  revert k i. induction l as [|a0 l IH]; intros [|b0 k] [|i]; simpl;
    try discriminate.
  - now intros [= ->] [= ->].
  - apply IH.
Qed.

(** X10. In the label branch of [load], with equal id counts: a missing
    label directory is an [AssertionError], whatever operations are given;
    with a directory, labels are loaded for the pairs of
    [zip(label_ids, symmetry_operations)] only, so with fewer operations than
    label ids the surplus chains get no label: on success exactly
    [min(len(label_ids), len(operations))] label files were read, the number
    of feature records is unchanged, each of the first ones is updated with
    the label loaded for the label id and the operation at its position, and
    the remaining ones are returned as they were. *)
Theorem load_labels_zip :
  forall (disk : string -> option NumpyDict) (feats : list NumpyDict)
         (sequence_ids label_ids : list string) (s : io_state),
    length label_ids = length sequence_ids ->
    (forall ops : option (list Operation),
       load_labels disk feats sequence_ids (Some label_ids) None ops s
       = (inl (AssertionError "label_dir is not None"), s))
    /\ forall ops d out s',
         load_labels disk feats sequence_ids (Some label_ids) (Some d)
           (Some ops) s = (inr out, s') ->
         label_reads s' = label_reads s + min (length label_ids) (length ops)
         /\ length out = length feats
         /\ (forall i f label_id op,
               nth_error feats i = Some f ->
               nth_error label_ids i = Some label_id ->
               nth_error ops i = Some op ->
               exists l,
                 loaded_label disk label_id d (Some op) = inr l
                 /\ nth_error out i = Some (PyDict.update f l))
         /\ forall i, min (length label_ids) (length ops) <= i ->
              nth_error out i = nth_error feats i.
Proof.
  intros disk feats sequence_ids label_ids s Hlen.
  assert (Heq : (length label_ids =? length sequence_ids)%nat = true)
    by now apply Nat.eqb_eq.
  split.
  - intros ops. unfold load_labels. rewrite Heq. reflexivity.
  - intros ops d out s'. unfold load_labels. rewrite Heq. cbn [py_assert].
    rewrite !st_bind_ret_lift, st_bind_unfold.
    pose proof (label_mapM_run disk d (combine label_ids ops) s) as Hm.
    cbv zeta in Hm. destruct Hm as [Hres Hstate].
    destruct (st_mapM _ (combine label_ids ops) s) as [[e|labels] s1];
      cbn [fst snd] in *; [discriminate|].
    intros [= <- <-]. rewrite (Hstate labels eq_refl).
    assert (Hl : length labels = length (combine label_ids ops))
      by (eapply mapM_length; eauto).
    rewrite length_combine in Hl.
    split.
    { rewrite (label_reads_app _ _ _ (fun lo => label_file d (fst lo))).
      rewrite length_combine. now destruct s. }
    split; [apply update_all_length|]. split.
    + intros i f label_id op Hf Hid Hop.
      destruct (mapM_nth _ _ _ i (label_id, op) (eq_sym Hres)
                  (nth_error_combine _ _ _ _ _ Hid Hop)) as (l & Hnth & Hload).
      exists l. split; [exact Hload|]. now apply update_all_merged.
    + intros i Hi. apply update_all_beyond. lia.
Qed.

Lemma load_labels_zip_witness :
  exists out s',
    load_labels ToyDisk.disk
      [[("seq_length", VInt 2)]; [("seq_length", VInt 2)]] ["seqA"; "seqA"]
      (Some ["1abc_A"; "1abc_A"]) (Some "lab") (Some [OpStr "I"])
      ToyDisk.fresh = (inr out, s')
    /\ label_reads s' = 1
    /\ nth_error out 1 = Some [("seq_length", VInt 2)].
Proof.
  destruct (load_labels ToyDisk.disk
              [[("seq_length", VInt 2)]; [("seq_length", VInt 2)]]
              ["seqA"; "seqA"] (Some ["1abc_A"; "1abc_A"]) (Some "lab")
              (Some [OpStr "I"]) ToyDisk.fresh) as [[e|out] s'] eqn:E;
    [vm_compute in E; discriminate|].
  exists out, s'. split; [reflexivity|].
  destruct (proj2 (load_labels_zip ToyDisk.disk
                     [[("seq_length", VInt 2)]; [("seq_length", VInt 2)]]
                     ["seqA"; "seqA"] ["1abc_A"; "1abc_A"]
                     ToyDisk.fresh eq_refl) [OpStr "I"] "lab" out s' E)
    as (Hr & _ & _ & Hb).
  split; [exact Hr|]. rewrite (Hb 1); [reflexivity|simpl; lia].
Defined.


Lemma extract_label_keys (f l : NumpyDict) :
  extract_label f = inr l -> PyDict.keys l = label_keys.
Proof.
  unfold extract_label, label_keys. cbn [mapM].
  destruct (getitem f "aatype") as [e|v1]; [discriminate|].
  destruct (getitem f "all_atom_positions") as [e|v2]; [discriminate|].
  destruct (getitem f "all_atom_mask") as [e|v3]; [discriminate|].
  destruct (getitem f "resolution") as [e|v4]; [discriminate|].
  cbn. now intros [= <-].
Qed.

Lemma mapM_Forall2 {A B} (f : A -> result B) (P : A -> B -> Prop) l bs :
  (forall a b, f a = inr b -> P a b) ->
  mapM f l = inr bs -> Forall2 P l bs.
Proof.
  intros Hf. revert bs. induction l as [|a l IH]; simpl; intros bs H.
  - injection H as <-. constructor.
  - destruct (f a) as [e|b] eqn:E; simpl in H; [discriminate|].
    destruct (mapM f l) as [e|bs']; simpl in H; [discriminate|].
    injection H as <-. constructor; auto.
Qed.

(** X11. When the monomer path of [load] returns, the labels are [None]
    exactly when no label ids were given; the features are the first chain
    record that [add_assembly_features] returned, with [asym_len] set to the
    sequence lengths of all the chains it returned (one entry per chain, in
    that order); and every returned label is read back from its chain record
    and holds exactly the four label fields, one label per chain. *)
Theorem load_monomer_result :
  forall (N : NumpyRandom) (E : Externals N)
         (disk : string -> option NumpyDict) sequence_ids monomer_feature_dir
         uniprot_msa_dir label_ids label_dir symmetry_operations s f labels s',
    load E disk sequence_ids monomer_feature_dir uniprot_msa_dir label_ids
      label_dir symmetry_operations true s = (inr (f, labels), s') ->
    (labels = None <-> label_ids = None)
    /\ exists merged first rest lens,
         add_assembly_features E merged = inr (first :: rest)
         /\ f = PyDict.set first "asym_len"
                  (VInts (mk_ndarray [S (length rest)] lens))
         /\ Forall2 (fun c n => exists v, PyDict.get c "seq_length" = Some v
                                          /\ as_int v = inr n)
              (first :: rest) lens
         /\ forall ls, labels = Some ls ->
              Forall2 (fun c l => extract_label c = inr l
                                  /\ PyDict.keys l = label_keys)
                (first :: rest) ls.
Proof.
  intros N E disk sequence_ids mfd umd label_ids label_dir symops s f labels
    s' H.
  unfold load in H.
  apply st_bind_inr in H as (feats & s1 & _ & H).
  apply st_bind_inr in H as (merged & s2 & _ & H).
  apply st_bind_inr in H as (chains & s3 & Hc & H).
  apply st_lift_inr in Hc as [Hc ->].
  apply st_bind_inr in H as (labs & s4 & Hl & H).
  apply st_lift_inr in Hl as [Hl ->].
  apply st_bind_inr in H as (lens & s5 & Hn & H).
  apply st_lift_inr in Hn as [Hn ->].
  apply st_bind_inr in H as (first & s6 & Hf & H).
  apply st_lift_inr in Hf as [Hf ->].
  injection H as <- <- <-.
  split.
  - destruct label_ids as [ids|]; [|now injection Hl as <-].
    apply bind_inr in Hl as (ls & _ & Hl). injection Hl as <-.
    split; discriminate.
  - destruct chains as [|c rest]; [discriminate|].
    cbv in Hf. injection Hf as <-.
    exists merged, c, rest, lens. split; [exact Hc|]. split.
    + pose proof (mapM_length _ _ _ Hn) as Hlen. simpl in Hlen.
      now rewrite Hlen.
    + split.
      * eapply mapM_Forall2; [|exact Hn]. intros a n Ha. cbv beta in Ha.
        apply bind_inr in Ha as (v & Hv & Ha). unfold getitem in Hv.
        destruct (PyDict.get a "seq_length") as [v'|]; [|discriminate].
        injection Hv as <-. eauto.
      * intros ls ->. destruct label_ids as [ids|]; [|discriminate].
        apply bind_inr in Hl as (ls' & Hls & Hl). injection Hl as <-.
        eapply mapM_Forall2; [|exact Hls]. intros a l Ha.
        split; [exact Ha|eapply extract_label_keys, Ha].
Qed.

Lemma load_monomer_result_witness :
  exists f labels s',
    load Toy.externals ToyDisk.disk ["seqA"] "feat" None (Some ["1abc_A"])
      (Some "lab") None true ToyDisk.fresh = (inr (f, labels), s')
    /\ PyDict.get f "asym_len" = Some (VInts (mk_ndarray [1] [2%Z]))
    /\ labels <> None.
Proof.
  destruct (load Toy.externals ToyDisk.disk ["seqA"] "feat" None
              (Some ["1abc_A"]) (Some "lab") None true ToyDisk.fresh)
    as [[e|[f labels]] s'] eqn:E; [vm_compute in E; discriminate|].
  exists f, labels, s'. split; [reflexivity|].
  destruct (load_monomer_result _ _ _ _ _ _ _ _ _ _ _ _ _ E)
    as (Hnone & _).
  split.
  - vm_compute in E. injection E as <- _ _. reflexivity.
  - intros Hl. apply Hnone in Hl. discriminate.
Defined.

End LoadResults.

(** ** Composition and failure of symmetry operations *)

Section ProcessLabelMore.

Ltac destruct_mat R :=
  destruct R as [[[[?r11 ?r12] ?r13] [[?r21 ?r22] ?r23]] [[?r31 ?r32] ?r33]].
Ltac destruct_vec v := destruct v as [[?x1 ?x2] ?x3].

Lemma rigid_compose (R1 R2 : mat3) (t1 t2 p : vec3) :
  vec3_eq
    (rigid_transform R2 t2 (rigid_transform R1 t1 p))
    (rigid_transform (mat_mul R2 R1)
       (vec_add (vec_mat t1 (transpose R2)) t2) p).
Proof.
  destruct_mat R1. destruct_mat R2. destruct_vec t1. destruct_vec t2.
  destruct_vec p. simpl. repeat split; ring.
Qed.

Lemma coords_eq_maps (f g : vec3 -> vec3) (x : coords) :
  (forall p, vec3_eq (f p) (g p)) ->
  coords_eq (map (map f) x) (map (map g) x).
Proof.
  intros Hfg. unfold coords_eq.
  induction x as [|atoms x IH]; simpl; constructor; [|exact IH].
  induction atoms as [|p atoms IHa]; simpl; constructor; auto.
Qed.

Lemma reshape_3_3_length rot R : reshape_3_3 rot = inr R -> length rot = 9.
Proof.
  unfold reshape_3_3.
  do 10 (destruct rot as [|? rot]; try discriminate). reflexivity.
Qed.

Lemma reshape_3_length trans t : reshape_3 trans = inr t -> length trans = 3.
Proof.
  unfold reshape_3.
  do 4 (destruct trans as [|? trans]; try discriminate). reflexivity.
Qed.

(** X12. [process_label] keeps the layout of the coordinate array (as many
    residues, and as many atoms in each residue). It returns only for the
    operation ["I"] or for a rotation of nine numbers with a translation of
    three; every other string, rotation or translation raises. Applying
    [(R1, t1)] and then [(R2, t2)] gives the same coordinates as applying the
    single operation [(R2 . R1, t1 . R2^T + t2)]. *)
Theorem process_label_compose :
  (forall (x y : coords) (op : Operation),
     process_label x op = inr y ->
     map (@length vec3) y = map (@length vec3) x
     /\ match op with
        | OpStr s => s = "I"
        | OpRT rot trans => length rot = 9 /\ length trans = 3
        end)
  /\ (forall (x : coords) (R1 R2 : mat3) (t1 t2 : vec3),
        exists y z w,
          process_label x (operation_of R1 t1) = inr y
          /\ process_label y (operation_of R2 t2) = inr z
          /\ process_label x
               (operation_of (mat_mul R2 R1)
                  (vec_add (vec_mat t1 (transpose R2)) t2)) = inr w
          /\ coords_eq z w).
Proof.
  split.
  - intros x y op H. destruct op as [s|rot trans]; cbn [process_label] in H.
    + destruct (String.eqb s "I") eqn:Es; [|discriminate].
      apply String.eqb_eq in Es. injection H as <-. auto.
    + destruct (reshape_3_3 rot) as [e|R] eqn:ER; [discriminate|].
      destruct (reshape_3 trans) as [e|t] eqn:Et; [discriminate|].
      cbn [bind ret] in H. injection H as <-. split.
      * unfold matmul_add. rewrite map_map. apply map_ext.
        intros atoms. apply length_map.
      * split; [eapply reshape_3_3_length, ER|eapply reshape_3_length, Et].
  - intros x R1 R2 t1 t2.
    exists (map (map (rigid_transform R1 t1)) x).
    eexists. eexists.
    split; [apply process_label_rigid|].
    split; [apply process_label_rigid|].
    split; [apply process_label_rigid|].
    rewrite map_map. erewrite map_ext; [|intros atoms; apply map_map].
    apply coords_eq_maps. intros p. apply rigid_compose.
Qed.

Lemma process_label_compose_witness :
  exists y,
    process_label [[(1, 2, 3); (0, 0, 1)]; []]%Q (operation_of rot90 shift_x)
    = inr y
    /\ map (@length vec3) y = [2; 0].
Proof.
  destruct (process_label [[(1, 2, 3); (0, 0, 1)]; []]%Q
              (operation_of rot90 shift_x)) as [e|y] eqn:E;
    [vm_compute in E; discriminate|].
  exists y. split; [reflexivity|].
  exact (proj1 (proj1 process_label_compose _ _ _ E)).
Defined.

End ProcessLabelMore.

(** ** Bins and offsets *)

Section BinsAndOffsets.

Lemma bucketize_length v bs : bucketize v bs <= length bs.
Proof.
  induction bs as [|b bs IH]; simpl; [lia|].
  destruct (Qle_bool v b); simpl; lia.
Qed.

Lemma bucketize_monotone v w bs :
  (v <= w)%Q -> bucketize v bs <= bucketize w bs.
Proof.
  intros Hvw. induction bs as [|b bs IH]; simpl; [lia|].
  destruct (Qle_bool w b) eqn:Ew.
  - apply Qle_bool_iff in Ew.
    assert (Hv : Qle_bool v b = true)
      by (apply Qle_bool_iff; eapply Qle_trans; eauto).
    rewrite Hv. lia.
  - destruct (Qle_bool v b); lia.
Qed.

Lemma bucketize_bracket v bs :
  (forall i b, i < bucketize v bs -> bs !! i = Some b -> (b < v)%Q)
  /\ (forall b, bs !! bucketize v bs = Some b -> (v <= b)%Q).
Proof.
  induction bs as [|b0 bs [IH1 IH2]]; simpl.
  - split; [intros; lia|discriminate].
  - destruct (Qle_bool v b0) eqn:E.
    + split; [intros; lia|]. intros b [= <-]. now apply Qle_bool_iff.
    + split.
      * intros [|i] b Hi; simpl.
        -- intros [= <-]. apply Qnot_le_lt. intros Hle.
           apply Qle_bool_iff in Hle. congruence.
        -- apply IH1. lia.
      * exact IH2.
Qed.

Lemma bucketize_index v bs i b :
  bs !! i = Some b -> (v <= b)%Q -> bucketize v bs <= i.
Proof.
  revert i. induction bs as [|b0 bs IH]; intros i; simpl; [discriminate|].
  destruct (Qle_bool v b0) eqn:E; [lia|].
  destruct i as [|i]; simpl.
  - intros [= <-] Hle. apply Qle_bool_iff in Hle. congruence.
  - intros Hb Hle. specialize (IH i Hb Hle). lia.
Qed.

(** X13. [bucketize] returns the first index whose threshold is not below
    the value: all thresholds before it are strictly below the value, the
    one at it (if any) is not, it never exceeds the number of thresholds and
    it is monotone in the value. With the 21 decimal thresholds, a
    cross-link with a false discovery rate between 0 and 1 falls in a bin
    from 0 to 20, and a lower rate never gives a lower bin.  The same holds
    of the bins [bin_xl] writes, for every float arithmetic in which
    [1 - fdr] does not grow with [fdr]: a lower rate never gives a lower
    bin, and when [1 - 0] is at most the threshold of index 20, every rate
    from 0 on falls in a bin from 0 to 20. *)
Theorem bucketize_spec :
  (forall v bs,
     bucketize v bs <= length bs
     /\ (forall i b, i < bucketize v bs -> bs !! i = Some b -> (b < v)%Q)
     /\ (forall b, bs !! bucketize v bs = Some b -> (v <= b)%Q))
  /\ (forall v w bs, (v <= w)%Q -> bucketize v bs <= bucketize w bs)
  /\ (forall fdr, (0 <= fdr)%Q -> bucketize (1 - fdr) decimal_bins <= 20)
  /\ (forall fdr1 fdr2,
        (fdr1 <= fdr2)%Q ->
        bucketize (1 - fdr2) decimal_bins
        <= bucketize (1 - fdr1) decimal_bins)
  /\ (forall T : TorchFloat,
        (forall fdr1 fdr2,
           (fdr1 <= fdr2)%Q ->
           (torch_rsub T 1 fdr2 <= torch_rsub T 1 fdr1)%Q) ->
        (forall fdr1 fdr2,
           (fdr1 <= fdr2)%Q ->
           bucketize (torch_rsub T 1 fdr2) (bins T)
           <= bucketize (torch_rsub T 1 fdr1) (bins T))
        /\ (forall b20 fdr,
              bins T !! 20 = Some b20 -> (torch_rsub T 1 0 <= b20)%Q ->
              (0 <= fdr)%Q ->
              bucketize (torch_rsub T 1 fdr) (bins T) <= 20)).
Proof.
  split; [|split; [|split; [|split]]].
  - intros v bs. split; [apply bucketize_length|apply bucketize_bracket].
  - apply bucketize_monotone.
  - intros fdr Hf.
    apply (bucketize_index _ decimal_bins 20 (inject_Z 20 * (5 # 100))%Q);
      [reflexivity|].
    assert (H1 : (inject_Z 20 * (5 # 100) == 1)%Q) by reflexivity.
    rewrite H1. lra.
  - intros f1 f2 H. apply bucketize_monotone. lra.
  - intros T Hanti. split.
    + intros f1 f2 H. apply bucketize_monotone. now apply Hanti.
    + intros b20 fdr Hb H0 Hf.
      apply (bucketize_index _ (bins T) 20 b20 Hb).
      eapply Qle_trans; [apply (Hanti 0%Q fdr Hf)|exact H0].
Qed.

Lemma bucketize_spec_witness :
  bucketize (1 - (1 # 10)) decimal_bins <= 20
  /\ bucketize (1 - (1 # 2)) decimal_bins
     <= bucketize (1 - (1 # 10)) decimal_bins
  /\ bucketize (torch_rsub Toy.torch 1 (1 # 10)) (bins Toy.torch) <= 20.
Proof.
  split; [|split].
  - apply (proj1 (proj2 (proj2 bucketize_spec))). discriminate.
  - apply (proj1 (proj2 (proj2 (proj2 bucketize_spec)))). discriminate.
  - eapply (proj2 (proj2 (proj2 (proj2 (proj2 bucketize_spec))) Toy.torch
                     ltac:(intros f1 f2 H; simpl; lra))).
    + vm_compute. reflexivity.
    + vm_compute. discriminate.
    + discriminate.
Defined.

(** The offsets entry of a chain, as a shared fact. *)
Lemma calculate_offsets_lookup (asym_ids : ndarray Z) i u :
  np_unique (data asym_ids) !! i = Some u ->
  calculate_offsets asym_ids !! i = Some (residues_before (data asym_ids) u)
  /\ calculate_offsets asym_ids !! (S i)
     = Some (residues_before (data asym_ids) u + count_eq (data asym_ids) u)%Z.
Proof.
  intros Hi. unfold calculate_offsets, np_cumsum. simpl.
  apply (cumsum_offsets (data asym_ids) (np_unique (data asym_ids))
           (np_unique_sorted _) 0%Z); [| |exact Hi].
  - intros a Ha. left. now apply np_unique_In.
  - intros u0 rest Hus. symmetry. apply residues_before_nil.
    intros a Ha. apply np_unique_In in Ha.
    pose proof (np_unique_sorted (data asym_ids)) as Hs.
    rewrite Hus in Ha, Hs. destruct Ha as [<-|Ha]; [lia|].
    inversion Hs as [|? ? _ Hall]; subst.
    rewrite List.Forall_forall in Hall. specialize (Hall a Ha). lia.
Qed.

Lemma count_eq_pos ids u : In u ids -> (1 <= count_eq ids u)%Z.
Proof.
  unfold count_eq. induction ids as [|a ids IH]; simpl; [intros []|].
  intros [->|Hin].
  - rewrite Z.eqb_refl. simpl. lia.
  - specialize (IH Hin). destruct (u =? a)%Z; simpl; lia.
Qed.

Lemma count_up_to ids u :
  (forall a, In a ids -> (a <= u)%Z) ->
  (residues_before ids u + count_eq ids u)%Z = Z.of_nat (length ids).
Proof.
  unfold residues_before, count_eq.
  induction ids as [|a ids IH]; intros H; [reflexivity|].
  specialize (IH (fun b Hb => H b (or_intror Hb))).
  specialize (H a (or_introl eq_refl)). simpl.
  destruct (Z.ltb_spec a u), (Z.eqb_spec u a); simpl; lia.
Qed.

Lemma sorted_last_max pre (u : Z) :
  StronglySorted Z.lt (pre ++ [u]) ->
  forall a, In a (pre ++ [u]) -> (a <= u)%Z.
Proof.
  induction pre as [|b pre IH]; simpl; intros Hs a.
  - intros [<-|[]]. lia.
  - inversion Hs as [|? ? Hs' Hall]; subst. intros [<-|Hin].
    + rewrite List.Forall_forall in Hall.
      specialize (Hall u ltac:(apply in_or_app; right; now left)). lia.
    + now apply IH.
Qed.

(** X14. The offsets of [calculate_offsets] increase strictly from one
    chain to the next, and the last one is the number of residues in the
    tensor; for the empty tensor the result is the single offset 0. *)
Theorem calculate_offsets_total :
  forall asym_ids : ndarray Z,
    let offsets := calculate_offsets asym_ids in
    (forall i a b,
       offsets !! i = Some a -> offsets !! (S i) = Some b -> (a < b)%Z)
    /\ last offsets = Some (Z.of_nat (length (data asym_ids)))
    /\ (data asym_ids = [] -> offsets = [0%Z]).
Proof.
  intros asym_ids offsets.
  assert (Hlen : length offsets = S (length (np_unique (data asym_ids)))).
  { unfold offsets, calculate_offsets, np_cumsum. simpl.
    now rewrite cumsum_from_length, length_map. }
  split; [|split].
  - intros i a b Ha Hb.
    pose proof (lookup_lt_Some _ _ _ Hb) as Hi. rewrite Hlen in Hi.
    destruct (lookup_lt_is_Some_2 (np_unique (data asym_ids)) i ltac:(lia))
      as [u Hu].
    destruct (calculate_offsets_lookup asym_ids i u Hu) as [H1 H2].
    fold offsets in H1, H2. rewrite H1 in Ha. rewrite H2 in Hb.
    injection Ha as <-. injection Hb as <-.
    assert (In u (data asym_ids)).
    { apply np_unique_In. eapply list_elem_of_In, list_elem_of_lookup_2, Hu. }
    pose proof (count_eq_pos _ _ H). lia.
  - rewrite last_lookup, Hlen. cbn [pred].
    destruct (np_unique (data asym_ids)) as [|u0 us] eqn:Eu.
    + assert (Hd : data asym_ids = []).
      { destruct (data asym_ids) as [|a l] eqn:Ed; [reflexivity|].
        assert (Ha : In a (np_unique (a :: l)))
          by (apply np_unique_In; now left).
        rewrite Eu in Ha. destruct Ha. }
      unfold offsets, calculate_offsets. rewrite Hd. reflexivity.
    + destruct (exists_last (l:=u0 :: us) ltac:(discriminate))
        as (pre & u & Hpre).
      assert (Hu : np_unique (data asym_ids) !! length pre = Some u).
      { rewrite Eu, Hpre. rewrite lookup_app_r by lia.
        now rewrite Nat.sub_diag. }
      destruct (calculate_offsets_lookup asym_ids _ u Hu) as [_ H2].
      fold offsets in H2.
      replace (length (u0 :: us)) with (S (length pre))
        by (rewrite Hpre, length_app; simpl; lia).
      rewrite H2. f_equal. apply count_up_to.
      intros a Ha. apply np_unique_In in Ha.
      pose proof (np_unique_sorted (data asym_ids)) as Hs.
      rewrite Eu, Hpre in Ha, Hs. eapply sorted_last_max; eauto.
  - intros Hd. unfold offsets, calculate_offsets. rewrite Hd. reflexivity.
Qed.

Lemma calculate_offsets_total_witness :
  last (calculate_offsets (mk_ndarray [4] [7; 7; 2; 7]%Z)) = Some 4%Z
  /\ (1 < 4)%Z.
Proof.
  destruct (calculate_offsets_total (mk_ndarray [4] [7; 7; 2; 7]%Z))
    as (Hinc & Hlast & _).
  split; [exact Hlast|].
  apply (Hinc 1); reflexivity.
Defined.

End BinsAndOffsets.

(** ** Duplicate cross-links: the last one wins *)

Section BinXlOrder.

Lemma bin_xl_loop_app T pre post (out : ndarray Q) :
  bin_xl_loop T (pre ++ post) out
  = bind (bin_xl_loop T pre out) (fun o => bin_xl_loop T post o).
Proof.
  revert out. induction pre as [|[[r1 r2] fdr] pre IH]; intros out;
    [reflexivity|].
  rewrite <- app_comm_cons, !bin_xl_loop_cons.
  destruct (setitem3 out _ _ 0 _) as [e|o1]; [reflexivity|]. cbn [bind].
  destruct (setitem3 o1 _ _ 0 _) as [e|o2]; [reflexivity|]. cbn [bind].
  apply IH.
Qed.

(** X15. [bin_xl] writes the entries in the permuted order, so for a cell
    that several entries address the last of them in that order decides:
    the cell holds the bin of an entry whenever no later entry of the
    permuted list addresses the same cell. *)
Theorem bin_xl_last_wins :
  forall (T : TorchFloat) perm xl num_res output pre row post,
    bin_xl T perm xl num_res = inr output ->
    take_rows xl perm = inr (pre ++ row :: post) ->
    forall i j,
      addresses (Z.to_nat num_res) row i j ->
      (forall later, In later post ->
         ~ addresses (Z.to_nat num_res) later i j) ->
      getitem3 output i j 0 = Some (bin_of T row).
Proof.
  intros T perm xl num_res output pre row post H Hrows i j Ha Hlast.
  unfold bin_xl in H. rewrite Hrows in H. cbn [bind] in H.
  destruct (num_res <? 0)%Z; [discriminate|].
  set (n := Z.to_nat num_res) in *.
  rewrite bin_xl_loop_app in H.
  apply bind_inr in H as (o1 & Hpre & H).
  destruct (bin_xl_loop_spec T n pre (np_zeros [n; n; 1]) o1 eq_refl
              (np_zeros_length n) Hpre) as (Hs1 & Hl1 & _).
  destruct row as [[r1 r2] fdr]. rewrite bin_xl_loop_cons in H.
  apply bind_inr in H as (o2 & S1 & H).
  apply bind_inr in H as (o3 & S2 & H).
  destruct (setitem3_spec n _ _ _ _ _ Hs1 Hl1 S1)
    as (a & b & Hna & Hnb & Hs2 & Hl2 & G1).
  destruct (setitem3_spec n _ _ _ _ _ Hs2 Hl2 S2)
    as (b' & a' & Hnb' & Hna' & Hs3 & Hl3 & G2).
  rewrite Hnb in Hnb'. rewrite Hna in Hna'.
  injection Hnb' as <-. injection Hna' as <-.
  destruct (addresses_lt _ _ _ _ Ha) as [Hi Hj].
  apply (addresses_iff n r1 r2 fdr a b i j Hna Hnb) in Ha.
  destruct (bin_xl_loop_spec T n post o3 output Hs3 Hl3 H) as (_ & _ & G).
  destruct (G i j Hi Hj) as [(Eij & _ & _)|(later & Hin & Hl & _)].
  - rewrite Eij, G2, G1 by assumption.
    repeat case_decide; try reflexivity; exfalso; intuition lia.
  - exfalso. eapply Hlast; eauto.
Qed.

Lemma bin_xl_last_wins_witness :
  (exists output,
     bin_xl Toy.torch [0; 1] [(0, 1, 1 # 10); (1, 0, 1 # 2)]%Q 2 = inr output
     /\ getitem3 output 0 1 0 = Some (inject_Z 10))
  /\ (exists output,
        bin_xl Toy.torch [1; 0] [(0, 1, 1 # 10); (1, 0, 1 # 2)]%Q 2 = inr output
        /\ getitem3 output 0 1 0 = Some (inject_Z 18)).
Proof.
  split.
  - destruct (bin_xl Toy.torch [0; 1] [(0, 1, 1 # 10); (1, 0, 1 # 2)]%Q 2)
      as [e|output] eqn:E; [vm_compute in E; discriminate|].
    exists output. split; [reflexivity|].
    apply (bin_xl_last_wins _ _ _ _ _ [(0, 1, 1 # 10)]%Q (1, 0, 1 # 2)%Q []
             E eq_refl 0 1).
    + right. split; reflexivity.
    + intros later [].
  - destruct (bin_xl Toy.torch [1; 0] [(0, 1, 1 # 10); (1, 0, 1 # 2)]%Q 2)
      as [e|output] eqn:E; [vm_compute in E; discriminate|].
    exists output. split; [reflexivity|].
    apply (bin_xl_last_wins _ _ _ _ _ [(1, 0, 1 # 2)]%Q (0, 1, 1 # 10)%Q []
             E eq_refl 0 1).
    + left. split; reflexivity.
    + intros later [].
Defined.

End BinXlOrder.

(** ** The feature configuration and the bookkeeping features *)

Section ConfigAndAnnotate.

(** X16. [make_data_config] looks the mode up in the configuration as a
    whole: for the section names ["common"] and ["supervised"], which have no
    crop size, it raises [AttributeError], and for any other name the
    configuration does not have it raises [KeyError].  For a mode it has, it
    returns a configuration that differs from the given one only in the crop
    size of that mode, which becomes the residue count when it was unset and
    is kept when it was set (the configuration is then unchanged); and the
    feature names are the unsupervised and recycling names, followed by the
    template names when templates are used, the multimer names in multimer
    mode and the supervised names when the mode is supervised. *)
Theorem make_data_config_spec :
  (forall config mode num_res,
     mode = "common" \/ mode = "supervised" ->
     make_data_config config mode num_res = inl (AttributeError "crop_size"))
  /\ (forall config mode num_res,
        mode <> "common" -> mode <> "supervised" ->
        PyDict.get (modes config) mode = None ->
        make_data_config config mode num_res = inl (KeyError mode))
  /\ (forall config mode num_res mc,
        mode <> "common" -> mode <> "supervised" ->
        PyDict.get (modes config) mode = Some mc ->
        exists cfg names,
          make_data_config config mode num_res = inr (cfg, names)
          /\ common cfg = common config
          /\ supervised_features cfg = supervised_features config
          /\ PyDict.get (modes cfg) mode
             = Some (mk_mode (Some (default num_res (crop_size mc)))
                       (supervised mc) (use_clamped_fape_prob mc))
          /\ (forall m, m <> mode ->
                PyDict.get (modes cfg) m = PyDict.get (modes config) m)
          /\ (crop_size mc <> None -> cfg = config)
          /\ names
             = unsupervised_features (common config)
               ++ recycling_features (common config)
               ++ (if use_templates (common config)
                   then template_features (common config) else [])
               ++ (if is_multimer (common config)
                   then multimer_features (common config) else [])
               ++ (if supervised mc
                   then supervised_features config else [])).
Proof.
  split; [|split].
  - intros config mode num_res [-> | ->]; reflexivity.
  - intros config mode num_res Hc Hs H.
    unfold make_data_config, config_getitem, getitem.
    apply String.eqb_neq in Hc, Hs. now rewrite Hc, Hs, H.
  - intros config mode num_res mc Hc Hs H.
    unfold make_data_config, config_getitem, getitem.
    apply String.eqb_neq in Hc, Hs. rewrite Hc, Hs, H.
    cbn [bind ret mode_attr].
    destruct mc as [[c|] sv p]; cbn [crop_size supervised
      use_clamped_fape_prob common modes supervised_features].
    + rewrite ?Hc, ?Hs, ?H. cbn [bind ret mode_attr supervised].
      eexists. eexists. split; [reflexivity|].
      split; [reflexivity|]. split; [reflexivity|].
      split; [exact H|]. split; [reflexivity|]. split; [reflexivity|].
      destruct (use_templates (common config)),
        (is_multimer (common config)), sv;
        rewrite <- ?app_assoc, ?app_nil_r; reflexivity.
    + rewrite ?Hc, ?Hs, PyDictFacts.get_set_eq.
      cbn [bind ret mode_attr supervised].
      eexists. eexists. split; [reflexivity|].
      cbn [common modes supervised_features].
      split; [reflexivity|]. split; [reflexivity|].
      split; [apply PyDictFacts.get_set_eq|]. split.
      * intros m Hm. apply PyDictFacts.get_set_ne. congruence.
      * split; [intros Hn; now contradiction Hn|].
        destruct (use_templates (common config)),
          (is_multimer (common config)), sv;
          rewrite <- ?app_assoc, ?app_nil_r; reflexivity.
Qed.

Lemma make_data_config_spec_witness :
  make_data_config Toy.config "common" 17 = inl (AttributeError "crop_size")
  /\ exists cfg names,
       make_data_config Toy.config "train" 17 = inr (cfg, names)
       /\ PyDict.get (modes cfg) "train"
          = Some (mk_mode (Some 17%Z) true (3 # 4))
       /\ PyDict.get (modes cfg) "eval" = Some (mk_mode None false 1)
       /\ names = ["aatype"; "seq_length"; "num_recycling_iters";
                   "resolution"; "use_clamped_fape"].
Proof.
  split.
  - apply (proj1 make_data_config_spec). now left.
  - destruct (proj2 (proj2 make_data_config_spec) Toy.config "train" 17%Z
                (mk_mode None true (3 # 4)) ltac:(discriminate)
                ltac:(discriminate) eq_refl)
      as (cfg & names & Hrun & _ & _ & Hmode & Hother & _ & Hnames).
    exists cfg, names. split; [exact Hrun|]. split; [exact Hmode|].
    split; [rewrite Hother by discriminate; reflexivity|exact Hnames].
Defined.

Lemma keys_set {V} (d : dict V) k v :
  PyDict.keys (PyDict.set d k v)
  = if PyDict.mem d k then PyDict.keys d else PyDict.keys d ++ [k].
Proof.
  unfold PyDict.mem, PyDict.keys. induction d as [|[k0 v0] d IH]; simpl.
  - reflexivity.
  - destruct (String.eqb_spec k0 k) as [->|Hne]; simpl; [reflexivity|].
    rewrite IH. now destruct (PyDict.get d k).
Qed.

Lemma wf_set {V} (d : dict V) k v :
  PyDict.wf d -> PyDict.wf (PyDict.set d k v).
Proof.
  unfold PyDict.wf. rewrite keys_set.
  destruct (PyDict.mem d k) eqn:E; [auto|].
  intros Hnd. apply NoDup_app. split; [exact Hnd|]. split.
  - intros x Hx Hk. apply list_elem_of_singleton in Hk as ->.
    apply list_elem_of_In, PyDictFacts.mem_keys in Hx. congruence.
  - apply NoDup_singleton.
Qed.

Lemma get_remove_eq {V} (d : dict V) k :
  PyDict.wf d -> PyDict.get (PyDict.remove d k) k = None.
Proof.
  unfold PyDict.wf, PyDict.keys.
  induction d as [|[k0 v0] d IH]; simpl; intros Hnd; [reflexivity|].
  apply NoDup_cons in Hnd as [Hnotin Hnd].
  destruct (String.eqb_spec k0 k) as [->|Hne].
  - destruct (PyDict.get d k) as [v|] eqn:G; [|reflexivity].
    exfalso. apply Hnotin, list_elem_of_In.
    apply (PyDictFacts.mem_keys d k). unfold PyDict.mem. now rewrite G.
  - simpl. destruct (String.eqb_spec k0 k); [contradiction|]. now apply IH.
Qed.

(** X17. Outside train mode the head of [process] draws nothing: it writes
    the maximal recycling count and the clamp flag 1, whatever the seed and
    batch index. In train mode a missing batch index is an [AssertionError]
    raised before any draw. In every mode the distillation flag is stored,
    all features other than the three bookkeeping ones and [msa_chains] are
    kept as they were, and [msa_chains] is removed in distillation mode and
    kept otherwise. *)
Theorem process_annotate_modes :
  (forall (N : NumpyRandom) config mode features seed batch_idx d g,
     mode <> "train" ->
     process_annotate N config mode features seed batch_idx d g
     = (inr (annotate features (max_recycling_iters (common config)) true d),
        g))
  /\ (forall (N : NumpyRandom) config features seed d g,
        process_annotate N config "train" features seed None d g
        = (inl (AssertionError ""), g))
  /\ (forall features n c d,
        PyDict.get (annotate features n c d) "is_distillation"
        = Some (VInt (Z.b2z d))
        /\ (forall k,
              k <> "num_recycling_iters" -> k <> "use_clamped_fape" ->
              k <> "is_distillation" -> k <> "msa_chains" ->
              PyDict.get (annotate features n c d) k = PyDict.get features k)
        /\ (d = false ->
            PyDict.get (annotate features n c d) "msa_chains"
            = PyDict.get features "msa_chains")
        /\ (d = true -> PyDict.wf features ->
            PyDict.get (annotate features n c d) "msa_chains" = None)).
Proof.
  split; [|split].
  - intros N config mode features seed batch_idx d g Hm.
    unfold process_annotate, recycling_draw.
    destruct (String.eqb_spec mode "train"); [contradiction|]. reflexivity.
  - intros N config features seed d g. reflexivity.
  - intros features n c d. split; [|split; [|split]].
    + rewrite annotate_get; [|discriminate]. apply PyDictFacts.get_set_eq.
    + intros k H1 H2 H3 H4. rewrite annotate_get by exact H4.
      rewrite !PyDictFacts.get_set_ne by congruence. reflexivity.
    + intros ->. unfold annotate. cbn [andb].
      rewrite !PyDictFacts.get_set_ne by discriminate. reflexivity.
    + intros -> Hwf. unfold annotate. cbn [andb].
      destruct (PyDict.mem _ "msa_chains") eqn:E.
      * apply get_remove_eq. now do 3 apply wf_set.
      * unfold PyDict.mem in E.
        now destruct (PyDict.get _ "msa_chains").
Qed.

Lemma process_annotate_modes_witness :
  process_annotate Toy.random Toy.config "eval" [("msa_chains", VInt 1)] 7
    None true 42%Z
  = (inr [("num_recycling_iters", VInt 3); ("use_clamped_fape", VInt 1);
          ("is_distillation", VInt 1)], 42%Z)
  /\ PyDict.get
       (annotate [("msa_chains", VInt 1); ("aatype", VInt 0)] 3 true true)
       "msa_chains" = None.
Proof.
  split.
  - rewrite (proj1 process_annotate_modes); [reflexivity|discriminate].
  - apply (proj2 (proj2 process_annotate_modes)); [reflexivity|].
    repeat (constructor;
              [rewrite list_elem_of_In; simpl; intuition discriminate|]).
    constructor.
Defined.

End ConfigAndAnnotate.

(** ** The multimer dataset: what its constructor leaves behind *)

Section MultimerDataset.
Import UnifoldDataset UnifoldMultimerDataset.

Tactic Notation "peel" hyp(H) "as" ident(a) ident(Ha) :=
  apply bind_inr in H as (a & Ha & H).

Lemma survives_mono pc pa (m m' : Z) inv pdb :
  (m <= m')%Z ->
  survives pc pa m inv pdb = true -> survives pc pa m' inv pdb = true.
Proof.
  intros Hm. unfold survives.
  destruct (PyDict.get pa pdb) as [a|]; [|auto].
  rewrite !andb_true_iff. intros [Hs Hall]. split; [|exact Hall].
  apply Z.leb_le in Hs. apply Z.leb_le. lia.
Qed.

(** The filter as a whole, through [filter_loop_spec]. *)
Lemma filter_run pc pa (sw : dict Q) m inv new sw1 :
  filter_pdb_by_max_chains pc pa sw m inv = inr (new, sw1) ->
  (forall pdb,
     PyDict.get new pdb
     = if survives pc pa m inv pdb then PyDict.get pc pdb else None)
  /\ sw1 = PyDict.filter_keys
             (fun k => PyDict.mem new (get_pdb_name k)) sw.
Proof.
  unfold filter_pdb_by_max_chains. intros H. peel H as new0 Hloop.
  injection H as <- <-. split; [|reflexivity].
  destruct (filter_loop_spec pc pa m inv (PyDict.keys pc) PyDict.empty)
    as (new' & Hrun & Hspec).
  { intros k Hk. now apply PyDictFacts.mem_keys. }
  rewrite Hrun in Hloop. injection Hloop as ->.
  intros pdb. rewrite Hspec.
  destruct (survives pc pa m inv pdb); [|now rewrite andb_false_r].
  rewrite andb_true_r.
  destruct (existsb (String.eqb pdb) (PyDict.keys pc)) eqn:E; [reflexivity|].
  cbn [PyDict.get PyDict.empty]. symmetry.
  destruct (PyDict.get pc pdb) as [l|] eqn:G; [|reflexivity].
  assert (Hm : PyDict.mem pc pdb = true) by (apply PyDictFacts.mem_get; eauto).
  apply PyDictFacts.mem_keys, existsb_eqb_In in Hm. congruence.
Qed.

(** X18. Raising [max_chains] never loses data: whatever structure the
    filter keeps under a cap it keeps, with the same chain list, under every
    larger cap, and likewise every chain of the new weight table stays, with
    the same weight, which is the weight it had before the filter. *)
Theorem filter_pdb_by_max_chains_mono :
  forall (pdb_chains : dict (list string)) (pdb_assembly : dict Assembly)
         (sample_weight : dict Q) (inverse_labels : dict string)
         (m m' : Z) new sw1 new' sw1',
    (m <= m')%Z ->
    filter_pdb_by_max_chains pdb_chains pdb_assembly sample_weight m
      inverse_labels = inr (new, sw1) ->
    filter_pdb_by_max_chains pdb_chains pdb_assembly sample_weight m'
      inverse_labels = inr (new', sw1') ->
    (forall pdb l, PyDict.get new pdb = Some l ->
                   PyDict.get new' pdb = Some l)
    /\ (forall chain w, PyDict.get sw1 chain = Some w ->
                        PyDict.get sw1' chain = Some w
                        /\ PyDict.get sample_weight chain = Some w).
Proof.
  intros pc pa sw inv m m' new sw1 new' sw1' Hm H H'.
  apply filter_run in H as (Hn & ->). apply filter_run in H' as (Hn' & ->).
  assert (Hkeep : forall pdb l, PyDict.get new pdb = Some l ->
                                PyDict.get new' pdb = Some l).
  { intros pdb l. rewrite Hn, Hn'.
    destruct (survives pc pa m inv pdb) eqn:S; [|discriminate].
    now rewrite (survives_mono _ _ _ _ _ _ Hm S). }
  split; [exact Hkeep|].
  intros chain w. rewrite !PyDictFacts.get_filter_keys.
  destruct (PyDict.mem new (get_pdb_name chain)) eqn:E; [|discriminate].
  apply PyDictFacts.mem_get in E as [l Hl]. apply Hkeep in Hl.
  assert (E' : PyDict.mem new' (get_pdb_name chain) = true)
    by (apply PyDictFacts.mem_get; eauto).
  rewrite E'. auto.
Qed.

Lemma filter_pdb_by_max_chains_mono_witness :
  PyDict.get [("1abc", ["1abc_A"; "1abc_B"]); ("2xyz", ["2xyz_A"; "2xyz_B"])]
    "1abc"
  = Some ["1abc_A"; "1abc_B"].
Proof.
  refine (proj1 (filter_pdb_by_max_chains_mono
            [("1abc", ["1abc_A"; "1abc_B"]); ("2xyz", ["2xyz_A"; "2xyz_B"])]
            [("1abc", mk_assembly ["A"; "B"] [OpStr "I"; OpStr "I"]);
             ("2xyz", mk_assembly ["A"; "B"; "C"] [OpStr "I"])]
            [("1abc_A", 1%Q); ("2xyz_A", 2%Q)]
            [("1abc_A", "s1"); ("1abc_B", "s2"); ("2xyz_A", "s3");
             ("2xyz_B", "s4"); ("2xyz_C", "s5")]
            2 3 _ _ _ _ _ _ _) "1abc" _ _);
    [lia|reflexivity|reflexivity|reflexivity].
Defined.

(** What the subclass constructor establishes, as a shared fact. *)
Lemma multimer_init_facts F fs world_size args seed0 config_data dpath mode0
    max_step disable_sd json_prefix mds :
  UnifoldMultimerDataset.__init__ F fs world_size args seed0 config_data dpath
    mode0 max_step disable_sd json_prefix = inr mds ->
  exists b pc0,
    UnifoldDataset.__init__ F fs world_size args seed0 config_data dpath mode0
      max_step disable_sd json_prefix = inr b
    /\ get_chains (inverse_multi_label b) = inr pc0
    /\ inverse_multi_label (base mds) = inverse_multi_label b
    /\ mode (base mds) = mode b
    /\ chain_keys (base mds) = PyDict.keys (sample_weight (base mds))
    /\ if String.eqb (mode b) "train"
       then filter_pdb_by_max_chains pc0 (pdb_assembly mds) (sample_weight b)
              (max_chains args) (inverse_multi_label b)
            = inr (pdb_chains mds, sample_weight (base mds))
       else pdb_chains mds = pc0
            /\ sample_weight (base mds) = sample_weight b.
Proof.
  intros H. unfold UnifoldMultimerDataset.__init__ in H.
  peel H as b Hb. peel H as pa Hpa. peel H as pc0 Hpc.
  exists b, pc0. split; [exact Hb|]. split; [exact Hpc|].
  destruct (init_facts _ _ _ _ _ _ _ _ _ _ _ _ Hb)
    as (_ & _ & _ & _ & _ & Hck & _).
  destruct (String.eqb (mode b) "train") eqn:Em.
  - peel H as r Hf. destruct r as [pc1 sw1].
    peel H as c Hc. destruct c as [[n ks] ps].
    injection H as <-. cbn.
    apply cal_sample_weight_inr in Hc as (-> & _ & _).
    repeat split; auto.
  - injection H as <-. cbn. repeat split; auto.
Qed.

Lemma mapM_getitem_total (d : dict string) (l : list string) :
  (forall x, In x l -> PyDict.mem d x = true) ->
  exists bs, mapM (fun c => getitem d c) l = inr bs.
Proof.
  induction l as [|x l IH]; intros Hl; [now exists []|].
  destruct IH as [bs Hbs]; [intros y Hy; apply Hl; now right|].
  destruct (proj1 (PyDictFacts.mem_get d x) (Hl x (or_introl eq_refl)))
    as [v Hv].
  exists (v :: bs). cbn [mapM]. unfold getitem at 1. rewrite Hv.
  cbn [bind ret]. rewrite Hbs. reflexivity.
Qed.

(** The chain lists of [get_chains], exactly: under each structure the
    chains of the work list with that structure name, in the order of the
    list, after those listed before. *)
Lemma get_chains_loop_list chains :
  forall acc : dict (list string),
    exists acc',
      get_chains_loop chains acc = inr acc'
      /\ forall pdb,
           PyDict.get acc' pdb
           = match PyDict.get acc pdb,
                   List.filter (fun c => String.eqb (get_pdb_name c) pdb)
                     chains with
             | None, [] => None
             | o, l => Some (default [] o ++ l)
             end.
Proof.
  induction chains as [|chain rest IH]; intros acc.
  - exists acc. split; [reflexivity|]. intros pdb. cbn [List.filter].
    destruct (PyDict.get acc pdb) as [l|]; [|reflexivity].
    now rewrite app_nil_r.
  - cbn [get_chains_loop].
    set (pdb0 := get_pdb_name chain).
    set (acc1 := if negb (PyDict.mem acc pdb0)
                 then PyDict.set acc pdb0 [] else acc).
    assert (H1 : PyDict.get acc1 pdb0
                 = Some (default [] (PyDict.get acc pdb0))
                 /\ forall p, p <> pdb0 ->
                      PyDict.get acc1 p = PyDict.get acc p).
    { unfold acc1, PyDict.mem.
      destruct (PyDict.get acc pdb0) as [l|] eqn:G; cbn [negb default].
      - split; [exact G|reflexivity].
      - split; [apply PyDictFacts.get_set_eq|].
        intros p Hp. apply PyDictFacts.get_set_ne. congruence. }
    destruct H1 as [G1 Hother].
    unfold getitem. rewrite G1. cbn [bind ret].
    destruct (IH (PyDict.set acc1 pdb0
                    (default [] (PyDict.get acc pdb0) ++ [chain])))
      as (acc' & Hrun & Hget).
    exists acc'. split; [exact Hrun|].
    intros pdb. rewrite Hget, PyDictFacts.get_set. cbn [List.filter].
    fold pdb0. rewrite (String.eqb_sym pdb0 pdb).
    destruct (String.eqb_spec pdb pdb0) as [->|Hp].
    + destruct (PyDict.get acc pdb0) as [l0|]; unfold default; cbn [id];
        now rewrite <- app_assoc.
    + now rewrite Hother.
Qed.

(** X19. On a constructed multimer dataset the id resolution of
    [__getitem__] cannot fail with a [KeyError]: for every chain of
    [chain_keys] (the only labels [sample_chain] hands out) it returns label
    ids with one sequence id per label id, each the owner of its label in
    the inverse label map.  Which label ids and operations it returns is
    fixed as follows.  In train mode, a structure listed in the assembly map
    gives the chains of its assembly, as [pdb_chain], with the operations of
    the assembly, and these are at most [max_chains]; a structure not listed
    there gives the sampled chain alone, without operations.  Outside train
    mode it gives, without operations, exactly the chains of the inverse
    label map that carry the structure name of the sampled chain, in the
    order of the map, the sampled chain among them. *)
Theorem resolve_ids_total :
  forall F fs world_size args seed0 config_data dpath mode0 max_step
         disable_sd json_prefix mds,
    UnifoldMultimerDataset.__init__ F fs world_size args seed0 config_data
      dpath mode0 max_step disable_sd json_prefix = inr mds ->
    forall label_id,
      In label_id (chain_keys (base mds)) ->
      let pdb_id := get_pdb_name label_id in
      exists label_ids ops sequence_ids,
        resolve_ids mds label_id = inr (label_ids, ops, sequence_ids)
        /\ Forall2 (fun l s =>
                      PyDict.get (inverse_multi_label (base mds)) l = Some s)
             label_ids sequence_ids
        /\ (mode0 = "train" ->
            match PyDict.get (pdb_assembly mds) pdb_id with
            | Some a =>
                label_ids
                = map (fun id => (pdb_id ++ "_" ++ id)%string) (chains a)
                /\ ops = Some (opers a)
                /\ (Z.of_nat (length label_ids) <= max_chains args)%Z
            | None => label_ids = [label_id] /\ ops = None
            end)
        /\ (mode0 <> "train" ->
            label_ids
            = List.filter (fun c => String.eqb (get_pdb_name c) pdb_id)
                (PyDict.keys (inverse_multi_label (base mds)))
            /\ ops = None
            /\ In label_id label_ids).
Proof.
  intros F fs world_size args seed0 config_data dpath mode0 max_step
    disable_sd json_prefix mds H label_id Hin pdb_id.
  destruct (multimer_init_facts _ _ _ _ _ _ _ _ _ _ _ _ H)
    as (b & pc0 & Hb & Hpc & Hinv & Hmode & Hck & Hcase).
  destruct (init_facts _ _ _ _ _ _ _ _ _ _ _ _ Hb)
    as (Hm & _ & _ & _ & Hcw & _).
  destruct (chain_weights_spec _ _ _ _ _ Hcw) as (Hmem & _ & _).
  unfold get_chains in Hpc.
  destruct (get_chains_loop_list (PyDict.keys (inverse_multi_label b))
              PyDict.empty) as (pc0' & Hrun & Hlist).
  rewrite Hrun in Hpc. injection Hpc as ->.
  cbn [PyDict.get PyDict.empty] in Hlist.
  set (inv := inverse_multi_label b) in *.
  set (structure := fun pdb =>
         List.filter (fun c => String.eqb (get_pdb_name c) pdb)
           (PyDict.keys inv)).
  assert (Hget : forall pdb l,
            PyDict.get pc0 pdb = Some l -> l = structure pdb).
  { intros pdb l. rewrite Hlist. fold (structure pdb).
    destruct (structure pdb); [discriminate|]. now intros [= <-]. }
  assert (Hlisted : forall pdb c,
            In c (structure pdb) -> PyDict.mem inv c = true).
  { intros pdb c Hc. apply filter_In in Hc as [Hc _].
    now apply PyDictFacts.mem_keys. }
  assert (Hfinish : forall label_ids (ops : option (list Operation)),
            (forall c, In c label_ids -> PyDict.mem inv c = true) ->
            exists sequence_ids,
              (let* sequence_ids :=
                 mapM (fun chain_id =>
                         getitem (inverse_multi_label (base mds)) chain_id)
                      label_ids in
               ret (label_ids, ops, sequence_ids))
              = inr (label_ids, ops, sequence_ids)
              /\ Forall2 (fun l s =>
                            PyDict.get (inverse_multi_label (base mds)) l
                            = Some s) label_ids sequence_ids).
  { intros label_ids ops Hall. rewrite Hinv. fold inv.
    destruct (mapM_getitem_total _ _ Hall) as [bs Hbs].
    exists bs. rewrite Hbs. split; [reflexivity|].
    eapply mapM_Forall2; [|exact Hbs].
    intros a s0. unfold getitem.
    destruct (PyDict.get inv a); [|discriminate].
    now intros [= ->]. }
  unfold resolve_ids. fold pdb_id. rewrite Hmode, Hm. rewrite Hm in Hcase.
  rewrite Hck in Hin. apply PyDictFacts.mem_keys in Hin.
  destruct (String.eqb_spec mode0 "train") as [Htrain|Heval].
  - apply filter_run in Hcase as (Hnew & Hsw).
    rewrite Hsw in Hin. apply PyDictFacts.mem_get in Hin as [w Hw].
    rewrite PyDictFacts.get_filter_keys in Hw. fold pdb_id in Hw.
    destruct (PyDict.mem (pdb_chains mds) pdb_id) eqn:Ek; [|discriminate].
    assert (Hlab : PyDict.mem inv label_id = true).
    { assert (Hsw0 : PyDict.mem (sample_weight b) label_id = true)
        by (apply PyDictFacts.mem_get; eauto).
      rewrite Hmem in Hsw0. cbn [PyDict.mem PyDict.get PyDict.empty] in Hsw0.
      rewrite orb_false_r in Hsw0.
      apply PyDictFacts.mem_keys. now apply existsb_eqb_In. }
    apply PyDictFacts.mem_get in Ek as [l Hl].
    pose proof Hl as Hl0. rewrite Hnew in Hl0.
    destruct (survives pc0 (pdb_assembly mds) (max_chains args) inv pdb_id)
      eqn:Es; [|discriminate].
    unfold survives in Es.
    destruct (PyDict.get (pdb_assembly mds) pdb_id) as [a|] eqn:Ea.
    + assert (Hma : PyDict.mem (pdb_assembly mds) pdb_id = true)
        by (apply PyDictFacts.mem_get; eauto).
      rewrite Hma. cbn [andb]. unfold getitem at 1 2. rewrite Ea.
      cbn [bind ret].
      apply andb_true_iff in Es as [Hsize Hall].
      rewrite forallb_forall in Hall.
      destruct (Hfinish
                  (map (fun id => (pdb_id ++ "_" ++ id)%string) (chains a))
                  (Some (opers a))) as (sids & Hr & HF).
      { intros c Hc. apply in_map_iff in Hc as (id & <- & Hid).
        now apply Hall. }
      eexists _, _, sids. split; [exact Hr|]. split; [exact HF|].
      split; [|intros Hne; contradiction].
      intros _. split; [reflexivity|]. split; [reflexivity|].
      rewrite length_map. now apply Z.leb_le.
    + assert (Hma : PyDict.mem (pdb_assembly mds) pdb_id = false)
        by (unfold PyDict.mem; now rewrite Ea).
      rewrite Hma. cbn [andb]. unfold getitem at 1. rewrite Hl.
      cbn [bind ret].
      pose proof (Hget _ _ Hl0) as Hstruct.
      rewrite Hl0 in Es. apply Nat.eqb_eq in Es.
      assert (Hone : l = [label_id]).
      { assert (Hin' : In label_id l).
        { rewrite Hstruct. apply filter_In. split.
          - now apply PyDictFacts.mem_keys.
          - apply String.eqb_refl. }
        destruct l as [|c [|c' l']]; simpl in Es; try discriminate.
        destruct Hin' as [->|[]]. reflexivity. }
      destruct (Hfinish l None) as (sids & Hr & HF).
      { intros c Hc. apply (Hlisted pdb_id). now rewrite <- Hstruct. }
      eexists _, _, sids. split; [exact Hr|]. split; [exact HF|].
      split; [|intros Hne; contradiction]. intros _.
      split; [exact Hone|reflexivity].
  - destruct Hcase as (Hpc & Hsw).
    rewrite andb_false_r. rewrite Hsw, Hmem in Hin.
    cbn [PyDict.mem PyDict.get PyDict.empty] in Hin.
    rewrite orb_false_r in Hin. apply existsb_eqb_In in Hin.
    assert (Hin' : In label_id (structure pdb_id)).
    { apply filter_In. split; [exact Hin|apply String.eqb_refl]. }
    assert (Hl : PyDict.get pc0 pdb_id = Some (structure pdb_id)).
    { rewrite Hlist. fold (structure pdb_id).
      destruct (structure pdb_id); [destruct Hin'|reflexivity]. }
    rewrite Hpc. unfold getitem at 1. rewrite Hl. cbn [bind ret].
    destruct (Hfinish (structure pdb_id) None) as (sids & Hr & HF).
    { intros c Hc. now apply (Hlisted pdb_id). }
    eexists _, _, sids. split; [exact Hr|]. split; [exact HF|].
    split; [intros Ht; contradiction|]. intros _. rewrite Hinv.
    split; [reflexivity|]. split; [reflexivity|exact Hin'].
Qed.

Lemma resolve_ids_total_witness :
  exists mds sequence_ids,
    UnifoldMultimerDataset.__init__ Toy.pyfloat ToyData.files 1 ToyData.args
      7 Toy.config "data" "train" None false "" = inr mds
    /\ resolve_ids mds "1abc_A"
       = inr (["1abc_A"; "1abc_B"], Some [OpStr "I"; OpStr "I"],
              sequence_ids)
    /\ Forall2 (fun l s =>
                  PyDict.get (inverse_multi_label (base mds)) l = Some s)
         ["1abc_A"; "1abc_B"] sequence_ids.
Proof.
  destruct (UnifoldMultimerDataset.__init__ Toy.pyfloat ToyData.files 1
              ToyData.args 7 Toy.config "data" "train" None false "")
    as [e|mds] eqn:E; [vm_compute in E; discriminate|].
  destruct (resolve_ids_total _ _ _ _ _ _ _ _ _ _ _ mds E "1abc_A")
    as (label_ids & ops & sids & Hr & HF & Htrain & _).
  - vm_compute in E. injection E as <-. vm_compute. auto.
  - specialize (Htrain eq_refl).
    assert (Ea : PyDict.get (pdb_assembly mds) (get_pdb_name "1abc_A")
                 = Some (mk_assembly ["A"; "B"] [OpStr "I"; OpStr "I"]))
      by (vm_compute in E; injection E as <-; reflexivity).
    rewrite Ea in Htrain. destruct Htrain as (-> & -> & _).
    exists mds, sids. auto.
Defined.

End MultimerDataset.

(** ** Fetching one example *)

Section GetItem.
Import UnifoldDataset.

Lemma never_in_io {R A} (c : M io_state A) :
  never_returns c -> never_returns (@in_io R A c).
Proof.
  intros Hc [s g]. unfold in_io. destruct (Hc s) as [e He].
  destruct (c s) as [r s']. simpl in He. subst r. now exists e.
Qed.

(** Without [is_monomer] the assembly builder stops at [post_process]. *)
Lemma load_never_returns_multimer {N} (E : Externals N) disk sequence_ids
    monomer_feature_dir uniprot_msa_dir label_ids label_dir
    symmetry_operations :
  never_returns
    (load E disk sequence_ids monomer_feature_dir uniprot_msa_dir label_ids
       label_dir symmetry_operations false).
Proof.
  unfold load.
  do 5 (apply never_bind_r; intros ?).
  apply never_bind_l. intros s. cbn [st_lift fst].
  destruct (pair_and_merge E _); simpl; eauto.
Qed.

(** X20. The multimer dataset cannot produce an example: whatever the
    dataset, the index and the contents of the disk, its [__getitem__]
    raises.  The cause is [load_and_process], which raises whenever the
    [is_monomer] it hands to [load] is false, be it passed as [False] or
    left out with [is_distillation] false. *)
Theorem multimer_getitem_never_returns :
  forall (N : NumpyRandom) (E : Externals N)
         (disk : string -> option NumpyDict),
    (forall (self : UnifoldMultimerDataset.t) (idx : Z),
       never_returns (multimer_getitem E disk self idx))
    /\ (forall config mode0 seed0 batch_idx data_idx is_distillation kw,
          match kw_is_monomer kw with
          | None => is_distillation
          | Some b => b
          end = false ->
          never_returns
            (load_and_process E disk config mode0 seed0 batch_idx data_idx
               is_distillation kw)).
Proof.
  intros N E disk.
  assert (Hlp : forall config mode0 seed0 batch_idx data_idx is_distillation
                       kw,
            match kw_is_monomer kw with
            | None => is_distillation
            | Some b => b
            end = false ->
            never_returns
              (load_and_process E disk config mode0 seed0 batch_idx data_idx
                 is_distillation kw)).
  { intros config mode0 seed0 batch_idx data_idx is_distillation kw Hm.
    unfold load_and_process. rewrite Hm.
    apply never_bind_l, never_in_io, load_never_returns_multimer. }
  split; [|exact Hlp].
  intros self idx. unfold multimer_getitem.
  apply never_bind_r. intros [[seq_id label_id] is_distillation].
  apply never_bind_r.
  intros [[[[[label_ids sequence_ids] mfp] ump] lp] ops].
  apply never_bind_r. intros batch_idx.
  apply Hlp. reflexivity.
Qed.

Lemma multimer_getitem_never_returns_witness :
  exists e,
    fst (load_and_process Toy.externals ToyDisk.disk Toy.config "eval" 7 None
           None false
           (mk_kwargs ["seqA"] "feat" None None None None None)
           (ToyDisk.fresh, 5%Z))
    = inl e.
Proof.
  apply (proj2 (multimer_getitem_never_returns Toy.random Toy.externals
                  ToyDisk.disk)).
  reflexivity.
Defined.

(** Outside train mode [sample_chain] reads the chain at [idx]. *)
Lemma sample_chain_outside_train F fs world_size args seed0 config_data
    data_path mode0 max_step disable_sd json_prefix ds :
  UnifoldDataset.__init__ F fs world_size args seed0 config_data data_path
    mode0 max_step disable_sd json_prefix = inr ds ->
  mode0 <> "train" ->
  forall (N : NumpyRandom) (idx : Z) (sample_by_seq : bool),
    (0 <= idx < Z.of_nat (num_chain ds))%Z ->
    exists label seq,
      nth_error (chain_keys ds) (Z.to_nat idx) = Some label
      /\ PyDict.get (inverse_multi_label ds) label = Some seq
      /\ forall g : rng_state N,
           sample_chain N ds idx sample_by_seq g
           = (inr (seq, label, false), g).
Proof.
  intros H Hmode N idx sbs Hidx.
  destruct (init_facts _ _ _ _ _ _ _ _ _ _ _ _ H)
    as (Hm & _ & _ & _ & Hcw & Hck & Hnc & _).
  destruct (chain_weights_spec _ _ _ _ _ Hcw) as (Hmem & _ & _).
  unfold sample_chain. rewrite Hm.
  destruct (String.eqb_spec mode0 "train") as [?|_]; [contradiction|].
  rewrite Hnc in *. unfold list_getitem.
  destruct (Z.ltb_spec idx 0); [lia|].
  destruct (Z.leb_spec 0 idx); [|lia].
  destruct (Z.ltb_spec idx (Z.of_nat (length (chain_keys ds)))); [|lia].
  cbn [andb].
  destruct (nth_error (chain_keys ds) (Z.to_nat idx)) as [label|] eqn:En.
  2:{ apply nth_error_None in En. lia. }
  assert (Hin : PyDict.mem (inverse_multi_label ds) label = true).
  { apply nth_error_In in En. rewrite Hck in En.
    apply PyDictFacts.mem_keys in En. rewrite Hmem in En.
    cbn [PyDict.mem PyDict.get PyDict.empty] in En.
    rewrite orb_false_r in En.
    apply PyDictFacts.mem_keys. now apply existsb_eqb_In. }
  apply PyDictFacts.mem_get in Hin as [seq Hseq].
  exists label, seq. split; [reflexivity|]. split; [exact Hseq|].
  intros g. rewrite st_bind_ret_lift. unfold getitem. rewrite Hseq.
  rewrite st_bind_ret_lift. reflexivity.
Qed.

(** X21. Outside train mode, on a constructed dataset and for an index
    below the number of chains, [UnifoldDataset.__getitem__] is the features
    of one [load_and_process] call: for the chain at that index and the
    sequence that owns it, read from [feature_path] and [label_path] in
    monomer mode with no symmetry operation, never as a distillation sample
    (so the self-distillation attributes are not touched), with batch index
    [idx // batch_size].  With a batch size of zero it raises
    [ZeroDivisionError] before anything is read. *)
Theorem base_getitem_eval :
  forall F fs world_size args seed0 config_data data_path mode0 max_step
         disable_sd json_prefix ds,
    UnifoldDataset.__init__ F fs world_size args seed0 config_data data_path
      mode0 max_step disable_sd json_prefix = inr ds ->
    mode0 <> "train" ->
    forall (N : NumpyRandom) (E : Externals N)
           (disk : string -> option NumpyDict) (idx : Z),
      (0 <= idx < Z.of_nat (num_chain ds))%Z ->
      exists label seq,
        nth_error (chain_keys ds) (Z.to_nat idx) = Some label
        /\ PyDict.get (inverse_multi_label ds) label = Some seq
        /\ forall (s : io_state) (g : rng_state N),
             base_getitem E disk ds idx (s, g)
             = if (ds_batch_size ds =? 0)%Z
               then (inl ZeroDivisionError, (s, g))
               else
                 let '(r, sg) :=
                   load_and_process E disk (config ds) mode0 (seed ds)
                     (Some (idx / ds_batch_size ds)%Z) (Some idx) false
                     (mk_kwargs [seq] (feature_path ds) None (Some [label])
                        (Some (label_path ds)) None (Some true)) (s, g) in
                 (match r with
                  | inl e => inl e
                  | inr (features, _) => inr features
                  end, sg).
Proof.
  intros F fs world_size args seed0 config_data data_path mode0 max_step
    disable_sd json_prefix ds H Hmode N E disk idx Hidx.
  destruct (init_facts _ _ _ _ _ _ _ _ _ _ _ _ H) as (Hm & _).
  destruct (sample_chain_outside_train _ _ _ _ _ _ _ _ _ _ _ _ H Hmode N idx
              true Hidx) as (label & seq & Hn & Hs & Hrun).
  exists label, seq. split; [exact Hn|]. split; [exact Hs|].
  intros s g. unfold base_getitem. rewrite st_bind_unfold.
  unfold in_rng at 1. rewrite Hrun. cbn [negb].
  rewrite st_bind_ret_lift. unfold floordiv.
  destruct (ds_batch_size ds =? 0)%Z; [reflexivity|].
  rewrite st_bind_ret_lift, st_bind_unfold, Hm.
  destruct (load_and_process _ _ _ _ _ _ _ _ _ _) as [[e|[f l]] sg];
    reflexivity.
Qed.

Lemma base_getitem_eval_witness :
  exists ds label seq,
    UnifoldDataset.__init__ Toy.pyfloat eval_files 1 ToyData.args 7 Toy.config "d" "eval"
      None false "" = inr ds
    /\ nth_error (chain_keys ds) (Z.to_nat 1) = Some label
    /\ PyDict.get (inverse_multi_label ds) label = Some seq.
Proof.
  destruct (UnifoldDataset.__init__ Toy.pyfloat eval_files 1 ToyData.args 7 Toy.config
              "d" "eval" None false "") as [e|ds] eqn:H;
    [vm_compute in H; discriminate|].
  destruct (base_getitem_eval _ _ _ _ _ _ _ _ _ _ _ _ H ltac:(discriminate)
              Toy.random Toy.externals ToyDisk.disk 1%Z)
    as (label & seq & Hn & Hs & _).
  - vm_compute in H. injection H as <-. simpl. lia.
  - exists ds, label, seq. auto.
Defined.

End GetItem.

(** ** The cross-link table *)

Section CrossLinkFeatures.

Lemma list_getitem_nat {A} (l : list A) (i : nat) (a : A) :
  nth_error l i = Some a -> list_getitem l (Z.of_nat i) = inr a.
Proof.
  intros H. assert (Hi : i < length l) by (apply nth_error_Some; congruence).
  unfold list_getitem.
  destruct (Z.ltb_spec (Z.of_nat i) 0); [lia|].
  destruct (Z.leb_spec 0 (Z.of_nat i)); [|lia].
  destruct (Z.ltb_spec (Z.of_nat i) (Z.of_nat (length l))); [|lia].
  cbn [andb]. rewrite Nat2Z.id, H. reflexivity.
Qed.

Lemma shift_links_spec offsets i j oi oj links :
  nth_error offsets i = Some oi -> nth_error offsets j = Some oj ->
  shift_links offsets i j links = inr (map (shifted oi oj) links).
Proof.
  intros Hi Hj. unfold shift_links.
  induction links as [|[[s e] f] links IH]; [reflexivity|].
  cbn [mapM map]. rewrite IH.
  rewrite (list_getitem_nat _ _ _ Hi), (list_getitem_nat _ _ _ Hj).
  reflexivity.
Qed.

Lemma xl_inner_spec xl offsets i oi chain1 descriptions :
  nth_error offsets i = Some oi ->
  forall j,
    j + length descriptions <= length offsets ->
    exists rows,
      xl_inner xl offsets i chain1 j descriptions = inr rows
      /\ forall row,
           In row rows <->
           exists k chain2 r links link oj,
             nth_error descriptions k = Some chain2
             /\ PyDict.get xl chain1 = Some r
             /\ PyDict.get r chain2 = Some links
             /\ In link links
             /\ nth_error offsets (j + k) = Some oj
             /\ row = shifted oi oj link.
Proof.
  intros Hi. induction descriptions as [|chain2 rest IH]; intros j Hlen.
  - exists []. split; [reflexivity|]. intros row. split; [intros []|].
    intros (k & c & _ & _ & _ & _ & Hk & _). now destruct k.
  - cbn [length] in Hlen.
    destruct (IH (S j)) as (more & Hmore & Hspec); [lia|].
    destruct (nth_error offsets j) as [oj|] eqn:Hj.
    2:{ apply nth_error_None in Hj. lia. }
    assert (Hhere : exists here,
      match PyDict.get xl chain1 with
      | Some row =>
          match PyDict.get row chain2 with
          | Some links => shift_links offsets i j links
          | None => ret []
          end
      | None => ret []
      end = inr here
      /\ forall row,
           In row here <->
           exists r links link,
             PyDict.get xl chain1 = Some r /\ PyDict.get r chain2 = Some links
             /\ In link links /\ row = shifted oi oj link).
    { destruct (PyDict.get xl chain1) as [r|] eqn:G1.
      - destruct (PyDict.get r chain2) as [links|] eqn:G2.
        + rewrite (shift_links_spec _ _ _ _ _ _ Hi Hj). eexists.
          split; [reflexivity|]. intros row. rewrite in_map_iff. split.
          * intros (link & <- & Hl). exists r, links, link. auto.
          * intros (r' & links' & link & E1 & E2 & Hl & ->).
            injection E1 as <-. rewrite G2 in E2. injection E2 as <-.
            exists link. auto.
        + exists []. split; [reflexivity|]. intros row. split; [intros []|].
          intros (r' & links' & link & E1 & E2 & _).
          injection E1 as <-. rewrite G2 in E2. discriminate.
      - exists []. split; [reflexivity|]. intros row. split; [intros []|].
        intros (r' & links' & link & [=] & _). }
    destruct Hhere as (here & Hh & Hhspec).
    exists (here ++ more). cbn [xl_inner]. rewrite Hh. cbn [bind ret].
    rewrite Hmore. split; [reflexivity|].
    intros row. rewrite in_app_iff, Hhspec, Hspec. split.
    + intros [(r & links & link & G1 & G2 & Hl & ->)
             |(k & c & r & links & link & oj' & Hk & G1 & G2 & Hl & Ho & ->)].
      * exists 0, chain2, r, links, link, oj. rewrite Nat.add_0_r. auto 8.
      * exists (S k), c, r, links, link, oj'.
        rewrite <- plus_n_Sm. auto 8.
    + intros (k & c & r & links & link & oj' & Hk & G1 & G2 & Hl & Ho & ->).
      destruct k as [|k].
      * left. cbn in Hk. injection Hk as <-. rewrite Nat.add_0_r in Ho.
        rewrite Hj in Ho. injection Ho as <-. eauto 8.
      * right. exists k, c, r, links, link, oj'.
        rewrite <- plus_n_Sm in Ho. auto 8.
Qed.

Lemma xl_outer_spec xl offsets descriptions :
  length descriptions <= length offsets ->
  forall todo i,
    i + length todo <= length offsets ->
    exists rows,
      xl_outer xl offsets i todo descriptions = inr rows
      /\ forall row,
           In row rows <->
           exists k1 chain1 k2 chain2 r links link oi oj,
             nth_error todo k1 = Some chain1
             /\ nth_error descriptions k2 = Some chain2
             /\ PyDict.get xl chain1 = Some r
             /\ PyDict.get r chain2 = Some links
             /\ In link links
             /\ nth_error offsets (i + k1) = Some oi
             /\ nth_error offsets k2 = Some oj
             /\ row = shifted oi oj link.
Proof.
  intros Hd. induction todo as [|chain1 rest IH]; intros i Hlen.
  - exists []. split; [reflexivity|]. intros row. split; [intros []|].
    intros (k1 & c & _ & _ & _ & _ & _ & _ & _ & Hk & _). now destruct k1.
  - cbn [length] in Hlen.
    destruct (IH (S i)) as (more & Hmore & Hspec); [lia|].
    destruct (nth_error offsets i) as [oi|] eqn:Hi.
    2:{ apply nth_error_None in Hi. lia. }
    destruct (xl_inner_spec xl offsets i oi chain1 descriptions Hi 0)
      as (here & Hh & Hhspec); [simpl; lia|].
    exists (here ++ more). cbn [xl_outer]. rewrite Hh. cbn [bind ret].
    rewrite Hmore. split; [reflexivity|].
    intros row. rewrite in_app_iff, Hhspec, Hspec. split.
    + intros [(k & c & r & links & link & oj & Hk & G1 & G2 & Hl & Ho & ->)
             |(k1 & c1 & k2 & c2 & r & links & link & oi' & oj & Hk1 & Hk2
               & G1 & G2 & Hl & Ho1 & Ho2 & ->)].
      * exists 0, chain1, k, c, r, links, link, oi, oj.
        rewrite Nat.add_0_r. cbn in Ho. auto 10.
      * exists (S k1), c1, k2, c2, r, links, link, oi', oj.
        rewrite <- plus_n_Sm. auto 10.
    + intros (k1 & c1 & k2 & c2 & r & links & link & oi' & oj & Hk1 & Hk2
              & G1 & G2 & Hl & Ho1 & Ho2 & ->).
      destruct k1 as [|k1].
      * left. cbn in Hk1. injection Hk1 as <-. rewrite Nat.add_0_r in Ho1.
        rewrite Hi in Ho1. injection Ho1 as <-.
        exists k2, c2, r, links, link, oj. cbn. auto 8.
      * right. exists k1, c1, k2, c2, r, links, link, oi', oj.
        rewrite <- plus_n_Sm in Ho1. auto 10.
Qed.



End CrossLinkFeatures.

(** ** Reading the cross-link file *)

Section CrossLinkInput.

(** X23. [process_xl_input] opens the cross-link file first: a missing file
    raises [FileNotFoundError] whatever the features are, and only then a
    missing [asym_id] raises [KeyError].  With the file present and
    [asym_id] an integer tensor, it returns as soon as [chain_id_map] has at
    most one entry more than [asym_id] has distinct chains: no offset lookup
    can then run out of range. *)
Theorem process_xl_input_total :
  forall (xl_disk : string -> option xl_table) (features : TorchDict)
         (crosslinks : string) (chain_id_map : dict string),
    (xl_disk crosslinks = None ->
     process_xl_input xl_disk features crosslinks chain_id_map
     = inl (FileNotFoundError crosslinks))
    /\ (forall t, xl_disk crosslinks = Some t ->
          PyDict.get features "asym_id" = None ->
          process_xl_input xl_disk features crosslinks chain_id_map
          = inl (KeyError "asym_id"))
    /\ (forall t a, xl_disk crosslinks = Some t ->
          PyDict.get features "asym_id" = Some (VInts a) ->
          length (PyDict.values chain_id_map)
          <= S (length (np_unique (data a))) ->
          exists rows,
            process_xl_input xl_disk features crosslinks chain_id_map
            = inr rows
            /\ length (calculate_offsets a) = S (length (np_unique (data a)))).
Proof.
  intros xl_disk features crosslinks cmap. unfold process_xl_input.
  split; [|split].
  - intros H. unfold load_xl_pickle. rewrite H. reflexivity.
  - intros t H G. unfold load_xl_pickle, getitem. rewrite H, G. reflexivity.
  - intros t a H G Hlen. unfold load_xl_pickle, getitem. rewrite H, G.
    cbn [bind ret tensor_offsets].
    assert (Ho : length (calculate_offsets a)
                 = S (length (np_unique (data a)))).
    { unfold calculate_offsets, np_cumsum. simpl.
      now rewrite cumsum_from_length, length_map. }
    destruct (xl_outer_spec t (calculate_offsets a) (PyDict.values cmap))
      with (todo := PyDict.values cmap) (i := 0) as (rows & Hrun & _);
      [cbn [Nat.add]; rewrite Ho; lia|cbn [Nat.add]; rewrite Ho; lia|].
    exists rows. split; [exact Hrun|exact Ho].
Qed.

Lemma process_xl_input_total_witness :
  exists rows,
    process_xl_input ToyXl.xl_disk ToyXl.features "xl.pkl.gz"
      ToyXl.chain_id_map = inr rows.
Proof.
  destruct (proj2 (proj2 (process_xl_input_total ToyXl.xl_disk ToyXl.features
                            "xl.pkl.gz" ToyXl.chain_id_map))
              [("A", [("B", [(0%Z, 0%Z, 1 # 10)])])]
              (mk_ndarray [2] [0; 1]%Z)) as (rows & Hrun & _).
  - reflexivity.
  - reflexivity.
  - simpl. lia.
  - exists rows. exact Hrun.
Defined.

End CrossLinkInput.
